(** * The transaction manager of src/box/txn.cc

    A shallow embedding of the transaction life cycle (begin, statements,
    two-phase prepare, commit through the write-ahead log, rollback) and of
    the [extern "C"] entry points, followed by the properties of the
    manager that the specification states.

    The C++ code mutates one [struct txn] reached through the running
    fiber, calls virtual methods of the storage engine, runs triggers and
    throws exceptions.  The embedding threads a [world] (the fiber's
    transaction slot, the diagnostics area, the recovery position, the
    event-loop clock and a trace of the calls made to collaborators)
    through a small monad whose computations return, throw, or stop on a
    failed [assert]. *)

From Stdlib Require Import ZArith List Bool Lia.
Import ListNotations.
Local Open Scope Z_scope.

(** ** Constants *)

(** Maximum recursion depth for on_replace triggers. *)
Definition TXN_SUB_STMT_MAX : Z := 3.

Definition UINT64_MAX : Z := 2 ^ 64 - 1.
Definition UINT32_MAX : Z := 2 ^ 32 - 1.

(** ** Errors *)

(** The error codes raised in txn.cc; [ER_OTHER] stands for any code
    raised by a collaborator (an engine method or a trigger). *)
Inductive errcode : Type :=
| ER_ALREADY_PREPARED
| ER_ILLEGAL_PARAMS
| ER_CROSS_ENGINE_TRANSACTION
| ER_SUB_STMT_MAX
| ER_CHANGE_PREPARED
| ER_WAL_IO
| ER_UNSUPPORTED
| ER_ACTIVE_TRANSACTION
| ER_NO_ACTIVE_TRANSACTION
| ER_COMMIT_IN_SUB_STMT
| ER_COMMIT_BEFORE_PREPARE
| ER_ROLLBACK_IN_SUB_STMT
| ER_OTHER (code : nat).

(** The two exception classes thrown in txn.cc. *)
Inductive exception : Type :=
| ClientError (code : errcode)
| LoggedError (code : errcode).

(** ** Data model *)

Definition engine_id := nat.
Definition trigger_id := nat.
Definition tuple := nat.

(** [struct xrow_header], with the members txn.cc initialises. *)
Record xrow_header : Type := mk_xrow {
  row_type : Z;
  row_replica_id : Z;
  row_lsn : Z;
  row_sync : Z;
  row_tm : Z;
  row_tx_id : Z;
  row_coordinator_id : Z;
  row_body : list Z
}.

(** [struct request]: the header is a nullable pointer. *)
Record request : Type := mk_request {
  header : option xrow_header;
  req_type : Z;
  req_body : list Z
}.

(** [struct space], restricted to what txn.cc reads: the engine of its
    handler, the temporary flag read by [space_is_temporary], the
    on_replace trigger list and the run_triggers switch. *)
Record space : Type := mk_space {
  space_id : nat;
  handler_engine : engine_id;
  space_is_temporary : bool;
  on_replace : list trigger_id;
  run_triggers : bool
}.

(** Modelled from the spec: [struct txn_stmt] is declared in txn.h,
    which is not embedded here; the members are those of the Statement
    of the specification, under the names txn.cc uses.  Pointers that may
    be null are options. *)
Record txn_stmt : Type := mk_stmt {
  stmt_space : option space;
  old_tuple : option tuple;
  new_tuple : option tuple;
  engine_savepoint : option nat;
  row : option xrow_header
}.

(** Modelled from the spec: [struct txn] is declared in txn.h, which is
    not embedded here; the members are those of the Transaction of the
    specification, under the names txn.cc uses.  The statement queue
    [stmts] is kept in insertion order ([stailq_add_tail_entry] appends at
    the end); the counters [n_rows] and [in_sub_stmt] are integers;
    [on_commit] and [on_rollback] are the trigger lists, which are only
    read when [has_triggers] is set. *)
Record txn : Type := mk_txn {
  stmts : list txn_stmt;
  is_two_phase : bool;
  in_prepare : bool;
  tx_id : Z;
  coordinator_id : Z;
  n_rows : Z;
  is_autocommit : bool;
  has_triggers : bool;
  in_sub_stmt : Z;
  engine : option engine_id;
  engine_tx : option nat;
  on_commit : list trigger_id;
  on_rollback : list trigger_id
}.

(** The virtual methods of [Engine] that the manager calls. *)
Inductive hook : Type :=
| H_begin
| H_beginStatement
| H_prepare
| H_prepare_two_phase
| H_commit (signature : Z)
| H_rollback
| H_rollbackStatement (stmt : txn_stmt).

(** The trigger lists run by [trigger_run]. *)
Inductive trigger_list : Type :=
| L_on_replace (sp : nat)
| L_on_commit
| L_on_rollback.

(** Calls made to collaborators, in the order they are made. *)
Inductive event : Type :=
| EvEngine (e : engine_id) (h : hook)
| EvTrigger (l : trigger_list) (t : trigger_id)
| EvWalWrite (rows : list xrow_header)
| EvSayWarn
| EvRegionDestroy
| EvMempoolFree
| EvFiberGc
| EvFiberReschedule.

(** The state the manager works on: the transaction of the running fiber
    ([in_txn()]), the diagnostics area, the recovery position, the cached
    event-loop time ([ev_now(loop())]) and the trace of calls. *)
Record world : Type := mk_world {
  fiber_txn : option txn;
  diag : option exception;
  vclock_sum : Z;
  ev_now : Z;
  trace : list event
}.

(** The collaborators.  An engine method or a trigger either returns
    ([None]) or throws ([Some e]), depending on the state it is called
    in.  [wal] is the log writer, [None] when no writer is attached
    ([wal == NULL]); applied to a request it gives the result of
    [wal_write] and the event-loop time at which the fiber is resumed.
    [request_encode] stands for [request_encode_xc] of xrow.cc. *)
Record Env : Type := mk_env {
  engine_call : engine_id -> hook -> world -> option exception;
  trigger_call : trigger_list -> trigger_id -> world -> option exception;
  wal : option (list xrow_header -> world -> Z * Z);
  request_encode : request -> list Z;
  too_long_threshold : Z
}.

(** ** Field updates *)

Definition set_row (r : option xrow_header) (s : txn_stmt) : txn_stmt :=
  mk_stmt (stmt_space s) (old_tuple s) (new_tuple s) (engine_savepoint s) r.

Definition set_stmt_space (sp : option space) (s : txn_stmt) : txn_stmt :=
  mk_stmt sp (old_tuple s) (new_tuple s) (engine_savepoint s) (row s).

Definition set_stmts (l : list txn_stmt) (t : txn) : txn :=
  mk_txn l (is_two_phase t) (in_prepare t) (tx_id t) (coordinator_id t)
    (n_rows t) (is_autocommit t) (has_triggers t) (in_sub_stmt t)
    (engine t) (engine_tx t) (on_commit t) (on_rollback t).

Definition set_is_two_phase (b : bool) (t : txn) : txn :=
  mk_txn (stmts t) b (in_prepare t) (tx_id t) (coordinator_id t)
    (n_rows t) (is_autocommit t) (has_triggers t) (in_sub_stmt t)
    (engine t) (engine_tx t) (on_commit t) (on_rollback t).

Definition set_in_prepare (b : bool) (t : txn) : txn :=
  mk_txn (stmts t) (is_two_phase t) b (tx_id t) (coordinator_id t)
    (n_rows t) (is_autocommit t) (has_triggers t) (in_sub_stmt t)
    (engine t) (engine_tx t) (on_commit t) (on_rollback t).

Definition set_tx_id (x : Z) (t : txn) : txn :=
  mk_txn (stmts t) (is_two_phase t) (in_prepare t) x (coordinator_id t)
    (n_rows t) (is_autocommit t) (has_triggers t) (in_sub_stmt t)
    (engine t) (engine_tx t) (on_commit t) (on_rollback t).

Definition set_coordinator_id (x : Z) (t : txn) : txn :=
  mk_txn (stmts t) (is_two_phase t) (in_prepare t) (tx_id t) x
    (n_rows t) (is_autocommit t) (has_triggers t) (in_sub_stmt t)
    (engine t) (engine_tx t) (on_commit t) (on_rollback t).

Definition set_n_rows (n : Z) (t : txn) : txn :=
  mk_txn (stmts t) (is_two_phase t) (in_prepare t) (tx_id t) (coordinator_id t)
    n (is_autocommit t) (has_triggers t) (in_sub_stmt t)
    (engine t) (engine_tx t) (on_commit t) (on_rollback t).

Definition set_in_sub_stmt (n : Z) (t : txn) : txn :=
  mk_txn (stmts t) (is_two_phase t) (in_prepare t) (tx_id t) (coordinator_id t)
    (n_rows t) (is_autocommit t) (has_triggers t) n
    (engine t) (engine_tx t) (on_commit t) (on_rollback t).

Definition set_engine (e : option engine_id) (t : txn) : txn :=
  mk_txn (stmts t) (is_two_phase t) (in_prepare t) (tx_id t) (coordinator_id t)
    (n_rows t) (is_autocommit t) (has_triggers t) (in_sub_stmt t)
    e (engine_tx t) (on_commit t) (on_rollback t).

Definition set_fiber_txn (t : option txn) (w : world) : world :=
  mk_world t (diag w) (vclock_sum w) (ev_now w) (trace w).

Definition set_diag (d : option exception) (w : world) : world :=
  mk_world (fiber_txn w) d (vclock_sum w) (ev_now w) (trace w).

Definition set_vclock_sum (v : Z) (w : world) : world :=
  mk_world (fiber_txn w) (diag w) v (ev_now w) (trace w).

Definition set_ev_now (n : Z) (w : world) : world :=
  mk_world (fiber_txn w) (diag w) (vclock_sum w) n (trace w).

Definition log_event (ev : event) (w : world) : world :=
  mk_world (fiber_txn w) (diag w) (vclock_sum w) (ev_now w) (trace w ++ [ev]).

(** ** The monad of the manager *)

(** How a call ends: it returns a value, throws a C++ exception, or the
    process stops on a failed [assert] (or on a null dereference). *)
Inductive outcome (A : Type) : Type :=
| Ret (a : A)
| Throw (e : exception)
| Abort.

Arguments Ret {A} a.
Arguments Throw {A} e.
Arguments Abort {A}.

Definition M (A : Type) : Type := world -> outcome A * world.

Definition ret {A : Type} (a : A) : M A := fun w => (Ret a, w).

Definition bind {A B : Type} (m : M A) (k : A -> M B) : M B :=
  fun w =>
    match m w with
    | (Ret a, w') => k a w'
    | (Throw e, w') => (Throw e, w')
    | (Abort, w') => (Abort, w')
    end.

Declare Scope txn_scope.
Delimit Scope txn_scope with txn.
Notation "x <- m ;; k" := (bind m (fun x => k))
  (at level 61, m at next level, right associativity) : txn_scope.
Notation "m ;; k" := (bind m (fun _ => k))
  (at level 61, right associativity) : txn_scope.
Local Open Scope txn_scope.

(** [assert(b)]. *)
Definition assert (b : bool) : M unit :=
  fun w => if b then (Ret tt, w) else (Abort, w).

Definition abort {A : Type} : M A := fun w => (Abort, w).

(** Modelled from the spec: [tnt_raise] and [diag_set] are macros of
    exception.h and diag.h, headers that are not embedded here.  The
    specification says that an entry point reports failure through a
    process-wide last-error slot; accordingly raising an error records it
    in the diagnostics area and throws it, and [diag_set] only records
    it. *)
Definition tnt_raise {A : Type} (e : exception) : M A :=
  fun w => (Throw e, set_diag (Some e) w).

Definition diag_set (e : exception) : M unit :=
  fun w => (Ret tt, set_diag (Some e) w).

(** [try { m } catch (Exception *e) { h }]. *)
Definition try_catch {A : Type} (m : M A) (h : exception -> M A) : M A :=
  fun w =>
    match m w with
    | (Throw e, w') => h e w'
    | r => r
    end.

Definition in_txn : M (option txn) := fun w => (Ret (fiber_txn w), w).

Definition fiber_set_txn (t : option txn) : M unit :=
  fun w => (Ret tt, set_fiber_txn t w).

(** Reading through a [struct txn *]: the pointer is the transaction of
    the running fiber; a null pointer stops the process. *)
Definition deref_txn : M txn :=
  fun w => match fiber_txn w with
           | Some t => (Ret t, w)
           | None => (Abort, w)
           end.

(** Writing through a [struct txn *]. *)
Definition update_txn (f : txn -> txn) : M unit :=
  fun w => match fiber_txn w with
           | Some t => (Ret tt, set_fiber_txn (Some (f t)) w)
           | None => (Abort, w)
           end.

Definition emit (ev : event) : M unit := fun w => (Ret tt, log_event ev w).

(** ** Helpers on the statement queue *)

(** [stailq_last_entry]: the last statement of the queue, if any. *)
Fixpoint stailq_last_entry (l : list txn_stmt) : option txn_stmt :=
  match l with
  | [] => None
  | [s] => Some s
  | _ :: rest => stailq_last_entry rest
  end.

(** A write through the pointer returned by [stailq_last_entry]. *)
Fixpoint update_last (f : txn_stmt -> txn_stmt) (l : list txn_stmt)
  : list txn_stmt :=
  match l with
  | [] => []
  | [s] => [f s]
  | s :: rest => s :: update_last f rest
  end.

(** [rlist_empty]. *)
Definition rlist_empty {A : Type} (l : list A) : bool :=
  match l with
  | [] => true
  | _ :: _ => false
  end.

(** [p != NULL] for a nullable pointer. *)
Definition non_null {A : Type} (p : option A) : bool :=
  match p with
  | Some _ => true
  | None => false
  end.

(** The log rows carried by a statement queue, in queue order. *)
Fixpoint present_rows (l : list txn_stmt) : list xrow_header :=
  match l with
  | [] => []
  | s :: rest =>
      match row s with
      | Some r => r :: present_rows rest
      | None => present_rows rest
      end
  end.

(** ** Recovery position *)

Definition set_row_lsn (n : Z) (r : xrow_header) : xrow_header :=
  mk_xrow (row_type r) (row_replica_id r) n (row_sync r) (row_tm r)
    (row_tx_id r) (row_coordinator_id r) (row_body r).

Definition set_row_tm (t : Z) (r : xrow_header) : xrow_header :=
  mk_xrow (row_type r) (row_replica_id r) (row_lsn r) (row_sync r) t
    (row_tx_id r) (row_coordinator_id r) (row_body r).

(** Modelled from the spec: [recovery_fill_lsn] is defined in
    recovery.cc, which is not embedded here.  The specification says that each row is stamped with a globally monotonic
    sequence number supplied by the recovery position tracker: the
    position is advanced by one and written to the row. *)
Definition recovery_fill_lsn (v : Z) (r : xrow_header) : Z * xrow_header :=
  (v + 1, set_row_lsn (v + 1) r).

(** ** The transaction manager *)

Section Manager.

Variable env : Env.

(** A call of a virtual method of the engine (engine.h): it is recorded
    in the trace, and returns or throws as the collaborator decides.  The
    data the engine keeps in [engine_tx] and [engine_savepoint] is its
    own and is not modelled. *)
Definition engine_invoke (e : engine_id) (h : hook) : M unit :=
  fun w =>
    match engine_call env e h w with
    | None => (Ret tt, log_event (EvEngine e h) w)
    | Some x => (Throw x, set_diag (Some x) (log_event (EvEngine e h) w))
    end.

(** Modelled from the spec: [trigger_run] is defined in trigger.h,
    which is not embedded here.  The specification fixes the order of the
    invocations and that a callback may fail: the triggers of a list run
    in order, each call is recorded in the trace, and the first trigger
    that throws ends the run.  What a trigger does besides is not
    modelled: the statements it may issue are calls of their own. *)
Fixpoint trigger_run (l : trigger_list) (ts : list trigger_id) : M unit :=
  match ts with
  | [] => ret tt
  | t :: rest =>
      fun w =>
        match trigger_call env l t w with
        | None => trigger_run l rest (log_event (EvTrigger l t) w)
        | Some x => (Throw x, set_diag (Some x) (log_event (EvTrigger l t) w))
        end
  end.

Definition txn_add_redo (stmt : txn_stmt) (request : request) : txn_stmt :=
  match header request with
  | Some h => set_row (Some h) stmt
  | None =>
      (* Create a redo log row for Lua requests *)
      set_row (Some (mk_xrow (req_type request) 0 0 0 0 0 0
                       (request_encode env request))) stmt
  end.

(** Initialize a new stmt object within txn. *)
Definition txn_stmt_new (t : txn) : txn :=
  set_in_sub_stmt (in_sub_stmt t + 1)
    (set_stmts (stmts t ++ [mk_stmt None None None None None]) t).

Definition txn_begin (autocommit : bool) : M unit :=
  cur <- in_txn ;;
  assert (negb (non_null cur)) ;;
  fiber_set_txn
    (Some (mk_txn [] false false UINT64_MAX UINT32_MAX 0 autocommit false 0
             None None [] [])).

Definition txn_begin_two_phase (id : Z) (coordinator : Z) : M unit :=
  txn_begin false ;;
  update_txn (set_tx_id id) ;;
  update_txn (set_coordinator_id coordinator) ;;
  update_txn (set_is_two_phase true).

Definition txn_prepare_two_phase (hdr : xrow_header) : M unit :=
  t <- deref_txn ;;
  if in_prepare t then tnt_raise (ClientError ER_ALREADY_PREPARED)
  else if negb (is_two_phase t) then tnt_raise (ClientError ER_ILLEGAL_PARAMS)
  else
    assert (negb (in_prepare t)) ;;
    assert (is_two_phase t) ;;
    assert (row_tx_id hdr =? tx_id t) ;;
    assert (row_coordinator_id hdr =? coordinator_id t) ;;
    update_txn (set_in_prepare true) ;;
    match engine t with
    | Some e => engine_invoke e H_prepare_two_phase
    | None => ret tt
    end.

Definition txn_begin_in_engine (e : engine_id) : M unit :=
  t <- deref_txn ;;
  match engine t with
  | None =>
      assert (rlist_empty (stmts t)) ;;
      update_txn (set_engine (Some e)) ;;
      engine_invoke e H_begin
  | Some e' =>
      if negb (Nat.eqb e' e)
      then
        (* Only one engine can be used in a multi-statement transaction
           currently. *)
        tnt_raise (ClientError ER_CROSS_ENGINE_TRANSACTION)
      else ret tt
  end.

Definition txn_begin_stmt (sp : space) : M unit :=
  cur <- in_txn ;;
  match cur with
  | None => txn_begin true
  | Some t =>
      if in_sub_stmt t >? TXN_SUB_STMT_MAX
      then tnt_raise (ClientError ER_SUB_STMT_MAX)
      else if in_prepare t
      then assert (is_two_phase t) ;; tnt_raise (ClientError ER_CHANGE_PREPARED)
      else ret tt
  end ;;
  t <- deref_txn ;;
  assert (negb (in_prepare t)) ;;
  let e := handler_engine sp in
  txn_begin_in_engine e ;;
  update_txn (fun t => set_stmts (update_last (set_stmt_space (Some sp))
                                    (stmts (txn_stmt_new t)))
                         (txn_stmt_new t)) ;;
  engine_invoke e H_beginStatement.

(** Roll back the transaction of the running fiber, if any. *)
Definition txn_rollback : M unit :=
  cur <- in_txn ;;
  match cur with
  | None => ret tt
  | Some t =>
      (if has_triggers t
       then trigger_run L_on_rollback (on_rollback t) (* must not throw. *)
       else ret tt) ;;
      match engine t with
      | Some e => engine_invoke e H_rollback
      | None => ret tt
      end ;;
      emit EvRegionDestroy ;;
      emit EvMempoolFree ;;
      emit EvFiberGc ;;
      fiber_set_txn None
  end.

(** The loop of [txn_write_to_wal]: statements without a row are
    skipped; the row of every other statement gets its sequence number
    and the current time and is appended to the request.  The rows are
    shared between the statement and the request, so the statement sees
    the stamps too. *)
Fixpoint wal_fill (ss : list txn_stmt) (v : Z) (now : Z)
    (req : list xrow_header) : list txn_stmt * Z * list xrow_header :=
  match ss with
  | [] => ([], v, req)
  | s :: rest =>
      match row s with
      | None =>
          (* A read (e.g. select) request *)
          let '(ss', v', req') := wal_fill rest v now req in
          (s :: ss', v', req')
      | Some r =>
          let '(v1, r1) := recovery_fill_lsn v r in
          let r2 := set_row_tm now r1 in
          let '(ss', v', req') := wal_fill rest v1 now (req ++ [r2]) in
          (set_row (Some r2) s :: ss', v', req')
      end
  end.

(** The loop run on the transaction of the fiber: it returns the
    request and leaves the stamped rows in the statements and the new
    recovery position in the world. *)
Definition wal_request_fill : M (list xrow_header) :=
  fun w =>
    match fiber_txn w with
    | Some t =>
        let r := wal_fill (stmts t) (vclock_sum w) (ev_now w) [] in
        (Ret (snd r),
         set_vclock_sum (snd (fst r))
           (set_fiber_txn (Some (set_stmts (fst (fst r)) t)) w))
    | None => (Abort, w)
    end.

(** [wal_write(req)], or the recovery position when no writer is
    attached. *)
Definition wal_submit (req : list xrow_header) : M Z :=
  match wal env with
  | None =>
      (* wal_mode = NONE or initial recovery. *)
      fun w => (Ret (vclock_sum w), w)
  | Some write =>
      fun w =>
        let r := write req w in
        (Ret (fst r), set_ev_now (snd r) (log_event (EvWalWrite req) w))
  end.

Definition txn_write_to_wal : M Z :=
  t <- deref_txn ;;
  assert (n_rows t >? 0) ;;
  req <- wal_request_fill ;;
  assert (Z.of_nat (length req) =? n_rows t) ;;
  start <- (fun w => (Ret (ev_now w), w)) ;;
  res <- wal_submit req ;;
  stop <- (fun w => (Ret (ev_now w), w)) ;;
  (if stop - start >? too_long_threshold env then emit EvSayWarn else ret tt) ;;
  if res <? 0
  then
    (* Cascading rollback. *)
    txn_rollback ;;
    emit EvFiberReschedule ;;
    tnt_raise (LoggedError ER_WAL_IO)
  else ret res.

Definition txn_commit : M unit :=
  t <- deref_txn ;;
  assert (rlist_empty (stmts t) || non_null (engine t)) ;;
  assert (negb (is_two_phase t) || in_prepare t) ;;
  match engine t with
  | Some e =>
      (if negb (is_two_phase t) then engine_invoke e H_prepare else ret tt) ;;
      signature <- (if n_rows t >? 0 then txn_write_to_wal else ret (-1)) ;;
      (if has_triggers t
       then trigger_run L_on_commit (on_commit t)
       else ret tt) ;;
      engine_invoke e (H_commit signature)
  | None => ret tt
  end ;;
  emit EvRegionDestroy ;;
  emit EvMempoolFree ;;
  emit EvFiberGc ;;
  fiber_set_txn None.

(** End a statement. In autocommit mode, end the current transaction as
    well. *)
Definition txn_commit_stmt (rq : request) : M unit :=
  t <- deref_txn ;;
  assert (in_sub_stmt t >? 0) ;;
  assert (negb (in_prepare t)) ;;
  match stailq_last_entry (stmts t) with
  | None => abort
  | Some stmt =>
      match stmt_space stmt with
      | None => abort
      | Some sp =>
          (* Create WAL record for the write requests in non-temporary
             spaces *)
          (if negb (space_is_temporary sp)
           then
             update_txn
               (fun t => set_stmts
                           (update_last (fun s => txn_add_redo s rq) (stmts t))
                           t) ;;
             update_txn (fun t => set_n_rows (n_rows t + 1) t)
           else ret tt) ;;
          (if negb (rlist_empty (on_replace sp)) && run_triggers sp
              && (non_null (old_tuple stmt) || non_null (new_tuple stmt))
           then trigger_run (L_on_replace (space_id sp)) (on_replace sp)
           else ret tt) ;;
          update_txn (fun t => set_in_sub_stmt (in_sub_stmt t - 1) t) ;;
          t' <- deref_txn ;;
          if is_autocommit t' && (in_sub_stmt t' =? 0)
          then txn_commit
          else ret tt
      end
  end.

(** Void all effects of the statement, but keep it in the list - to
    maintain limit on the number of statements in a transaction. *)
Definition txn_rollback_stmt : M unit :=
  cur <- in_txn ;;
  match cur with
  | None => ret tt
  | Some t =>
      if is_autocommit t then txn_rollback
      else if in_sub_stmt t =? 0 then ret tt
      else
        match stailq_last_entry (stmts t), engine t with
        | Some stmt, Some e =>
            engine_invoke e (H_rollbackStatement stmt) ;;
            match row stmt with
            | Some _ =>
                update_txn
                  (fun t => set_stmts (update_last (set_row None) (stmts t)) t) ;;
                update_txn (fun t => set_n_rows (n_rows t - 1) t) ;;
                t' <- deref_txn ;;
                assert (n_rows t' >=? 0)
            | None => ret tt
            end ;;
            update_txn (fun t => set_in_sub_stmt (in_sub_stmt t - 1) t)
        | _, _ => abort
        end
  end.

Definition txn_check_autocommit : M unit :=
  t <- deref_txn ;;
  if negb (is_autocommit t)
  then tnt_raise (ClientError ER_UNSUPPORTED)
  else ret tt.

(** *** The [extern "C"] entry points *)

Definition box_txn : M bool :=
  cur <- in_txn ;; ret (non_null cur).

Definition box_txn_begin : M Z :=
  try_catch
    (cur <- in_txn ;;
     (if non_null cur
      then tnt_raise (ClientError ER_ACTIVE_TRANSACTION)
      else ret tt) ;;
     txn_begin false ;;
     ret 0)
    (fun _ => ret (-1)).

Definition box_txn_begin_two_phase (id : Z) (coordinator : Z) : M Z :=
  try_catch
    (cur <- in_txn ;;
     (if non_null cur
      then tnt_raise (ClientError ER_ACTIVE_TRANSACTION)
      else ret tt) ;;
     txn_begin_two_phase id coordinator ;;
     ret 0)
    (fun _ => ret (-1)).

Definition box_txn_prepare_two_phase (iproto_prepare replica : Z) : M Z :=
  cur <- in_txn ;;
  match cur with
  | None =>
      diag_set (ClientError ER_NO_ACTIVE_TRANSACTION) ;;
      ret (-1)
  | Some t =>
      try_catch
        (txn_prepare_two_phase
           (mk_xrow iproto_prepare replica 0 0 0 (tx_id t) (coordinator_id t) []) ;;
         ret 0)
        (fun _ => ret (-1))
  end.

Definition box_txn_commit : M Z :=
  cur <- in_txn ;;
  match cur with
  | None =>
      (* Do nothing if transaction is not started, it's the same as
         BEGIN + COMMIT. *)
      ret 0
  | Some t =>
      if negb (in_sub_stmt t =? 0)
      then diag_set (ClientError ER_COMMIT_IN_SUB_STMT) ;; ret (-1)
      else if is_two_phase t && negb (in_prepare t)
      then diag_set (ClientError ER_COMMIT_BEFORE_PREPARE) ;; ret (-1)
      else
        try_catch
          (txn_commit ;; ret 0)
          (fun _ => txn_rollback ;; ret (-1))
  end.

Definition box_txn_rollback : M Z :=
  cur <- in_txn ;;
  match cur with
  | Some t =>
      if negb (in_sub_stmt t =? 0)
      then diag_set (ClientError ER_ROLLBACK_IN_SUB_STMT) ;; ret (-1)
      else txn_rollback ;; ret 0
  | None => txn_rollback ;; ret 0
  end.

End Manager.

(** ** Driving the manager *)

(** The calls a client of txn.h can make on a fiber.  [OpExecute] stands
    for the engine executing the open statement between
    [txn_begin_stmt] and [txn_commit_stmt]: the only thing it does to the
    manager's data is to fill in the tuples of the last statement. *)
Inductive op : Type :=
| OpBegin
| OpBeginTwoPhase (id coordinator : Z)
| OpPrepareTwoPhase (iproto_prepare replica : Z)
| OpCommit
| OpRollback
| OpBeginStmt (sp : space)
| OpExecute (old new : option tuple)
| OpCommitStmt (rq : request)
| OpRollbackStmt.

Definition set_tuples (old new : option tuple) (s : txn_stmt) : txn_stmt :=
  mk_stmt (stmt_space s) old new (engine_savepoint s) (row s).

Definition run_op (env : Env) (o : op) (w : world) : world :=
  match o with
  | OpBegin => snd (box_txn_begin w)
  | OpBeginTwoPhase id c => snd (box_txn_begin_two_phase id c w)
  | OpPrepareTwoPhase ip r => snd (box_txn_prepare_two_phase env ip r w)
  | OpCommit => snd (box_txn_commit env w)
  | OpRollback => snd (box_txn_rollback env w)
  | OpBeginStmt sp => snd (txn_begin_stmt env sp w)
  | OpExecute old new =>
      match fiber_txn w with
      | Some t =>
          set_fiber_txn
            (Some (set_stmts (update_last (set_tuples old new) (stmts t)) t)) w
      | None => w
      end
  | OpCommitStmt rq => snd (txn_commit_stmt env rq w)
  | OpRollbackStmt => snd (txn_rollback_stmt env w)
  end.

Definition run_ops (env : Env) (os : list op) (w : world) : world :=
  fold_left (fun w o => run_op env o w) os w.

(** ** Invariants and specification functions *)

(** The bound on the nesting of statements that [txn_begin_stmt]
    enforces. *)
Definition depth_ok (cur : option txn) : Prop :=
  match cur with
  | Some t => in_sub_stmt t <= TXN_SUB_STMT_MAX + 1
  | None => True
  end.

(** [n_rows] counts the statements that carry a log row. *)
Definition rows_consistent (cur : option txn) : Prop :=
  match cur with
  | Some t => n_rows t = Z.of_nat (length (present_rows (stmts t)))
  | None => True
  end.

(** The stamps a request gets in [txn_write_to_wal], written as a
    specification: the i-th row gets the i-th sequence number after [v]
    and the time [now]. *)
Fixpoint stamp_rows (v : Z) (now : Z) (rows : list xrow_header)
  : list xrow_header :=
  match rows with
  | [] => []
  | r :: rest =>
      set_row_tm now (set_row_lsn (v + 1) r) :: stamp_rows (v + 1) now rest
  end.

(** The contribution of a statement to [n_rows]. *)
Definition row_contribution (s : txn_stmt) : Z :=
  if non_null (row s) then 1 else 0.

(** The condition under which [txn_commit_stmt] runs the on_replace
    triggers of the space of a statement. *)
Definition triggers_fire (s : txn_stmt) (sp : space) : bool :=
  negb (rlist_empty (on_replace sp)) && run_triggers sp
  && (non_null (old_tuple s) || non_null (new_tuple s)).

Definition is_on_replace_event (ev : event) : bool :=
  match ev with
  | EvTrigger (L_on_replace _) _ => true
  | _ => false
  end.

(** ** Sample collaborators and objects *)

(** Engines and triggers that always return; a log writer that
    acknowledges every write with the recovery position. *)
Definition env_ok : Env :=
  mk_env (fun _ _ _ => None) (fun _ _ _ => None)
    (Some (fun _ w => (vclock_sum w, ev_now w))) req_body 5.

(** The same, with a log writer that fails every write. *)
Definition env_wal_fails : Env :=
  mk_env (fun _ _ _ => None) (fun _ _ _ => None)
    (Some (fun _ w => (-1, ev_now w + 10))) req_body 5.

Definition world0 : world := mk_world None None 0 0 [].

(** A durable space of engine 0 with one on_replace trigger, a temporary
    space of engine 0, and a durable space of engine 1. *)
Definition space_a : space := mk_space 1%nat 0%nat false [7%nat] true.
Definition space_tmp : space := mk_space 2%nat 0%nat true [] true.
Definition space_b : space := mk_space 3%nat 1%nat false [] true.

Definition request_lua : request := mk_request None 2 [1; 2].
Definition request_lua' : request := mk_request None 3 [4].

(** Worlds reached by driving the manager from the initial one. *)
Definition w_open_stmt : world :=
  Eval vm_compute in
  run_ops env_ok [OpBegin; OpBeginStmt space_a] world0.

Definition w_two_phase : world :=
  Eval vm_compute in
  run_ops env_ok [OpBeginTwoPhase 1 2] world0.

Definition w_prepared : world :=
  Eval vm_compute in
  run_ops env_ok
    [OpBeginTwoPhase 1 2; OpBeginStmt space_a; OpExecute None (Some 5%nat);
     OpCommitStmt request_lua; OpPrepareTwoPhase 0 0] world0.

Definition w_depth3 : world :=
  Eval vm_compute in
  run_ops env_ok
    [OpBegin; OpBeginStmt space_a; OpBeginStmt space_a; OpBeginStmt space_a]
    world0.

Definition w_depth4 : world :=
  Eval vm_compute in run_ops env_ok [OpBeginStmt space_a] w_depth3.

(** ** Properties of computations *)

(** [m] keeps the property [J] of the transaction slot of the fiber. *)
Definition keeps (J : option txn -> Prop) {A : Type} (m : M A) : Prop :=
  forall w, J (fiber_txn w) -> J (fiber_txn (snd (m w))).

(** [m] only appends to the trace, and what it appends satisfies [P]. *)
Definition emits (P : event -> Prop) {A : Type} (m : M A) : Prop :=
  forall w, exists d, trace (snd (m w)) = trace w ++ d /\ Forall P d.

(** The calls recorded between the world [w] and a later world [w']. *)
Definition events_since (w w' : world) : list event :=
  skipn (length (trace w)) (trace w').

Definition add_trace (d : list event) (w : world) : world :=
  mk_world (fiber_txn w) (diag w) (vclock_sum w) (ev_now w) (trace w ++ d).

(** ** The steps of [txn_commit_stmt] *)

(** The transaction after the first step of [txn_commit_stmt], which
    gives the last statement its log row and counts it unless the space
    is temporary. *)
Definition commit_stmt_redo (env : Env) (rq : request) (sp : space) (t : txn)
  : txn :=
  if space_is_temporary sp then t
  else set_n_rows (n_rows t + 1)
         (set_stmts (update_last (fun s => txn_add_redo env s rq) (stmts t)) t).

(** The last step of [txn_commit_stmt]: the statement is closed, and
    the transaction committed in autocommit mode. *)
Definition commit_stmt_end (env : Env) : M unit :=
  (update_txn (fun t => set_in_sub_stmt (in_sub_stmt t - 1) t) ;;
   t' <- deref_txn ;;
   if is_autocommit t' && (in_sub_stmt t' =? 0)
   then txn_commit env
   else ret tt)%txn.

(** An explicit transaction with one statement on [space_a], executed
    (it produced a new tuple) and not yet committed. *)
Definition w_executed : world :=
  Eval vm_compute in
  run_ops env_ok [OpBegin; OpBeginStmt space_a; OpExecute None (Some 5%nat)]
    world0.

(** Triggers that always throw. *)
Definition env_trigger_fails : Env :=
  mk_env (fun _ _ _ => None) (fun _ _ _ => Some (ClientError (ER_OTHER 1%nat)))
    (Some (fun _ w => (vclock_sum w, ev_now w))) req_body 5.

(** An explicit transaction with a committed statement and a second
    statement whose on_replace trigger threw: the second statement is
    still open and has its log row. *)
Definition w_trigger_failed : world :=
  Eval vm_compute in
  run_ops env_trigger_fails
    [OpBeginStmt space_a; OpExecute (Some 5%nat) (Some 6%nat);
     OpCommitStmt request_lua']
    (run_ops env_ok
       [OpBegin; OpBeginStmt space_tmp; OpExecute None (Some 5%nat);
        OpCommitStmt request_lua;
        OpBeginStmt space_a; OpExecute None None; OpCommitStmt request_lua]
       world0).

(** An explicit transaction in which a second statement was begun
    before the first one was committed, and one statement has been
    committed since. *)
Definition w_nested : world :=
  Eval vm_compute in
  run_ops env_ok
    [OpBegin; OpBeginStmt space_a; OpBeginStmt space_a;
     OpExecute None (Some 5%nat); OpCommitStmt request_lua]
    world0.

(** ** Statements run one after another *)

(** A statement as a client runs it: the space, the tuples the engine
    finds or produces when it executes the statement, and the request
    passed to [txn_commit_stmt]. *)
Record stmt_call : Type := mk_call {
  call_space : space;
  call_old : option tuple;
  call_new : option tuple;
  call_request : request
}.

Definition call_ops (c : stmt_call) : list op :=
  [OpBeginStmt (call_space c); OpExecute (call_old c) (call_new c);
   OpCommitStmt (call_request c)].

Definition calls_ops (cs : list stmt_call) : list op := flat_map call_ops cs.

(** The statements that are not on a temporary space. *)
Definition durable_calls (cs : list stmt_call) : list stmt_call :=
  filter (fun c => negb (space_is_temporary (call_space c))) cs.

(** The log row [txn_add_redo] makes of a request. *)
Definition request_row (env : Env) (rq : request) : xrow_header :=
  match header rq with
  | Some h => h
  | None => mk_xrow (req_type rq) 0 0 0 0 0 0 (request_encode env rq)
  end.

(** The engines and the triggers of [env] never throw. *)
Definition collaborators_return (env : Env) : Prop :=
  (forall e h w, engine_call env e h w = None) /\
  (forall l t w, trigger_call env l t w = None).

(** A transaction begun with [box_txn_begin] between two statements:
    not in autocommit mode, not prepared, no statement open, and bound
    to the engine [a] unless it has no statement yet. *)
Definition between_statements (a : engine_id) (t : txn) : Prop :=
  is_two_phase t = false /\
  is_autocommit t = false /\ in_prepare t = false /\ in_sub_stmt t = 0 /\
  (engine t = Some a \/ (engine t = None /\ stmts t = [])).

Definition is_wal_write_event (ev : event) : bool :=
  match ev with
  | EvWalWrite _ => true
  | _ => false
  end.

(** A statement on [space_a] that finds and produces no tuple. *)
Definition call_no_change : stmt_call :=
  mk_call space_a None None request_lua.

(** A statement on the temporary space that produces a tuple. *)
Definition call_temporary : stmt_call :=
  mk_call space_tmp None (Some 5%nat) request_lua'.

(** A statement on [space_a] that replaces a tuple. *)
Definition call_replace : stmt_call :=
  mk_call space_a (Some 5%nat) (Some 6%nat) request_lua'.

(** ** Rollback and the failure of a log write *)

(** The calls [txn_rollback] makes on the transaction [t] when none of
    them throws. *)
Definition rollback_events (t : txn) : list event :=
  (if has_triggers t then map (EvTrigger L_on_rollback) (on_rollback t) else [])
  ++ match engine t with
     | Some e => [EvEngine e H_rollback]
     | None => []
     end
  ++ [EvRegionDestroy; EvMempoolFree; EvFiberGc].

(** The on_rollback triggers and the rollback method of the engine
    "must not throw". *)
Definition rollback_does_not_throw (env : Env) (t : txn) : Prop :=
  (forall tr w, In tr (on_rollback t) ->
                trigger_call env L_on_rollback tr w = None) /\
  (forall e w, engine t = Some e -> engine_call env e H_rollback w = None).

(** The world in which [txn_commit] submits the request of the
    transaction [t] bound to the engine [e]: the engine has prepared the
    transaction, unless it is a two-phase one, and the rows are
    stamped. *)
Definition submit_world (t : txn) (e : engine_id) (w : world) : world :=
  snd (wal_request_fill
         (if is_two_phase t then w else log_event (EvEngine e H_prepare) w)).

(** The calls [txn_commit] makes when the log writer fails the request
    [req] and answers at time [stop]. *)
Definition wal_failure_events (env : Env) (t : txn) (e : engine_id)
    (req : list xrow_header) (start stop : Z) : list event :=
  (if is_two_phase t then [] else [EvEngine e H_prepare])
  ++ [EvWalWrite req]
  ++ (if stop - start >? too_long_threshold env then [EvSayWarn] else [])
  ++ rollback_events t
  ++ [EvFiberReschedule].

(** An explicit transaction with two committed statements, one of them
    on a temporary space, and on_rollback triggers. *)
Definition w_two_stmts : world :=
  Eval vm_compute in
  match fiber_txn (run_ops env_ok
                     (OpBegin :: calls_ops [call_temporary; call_replace])
                     world0) with
  | Some t =>
      mk_world
        (Some (mk_txn (stmts t) false false (tx_id t) (coordinator_id t)
                 (n_rows t) false true 0 (engine t) None [11%nat] [12%nat; 13%nat]))
        None 7 100 []
  | None => world0
  end.

(** ** Successful commit *)

(** A statement begun on a fiber without a transaction: the transaction
    is in autocommit mode and the statement is open. *)
Definition w_autocommit_stmt : world :=
  Eval vm_compute in
  run_ops env_ok [OpBeginStmt space_a; OpExecute None (Some 5%nat)] world0.

(** The result of the log write in the world [wf], in which the rows are
    stamped: the result of [wal_write], or the recovery position when no
    writer is attached. *)
Definition wal_result (env : Env) (req : list xrow_header) (wf : world) : Z :=
  match wal env with
  | Some write => fst (write req wf)
  | None => vclock_sum wf
  end.

(** The event-loop time after the log write. *)
Definition wal_stop (env : Env) (req : list xrow_header) (wf : world) : Z :=
  match wal env with
  | Some write => snd (write req wf)
  | None => ev_now wf
  end.

(** The calls of [txn_write_to_wal] when the write succeeds. *)
Definition wal_events (env : Env) (req : list xrow_header) (start stop : Z)
  : list event :=
  match wal env with
  | Some _ => [EvWalWrite req]
  | None => []
  end
  ++ (if stop - start >? too_long_threshold env then [EvSayWarn] else []).

(** The calls that end [txn_commit] once the signature is known. *)
Definition commit_tail_events (t : txn) (e : engine_id) (signature : Z)
  : list event :=
  (if has_triggers t then map (EvTrigger L_on_commit) (on_commit t) else [])
  ++ [EvEngine e (H_commit signature);
      EvRegionDestroy; EvMempoolFree; EvFiberGc].

(** "The transaction is in the binary log. No action below may throw":
    the on_commit triggers and the commit method of the engine. *)
Definition commit_does_not_throw (env : Env) (t : txn) (e : engine_id) : Prop :=
  (forall tr w, In tr (on_commit t) ->
                trigger_call env L_on_commit tr w = None) /\
  (forall signature w, engine_call env e (H_commit signature) w = None).

(** The world in which [txn_commit] starts on the log: the engine has
    prepared the transaction unless it is a two-phase one. *)
Definition prepared_world (t : txn) (e : engine_id) (w : world) : world :=
  if is_two_phase t then w else log_event (EvEngine e H_prepare) w.

(** No log writer attached. *)
Definition env_no_wal : Env :=
  mk_env (fun _ _ _ => None) (fun _ _ _ => None) None req_body 5.

(** An engine whose prepare method throws (a conflict). *)
Definition env_conflict : Env :=
  mk_env (fun _ h _ => match h with
                       | H_prepare => Some (ClientError (ER_OTHER 7%nat))
                       | _ => None
                       end)
    (fun _ _ _ => None) (Some (fun _ w => (vclock_sum w, ev_now w))) req_body 5.

(** An explicit transaction whose only statement is on the temporary
    space. *)
Definition w_temporary_only : world :=
  Eval vm_compute in
  run_ops env_ok (OpBegin :: calls_ops [call_temporary]) world0.

(** An explicit transaction without statements. *)
Definition w_begun : world := Eval vm_compute in run_ops env_ok [OpBegin] world0.

(** A log writer that never fails: it answers with the number of rows
    written. *)
Definition env_ack : Env :=
  mk_env (fun _ _ _ => None) (fun _ _ _ => None)
    (Some (fun req w => (Z.of_nat (length req), ev_now w))) req_body 5.

(** An engine whose beginStatement method throws. *)
Definition env_begin_statement_fails : Env :=
  mk_env (fun _ h _ => match h with
                       | H_beginStatement => Some (ClientError (ER_OTHER 9%nat))
                       | _ => None
                       end)
    (fun _ _ _ => None) (Some (fun _ w => (vclock_sum w, ev_now w))) req_body 5.

(** ** Invariants of the transaction of a fiber *)

(** The transaction, if there is one, is bound to the engine [e]. *)
Definition bound_to (e : engine_id) (cur : option txn) : Prop :=
  match cur with
  | Some t => engine t = Some e
  | None => True
  end.

(** What the manager relies on when it takes the last statement of the
    queue and calls the engine without a check: the depth is between 0
    and the length of the queue, a transaction with statements is bound
    to an engine, every statement has its space, and a transaction in
    autocommit mode is not a two-phase one. *)
Definition wf_parts (ss : list txn_stmt) (d : Z) (eng : option engine_id)
    (autocommit two_phase : bool) : Prop :=
  0 <= d <= Z.of_nat (length ss) /\
  (ss <> [] -> eng <> None) /\
  Forall (fun s => stmt_space s <> None) ss /\
  (autocommit = true -> two_phase = false).

Definition txn_wf (t : txn) : Prop :=
  wf_parts (stmts t) (in_sub_stmt t) (engine t) (is_autocommit t)
    (is_two_phase t).

Definition slot_wf (cur : option txn) : Prop :=
  match cur with
  | Some t => txn_wf t
  | None => True
  end.

(** ** The region of a transaction *)

Definition is_region_destroy (ev : event) : bool :=
  match ev with
  | EvRegionDestroy => true
  | _ => false
  end.

(** The number of regions destroyed in a trace. *)
Definition destroyed (d : list event) : nat :=
  length (filter is_region_destroy d).

(** The number of transactions a fiber has: one or none. *)
Definition live (cur : option txn) : nat :=
  match cur with
  | Some _ => 1%nat
  | None => 0%nat
  end.

(** From [w] to [w'] the trace grew, no region was destroyed and the
    fiber kept its transaction, or kept having none. *)
Definition quiet_step (w w' : world) : Prop :=
  live (fiber_txn w') = live (fiber_txn w) /\
  exists d, trace w' = trace w ++ d /\ destroyed d = 0%nat.

(** From [w] to [w'] the trace grew, and a region was destroyed exactly
    if the fiber lost its transaction: once if it did, never if it did
    not. *)
Definition region_step (w w' : world) : Prop :=
  exists d, trace w' = trace w ++ d /\
            (destroyed d + live (fiber_txn w') = live (fiber_txn w))%nat.

Definition silent {A : Type} (m : M A) : Prop :=
  forall w, quiet_step w (snd (m w)).

Definition region_safe {A : Type} (m : M A) : Prop :=
  forall w, region_step w (snd (m w)).

(** [m] is region-safe, and quiet when it returns. *)
Definition quiet_on_return {A : Type} (m : M A) : Prop :=
  forall w, region_step w (snd (m w)) /\
            (forall a, fst (m w) = Ret a -> quiet_step w (snd (m w))).

(** [m] is region-safe when the fiber has a transaction. *)
Definition region_safe_when_live {A : Type} (m : M A) : Prop :=
  forall w, live (fiber_txn w) = 1%nat -> region_step w (snd (m w)).


(** The transaction, if there is one, has the mode of [t]: it is in
    autocommit mode, or a two-phase one, if and only if [t] is, it has
    the identifier and the coordinator of [t], and it is prepared if [t]
    is. *)
Definition same_mode (t : txn) (cur : option txn) : Prop :=
  match cur with
  | Some t' =>
      is_autocommit t' = is_autocommit t /\
      is_two_phase t' = is_two_phase t /\
      tx_id t' = tx_id t /\
      coordinator_id t' = coordinator_id t /\
      (in_prepare t = true -> in_prepare t' = true)
  | None => True
  end.


(** ** A statement in autocommit mode *)

(** The transaction of a statement on [sp], begun on a fiber without a
    transaction, when its [txn_commit_stmt] reaches [txn_commit]: the
    statement carries its row and is closed. *)
Definition autocommit_txn (env : Env) (sp : space) (old new : option tuple)
    (rq : request) : txn :=
  mk_txn [set_row (Some (request_row env rq)) (mk_stmt (Some sp) old new None None)]
    false false UINT64_MAX UINT32_MAX 1 true false 0
    (Some (handler_engine sp)) None [] [].

(** The world in which the log write of that statement is made: the
    engine has begun the transaction and the statement, the on_replace
    triggers have run if they fire, the engine has prepared the
    transaction, and the row is stamped. *)
Definition autocommit_write_world (env : Env) (sp : space)
    (old new : option tuple) (rq : request) (w : world) : world :=
  let e := handler_engine sp in
  let t := autocommit_txn env sp old new rq in
  snd (wal_request_fill
         (prepared_world t e
            (set_fiber_txn (Some t)
               (add_trace
                  ([EvEngine e H_begin; EvEngine e H_beginStatement]
                   ++ (if triggers_fire (mk_stmt (Some sp) old new None None) sp
                       then map (EvTrigger (L_on_replace (space_id sp)))
                              (on_replace sp)
                       else []))
                  w)))).






(** ** Statements issued by on_replace triggers *)

(** Modelled from the spec: [trigger_run] is defined in trigger.h,
    which is not embedded here.  The specification bounds the nesting of
    statements "to prevent trigger-recursion resource exhaustion", and
    txn.cc calls [TXN_SUB_STMT_MAX] the maximum recursion depth for
    on_replace triggers: a trigger may call back into the manager.  This
    is [trigger_run] for such triggers: a trigger that returns has run
    [issue t], the statements it issues, before the next trigger of the
    list is called.  A trigger that throws has issued none. *)
Fixpoint trigger_run_reentrant (env : Env) (l : trigger_list)
    (ts : list trigger_id) (issue : trigger_id -> M unit) : M unit :=
  match ts with
  | [] => ret tt
  | t :: rest =>
      fun w =>
        match trigger_call env l t w with
        | None =>
            (issue t ;; trigger_run_reentrant env l rest issue)%txn
              (log_event (EvTrigger l t) w)
        | Some x => (Throw x, set_diag (Some x) (log_event (EvTrigger l t) w))
        end
  end.

(** [txn_commit_stmt] with on_replace triggers that call back into the
    manager.  With triggers that issue nothing this is
    [txn_commit_stmt]. *)
Definition txn_commit_stmt_reentrant (env : Env) (rq : request)
    (issue : trigger_id -> M unit) : M unit :=
  (t <- deref_txn ;;
   assert (in_sub_stmt t >? 0) ;;
   assert (negb (in_prepare t)) ;;
   match stailq_last_entry (stmts t) with
   | None => abort
   | Some stmt =>
       match stmt_space stmt with
       | None => abort
       | Some sp =>
           (if negb (space_is_temporary sp)
            then
              update_txn
                (fun t => set_stmts
                            (update_last (fun s => txn_add_redo env s rq) (stmts t))
                            t) ;;
              update_txn (fun t => set_n_rows (n_rows t + 1) t)
            else ret tt) ;;
           (if negb (rlist_empty (on_replace sp)) && run_triggers sp
               && (non_null (old_tuple stmt) || non_null (new_tuple stmt))
            then trigger_run_reentrant env (L_on_replace (space_id sp))
                   (on_replace sp) issue
            else ret tt) ;;
           update_txn (fun t => set_in_sub_stmt (in_sub_stmt t - 1) t) ;;
           t' <- deref_txn ;;
           if is_autocommit t' && (in_sub_stmt t' =? 0)
           then txn_commit env
           else ret tt
       end
   end)%txn.

(** The engine executes the open statement: it fills in the tuples of
    the last statement, as [OpExecute] does. *)
Definition execute (old new : option tuple) : M unit :=
  fun w =>
    (Ret tt,
     match fiber_txn w with
     | Some t =>
         set_fiber_txn
           (Some (set_stmts (update_last (set_tuples old new) (stmts t)) t)) w
     | None => w
     end).

(** A statement as it runs: begun, executed, and then either committed,
    with the statements that each on_replace trigger of its space issues
    while it is committed, or rolled back with [txn_rollback_stmt]. *)
#[local] Set Warnings "-register-all".
Inductive stmt_run : Type :=
| Committed (c : stmt_call) (issued : trigger_id -> list stmt_run)
| RolledBack (c : stmt_call).

Fixpoint run_all (ms : list (M unit)) : M unit :=
  match ms with
  | [] => ret tt
  | m :: rest => (m ;; run_all rest)%txn
  end.

Fixpoint run_stmt (env : Env) (s : stmt_run) : M unit :=
  match s with
  | Committed c issued =>
      (txn_begin_stmt env (call_space c) ;;
       execute (call_old c) (call_new c) ;;
       txn_commit_stmt_reentrant env (call_request c)
         (fun tr => run_all (map (run_stmt env) (issued tr))))%txn
  | RolledBack c =>
      (txn_begin_stmt env (call_space c) ;;
       execute (call_old c) (call_new c) ;;
       txn_rollback_stmt env)%txn
  end.

Definition run_stmts (env : Env) (l : list stmt_run) : M unit :=
  run_all (map (run_stmt env) l).

(** The on_replace triggers of the space of a statement fire when it is
    committed. *)
Definition call_fires (c : stmt_call) : bool :=
  triggers_fire (mk_stmt (Some (call_space c)) (call_old c) (call_new c) None None)
    (call_space c).

(** The triggers that run when the statement [c] is committed. *)
Definition fired (c : stmt_call) : list trigger_id :=
  if call_fires c then on_replace (call_space c) else [].

(** The committed statements of a run that are not on a temporary
    space, in the order in which they are committed: a statement comes
    before the statements its triggers issue. *)
Fixpoint logged (s : stmt_run) : list stmt_call :=
  match s with
  | Committed c issued =>
      (if space_is_temporary (call_space c) then [] else [c])
      ++ flat_map (fun tr => flat_map logged (issued tr)) (fired c)
  | RolledBack _ => []
  end.

(** The run needs no more nesting than [txn_begin_stmt] accepts, when
    it starts at the depth [d]. *)
Fixpoint fits (d : Z) (s : stmt_run) : bool :=
  (d <=? TXN_SUB_STMT_MAX)
  && match s with
     | Committed c issued =>
         forallb (fun tr => forallb (fits (d + 1)) (issued tr)) (fired c)
     | RolledBack _ => true
     end.

(** All statements of the run are on spaces of the engine [a]. *)
Fixpoint runs_on (a : engine_id) (s : stmt_run) : bool :=
  match s with
  | Committed c issued =>
      Nat.eqb (handler_engine (call_space c)) a
      && forallb (fun tr => forallb (runs_on a) (issued tr)) (fired c)
  | RolledBack c => Nat.eqb (handler_engine (call_space c)) a
  end.

(** No statement of the run is rolled back. *)
Fixpoint all_committed (s : stmt_run) : bool :=
  match s with
  | Committed c issued =>
      forallb (fun tr => forallb all_committed (issued tr)) (fired c)
  | RolledBack _ => false
  end.

(** A transaction in which a statement of the engine [a] can be begun
    at the depth [d]. *)
Definition ready (a : engine_id) (d : Z) (t : txn) : Prop :=
  in_prepare t = false /\ in_sub_stmt t = d /\ 0 <= d /\
  (engine t = Some a \/ (engine t = None /\ stmts t = [])).

(** From [t] to [t'] the statements [l] were logged: the mode and the
    depth are the same, [n_rows] grew by their number and their rows
    were appended to the rows of the queue, in order. *)
Definition logs (env : Env) (l : list stmt_call) (t t' : txn) : Prop :=
  is_autocommit t' = is_autocommit t /\
  is_two_phase t' = is_two_phase t /\
  in_prepare t' = in_prepare t /\
  in_sub_stmt t' = in_sub_stmt t /\
  n_rows t' = n_rows t + Z.of_nat (length l) /\
  present_rows (stmts t')
  = present_rows (stmts t) ++ map (fun c => request_row env (call_request c)) l.

(** The computation [m], run at the depth [d] in a transaction of the
    engine [a], returns and logs the statements [l].  In autocommit mode
    this is asked only inside a statement, and only of a computation
    that rolls no statement back ([committing]). *)
Definition runs_as (env : Env) (a : engine_id) (m : M unit) (d : Z)
    (l : list stmt_call) (committing : bool) : Prop :=
  forall w t,
    fiber_txn w = Some t ->
    ready a d t ->
    is_autocommit t = false \/ (1 <= d /\ committing = true) ->
    exists w' t',
      m w = (Ret tt, w') /\ fiber_txn w' = Some t' /\
      ready a d t' /\ logs env l t t'.


(** The call that begins an explicit transaction: [box_txn_begin], or
    [box_txn_begin_two_phase] with an identifier and a coordinator. *)
Definition begin_op (two_phase : option (Z * Z)) : op :=
  match two_phase with
  | None => OpBegin
  | Some (id, coordinator) => OpBeginTwoPhase id coordinator
  end.

(** The transaction has [n] rows to log, and they are [rows]. *)
Definition has_rows (n : Z) (rows : list xrow_header) (cur : option txn)
  : Prop :=
  match cur with
  | Some t => n_rows t = n /\ present_rows (stmts t) = rows
  | None => False
  end.


(** A statement on [space_a] that replaces a tuple and whose on_replace
    trigger issues two statements, one committed (it finds and produces
    no tuple) and one rolled back. *)
Definition run_replace_nested : stmt_run :=
  Committed call_replace
    (fun _ => [Committed call_no_change (fun _ => []); RolledBack call_replace]).

(** Four top-level statements: the nested one, one on the temporary
    space, one rolled back, and one that finds and produces no tuple. *)
Definition runs_mixed : list stmt_run :=
  [run_replace_nested;
   Committed call_temporary (fun _ => []);
   RolledBack call_no_change;
   Committed call_no_change (fun _ => [])].

(** A statement whose trigger issues a statement, none rolled back. *)
Definition run_replace_committed : stmt_run :=
  Committed call_replace (fun _ => [Committed call_no_change (fun _ => [])]).

(** * Properties *)

(** ** Symbolic execution helpers *)

Ltac destruct_world w :=
  let ft := fresh "ft" in
  let dg := fresh "dg" in
  let vs := fresh "vs" in
  let now := fresh "now" in
  let tr := fresh "tr" in
  destruct w as [ft dg vs now tr]; cbn [fiber_txn diag vclock_sum ev_now trace] in *.

Ltac run_manager :=
  cbv [bind ret in_txn deref_txn update_txn assert abort tnt_raise diag_set
       try_catch fiber_set_txn emit set_fiber_txn set_diag set_vclock_sum
       set_ev_now log_event non_null negb
       fiber_txn diag vclock_sum ev_now trace].

Ltac unfold_setters :=
  unfold set_row, set_stmt_space, set_tuples, set_stmts, set_is_two_phase,
    set_in_prepare, set_tx_id, set_coordinator_id, set_n_rows,
    set_in_sub_stmt, set_engine, set_fiber_txn, set_diag, set_vclock_sum,
    set_ev_now, log_event in *.

Ltac exec :=
  unfold bind, ret, in_txn, deref_txn, update_txn, assert, abort, tnt_raise,
    diag_set, try_catch, fiber_set_txn, emit, non_null;
  unfold_setters;
  cbn in *.

Lemma bind_ret_l {A B : Type} (a : A) (k : A -> M B) (w : world) :
  bind (ret a) k w = k a w.
Proof. reflexivity. Qed.

Lemma bind_assoc {A B C : Type} (m : M A) (k : A -> M B) (h : B -> M C)
    (w : world) :
  bind (bind m k) h w = bind m (fun a => bind (k a) h) w.
Proof.
  unfold bind. destruct (m w) as [[a|e|] w']; reflexivity.
Qed.

(** ** The public entry points without a transaction, and misuse *)

(** C10: on a fiber with no active transaction [box_txn_commit] returns 0
    and changes nothing (it is the same as BEGIN + COMMIT), whereas
    [box_txn_prepare_two_phase] returns -1 and reports
    ER_NO_ACTIVE_TRANSACTION. *)
Theorem box_txn_commit_without_txn (env : Env) (w : world) :
  fiber_txn w = None ->
  box_txn_commit env w = (Ret 0, w) /\
  forall iproto_prepare replica,
    box_txn_prepare_two_phase env iproto_prepare replica w
    = (Ret (-1), set_diag (Some (ClientError ER_NO_ACTIVE_TRANSACTION)) w).
Proof.
  intros H. destruct_world w. subst ft.
  split; [reflexivity | intros; reflexivity].
Qed.

Lemma box_txn_commit_without_txn_witness :
  let w := mk_world None None 0 0 [] in
  let env := mk_env (fun _ _ _ => None) (fun _ _ _ => None) None req_body 0 in
  box_txn_commit env w = (Ret 0, w) /\
  forall iproto_prepare replica,
    box_txn_prepare_two_phase env iproto_prepare replica w
    = (Ret (-1), set_diag (Some (ClientError ER_NO_ACTIVE_TRANSACTION)) w).
Proof.
  apply (box_txn_commit_without_txn _ (mk_world None None 0 0 [])).
  reflexivity.
Defined.

(** C6: the four misuses are rejected, each with an error code of its
    own, and the world is left as it was but for the diagnostics area, so
    that the transaction stays the active one of the fiber:
    preparing a prepared transaction (ER_ALREADY_PREPARED), committing
    with a sub-statement open (ER_COMMIT_IN_SUB_STMT), committing a
    two-phase transaction that is not prepared, outside any sub-statement
    (ER_COMMIT_BEFORE_PREPARE), and rolling back with a sub-statement
    open (ER_ROLLBACK_IN_SUB_STMT). *)
Theorem misuse_is_rejected (env : Env) (w : world) (t : txn) :
  fiber_txn w = Some t ->
  (in_prepare t = true ->
   forall iproto_prepare replica,
     box_txn_prepare_two_phase env iproto_prepare replica w
     = (Ret (-1), set_diag (Some (ClientError ER_ALREADY_PREPARED)) w)) /\
  (in_sub_stmt t <> 0 ->
   box_txn_commit env w
   = (Ret (-1), set_diag (Some (ClientError ER_COMMIT_IN_SUB_STMT)) w)) /\
  (in_sub_stmt t = 0 -> is_two_phase t = true -> in_prepare t = false ->
   box_txn_commit env w
   = (Ret (-1), set_diag (Some (ClientError ER_COMMIT_BEFORE_PREPARE)) w)) /\
  (in_sub_stmt t <> 0 ->
   box_txn_rollback env w
   = (Ret (-1), set_diag (Some (ClientError ER_ROLLBACK_IN_SUB_STMT)) w)) /\
  (forall d, fiber_txn (set_diag d w) = Some t) /\
  NoDup [ER_ALREADY_PREPARED; ER_COMMIT_IN_SUB_STMT;
         ER_COMMIT_BEFORE_PREPARE; ER_ROLLBACK_IN_SUB_STMT].
Proof.
  intros Ht. destruct_world w. subst ft.
  repeat split.
  - intros Hp iproto_prepare replica.
    unfold box_txn_prepare_two_phase, txn_prepare_two_phase. run_manager.
    rewrite Hp. reflexivity.
  - intros Hd. unfold box_txn_commit. run_manager.
    destruct (in_sub_stmt t =? 0) eqn:E; [apply Z.eqb_eq in E; contradiction|].
    reflexivity.
  - intros Hd H2 Hp. unfold box_txn_commit. run_manager.
    rewrite Hd, H2, Hp. reflexivity.
  - intros Hd. unfold box_txn_rollback. run_manager.
    destruct (in_sub_stmt t =? 0) eqn:E; [apply Z.eqb_eq in E; contradiction|].
    reflexivity.
  - repeat constructor; cbn; intuition discriminate.
Qed.

Lemma misuse_is_rejected_witness :
  box_txn_prepare_two_phase env_ok 0 0 w_prepared
  = (Ret (-1), set_diag (Some (ClientError ER_ALREADY_PREPARED)) w_prepared) /\
  box_txn_commit env_ok w_open_stmt
  = (Ret (-1), set_diag (Some (ClientError ER_COMMIT_IN_SUB_STMT)) w_open_stmt) /\
  box_txn_commit env_ok w_two_phase
  = (Ret (-1), set_diag (Some (ClientError ER_COMMIT_BEFORE_PREPARE)) w_two_phase) /\
  box_txn_rollback env_ok w_open_stmt
  = (Ret (-1), set_diag (Some (ClientError ER_ROLLBACK_IN_SUB_STMT)) w_open_stmt).
Proof.
  split; [| split; [| split]].
  - destruct (misuse_is_rejected env_ok w_prepared _ eq_refl) as (H & _).
    apply H. reflexivity.
  - destruct (misuse_is_rejected env_ok w_open_stmt _ eq_refl) as (_ & H & _).
    apply H. vm_compute. discriminate.
  - destruct (misuse_is_rejected env_ok w_two_phase _ eq_refl) as (_ & _ & H & _).
    apply H; reflexivity.
  - destruct (misuse_is_rejected env_ok w_open_stmt _ eq_refl)
      as (_ & _ & _ & H & _).
    apply H. vm_compute. discriminate.
Defined.

(** ** Computations that keep a property of the fiber's transaction *)

Section Keeps.

Variable env : Env.
Variable J : option txn -> Prop.

Lemma keeps_ret {A : Type} (a : A) : keeps J (ret a).
Proof. intros w H. exact H. Qed.

Lemma keeps_bind {A B : Type} (m : M A) (k : A -> M B) :
  keeps J m -> (forall a, keeps J (k a)) -> keeps J (bind m k).
Proof.
  intros Hm Hk w H. unfold bind. specialize (Hm w H).
  destruct (m w) as [[a|e|] w']; cbn in *; auto.
  apply Hk. exact Hm.
Qed.

Lemma keeps_try_catch {A : Type} (m : M A) (h : exception -> M A) :
  keeps J m -> (forall e, keeps J (h e)) -> keeps J (try_catch m h).
Proof.
  intros Hm Hh w H. unfold try_catch. specialize (Hm w H).
  destruct (m w) as [[a|e|] w']; cbn in *; auto.
  apply Hh. exact Hm.
Qed.

Lemma keeps_assert (b : bool) : keeps J (assert b).
Proof. intros w H. unfold assert. destruct b; exact H. Qed.

Lemma keeps_abort {A : Type} : keeps J (@abort A).
Proof. intros w H. exact H. Qed.

Lemma keeps_tnt_raise {A : Type} (e : exception) : keeps J (@tnt_raise A e).
Proof. intros w H. exact H. Qed.

Lemma keeps_diag_set (e : exception) : keeps J (diag_set e).
Proof. intros w H. exact H. Qed.

Lemma keeps_emit (ev : event) : keeps J (emit ev).
Proof. intros w H. exact H. Qed.

Lemma keeps_in_txn : keeps J in_txn.
Proof. intros w H. exact H. Qed.

Lemma keeps_deref_txn : keeps J deref_txn.
Proof.
  intros w H. unfold deref_txn.
  destruct (fiber_txn w) eqn:E; cbn; rewrite E; exact H.
Qed.

Lemma keeps_read {A : Type} (f : world -> A) : keeps J (fun w => (Ret (f w), w)).
Proof. intros w H. exact H. Qed.

Lemma keeps_engine_invoke (e : engine_id) (h : hook) :
  keeps J (engine_invoke env e h).
Proof.
  intros w H. unfold engine_invoke.
  destruct (engine_call env e h w); exact H.
Qed.

Lemma keeps_trigger_run (l : trigger_list) (ts : list trigger_id) :
  keeps J (trigger_run env l ts).
Proof.
  induction ts as [|t ts IH]; intros w H; cbn.
  - exact H.
  - destruct (trigger_call env l t w).
    + exact H.
    + apply IH. exact H.
Qed.

Lemma keeps_update_txn (f : txn -> txn) :
  (forall t, J (Some t) -> J (Some (f t))) -> keeps J (update_txn f).
Proof.
  intros Hf w H. unfold update_txn.
  destruct (fiber_txn w) as [t|] eqn:E; cbn.
  - apply Hf. exact H.
  - rewrite E. exact H.
Qed.

Lemma keeps_fiber_set_txn (o : option txn) : J o -> keeps J (fiber_set_txn o).
Proof. intros Ho w _. exact Ho. Qed.

Lemma keeps_if {A : Type} (b : bool) (m1 m2 : M A) :
  keeps J m1 -> keeps J m2 -> keeps J (if b then m1 else m2).
Proof. destruct b; auto. Qed.

End Keeps.

Create HintDb keeps discriminated.
#[local] Hint Resolve keeps_ret keeps_assert keeps_abort keeps_tnt_raise
  keeps_diag_set keeps_emit keeps_in_txn keeps_deref_txn keeps_engine_invoke
  keeps_trigger_run keeps_fiber_set_txn keeps_read : keeps.

(** Breaks a composite computation into its calls. *)
Ltac keeps_step :=
  match goal with
  | |- keeps _ (bind _ _) => apply keeps_bind; [| intros ?]
  | |- keeps _ (try_catch _ _) => apply keeps_try_catch; [| intros ?]
  | |- keeps _ (if _ then _ else _) => apply keeps_if
  | |- keeps _ (match ?x with _ => _ end) => destruct x
  | |- keeps _ (let '(_, _) := ?x in _) => destruct x
  | |- keeps _ _ => solve [auto with keeps]
  end.

Section KeepsManager.

Variable env : Env.
Variable J : option txn -> Prop.

(** [J] holds when there is no transaction, and stamping the rows of
    the statements does not break it. *)
Hypothesis J_none : J None.
Hypothesis J_stmts :
  forall t v now,
    J (Some t) ->
    J (Some (set_stmts (fst (fst (wal_fill (stmts t) v now []))) t)).

Lemma keeps_txn_rollback : keeps J (txn_rollback env).
Proof.
  unfold txn_rollback. repeat keeps_step.
Qed.

Lemma keeps_wal_request_fill : keeps J wal_request_fill.
Proof.
  intros w H. unfold wal_request_fill.
  destruct (fiber_txn w) as [t|] eqn:E; cbn.
  - apply J_stmts. exact H.
  - rewrite E. exact H.
Qed.

Lemma keeps_wal_submit (req : list xrow_header) : keeps J (wal_submit env req).
Proof.
  intros w H. unfold wal_submit. destruct (wal env); exact H.
Qed.

Lemma keeps_txn_write_to_wal : keeps J (txn_write_to_wal env).
Proof.
  pose proof keeps_txn_rollback. pose proof keeps_wal_request_fill.
  pose proof keeps_wal_submit.
  unfold txn_write_to_wal. repeat keeps_step.
Qed.

Lemma keeps_txn_commit : keeps J (txn_commit env).
Proof.
  pose proof keeps_txn_write_to_wal.
  unfold txn_commit. repeat keeps_step.
Qed.

End KeepsManager.

(** ** The nesting depth of statements *)

Ltac keeps_auto side :=
  repeat first
    [ keeps_step
    | apply keeps_txn_commit
    | apply keeps_txn_rollback
    | apply keeps_update_txn; intros ? ?; side
    | apply keeps_fiber_set_txn; side ];
  try side.

Ltac depth_side := unfold depth_ok, TXN_SUB_STMT_MAX in *; cbn in *; try lia.

Lemma depth_ok_stmts (t : txn) (v now : Z) :
  depth_ok (Some t) ->
  depth_ok (Some (set_stmts (fst (fst (wal_fill (stmts t) v now []))) t)).
Proof. intros H. exact H. Qed.

Lemma keeps_depth_txn_commit_stmt (env : Env) (rq : request) :
  keeps depth_ok (txn_commit_stmt env rq).
Proof.
  pose proof (keeps_txn_commit env depth_ok I depth_ok_stmts).
  unfold txn_commit_stmt. keeps_auto depth_side.
Qed.

Lemma keeps_depth_txn_rollback_stmt (env : Env) :
  keeps depth_ok (txn_rollback_stmt env).
Proof.
  pose proof (keeps_txn_rollback env depth_ok I).
  unfold txn_rollback_stmt. keeps_auto depth_side.
Qed.

(** What [txn_begin_stmt] does when the transaction exists but the
    statement is refused before anything is changed. *)
Lemma txn_begin_stmt_depth_exceeded (env : Env) (sp : space) (w : world) (t : txn) :
  fiber_txn w = Some t ->
  in_sub_stmt t > TXN_SUB_STMT_MAX ->
  txn_begin_stmt env sp w
  = (Throw (ClientError ER_SUB_STMT_MAX),
     set_diag (Some (ClientError ER_SUB_STMT_MAX)) w).
Proof.
  intros Ht Hd. destruct_world w. subst ft.
  unfold txn_begin_stmt. run_manager.
  destruct (in_sub_stmt t >? TXN_SUB_STMT_MAX) eqn:E; [reflexivity|].
  rewrite Z.gtb_ltb in E. apply Z.ltb_ge in E. lia.
Qed.

(** What [txn_begin_stmt] does on a transaction that accepts statements
    of the engine of the space: the statement is appended with its
    space, the depth grows by one and the engine is told. *)
Lemma txn_begin_stmt_same_engine (env : Env) (sp : space) (w : world) (t : txn) :
  fiber_txn w = Some t ->
  in_sub_stmt t <= TXN_SUB_STMT_MAX ->
  in_prepare t = false ->
  engine t = Some (handler_engine sp) ->
  engine_call env (handler_engine sp) H_beginStatement
    (set_fiber_txn
       (Some (set_in_sub_stmt (in_sub_stmt t + 1)
                (set_stmts (stmts t ++ [mk_stmt (Some sp) None None None None]) t)))
       w) = None ->
  txn_begin_stmt env sp w
  = (Ret tt,
     log_event (EvEngine (handler_engine sp) H_beginStatement)
       (set_fiber_txn
          (Some (set_in_sub_stmt (in_sub_stmt t + 1)
                   (set_stmts (stmts t ++ [mk_stmt (Some sp) None None None None]) t)))
          w)).
Proof.
  intros Ht Hd Hp He Hc. destruct_world w. subst ft.
  destruct t as [ss tp ip ti ci nr ac ht d eng etx oc orb].
  cbn in Hd, Hp, He. subst ip eng.
  assert (U : update_last (set_stmt_space (Some sp))
                (ss ++ [mk_stmt None None None None None])
              = ss ++ [mk_stmt (Some sp) None None None None]).
  { clear. induction ss as [|s l IH]; [reflexivity|].
    cbn [app update_last]. rewrite IH.
    destruct l; reflexivity. }
  unfold txn_begin_stmt, txn_begin_in_engine, txn_stmt_new, engine_invoke.
  exec.
  destruct (d >? TXN_SUB_STMT_MAX) eqn:E.
  { apply Z.gtb_lt in E. lia. }
  cbn. rewrite Nat.eqb_refl. cbn. rewrite U, Hc. reflexivity.
Qed.

Lemma keeps_depth_txn_begin_stmt (env : Env) (sp : space) :
  keeps depth_ok (txn_begin_stmt env sp).
Proof.
  intros w H. destruct_world w.
  unfold txn_begin_stmt, txn_begin_in_engine, txn_begin, txn_stmt_new,
    engine_invoke.
  destruct ft as [t|].
  - destruct t as [ss tp ip ti ci nr ac ht d eng etx oc orb].
    unfold depth_ok in *. exec.
    destruct (d >? TXN_SUB_STMT_MAX) eqn:E; cbn; [exact H|].
    rewrite Z.gtb_ltb in E. apply Z.ltb_ge in E.
    destruct ip; cbn.
    { destruct tp; exact H. }
    destruct eng as [e'|]; cbn.
    + destruct (Nat.eqb e' (handler_engine sp)); cbn; [|exact H].
      destruct (engine_call env _ _ _); cbn; depth_side.
    + destruct (rlist_empty ss); cbn; [|exact H].
      destruct (engine_call env _ H_begin _); cbn; [exact H|].
      destruct (engine_call env _ H_beginStatement _); cbn; depth_side.
  - unfold depth_ok in *. exec.
    destruct (engine_call env _ H_begin _); cbn; [depth_side|].
    destruct (engine_call env _ H_beginStatement _); cbn; depth_side.
Qed.

Lemma keeps_depth_run_op (env : Env) (o : op) (w : world) :
  depth_ok (fiber_txn w) -> depth_ok (fiber_txn (run_op env o w)).
Proof.
  pose proof (keeps_txn_commit env depth_ok I depth_ok_stmts).
  pose proof (keeps_txn_rollback env depth_ok I).
  destruct o; cbn [run_op].
  - revert w. change (keeps depth_ok box_txn_begin).
    unfold box_txn_begin, txn_begin. keeps_auto depth_side.
  - revert w. change (keeps depth_ok (box_txn_begin_two_phase id coordinator)).
    unfold box_txn_begin_two_phase, txn_begin_two_phase, txn_begin.
    keeps_auto depth_side.
  - revert w.
    change (keeps depth_ok (box_txn_prepare_two_phase env iproto_prepare replica)).
    unfold box_txn_prepare_two_phase, txn_prepare_two_phase.
    keeps_auto depth_side.
  - revert w. change (keeps depth_ok (box_txn_commit env)).
    unfold box_txn_commit. keeps_auto depth_side.
  - revert w. change (keeps depth_ok (box_txn_rollback env)).
    unfold box_txn_rollback. keeps_auto depth_side.
  - apply keeps_depth_txn_begin_stmt.
  - destruct (fiber_txn w) eqn:E; intros Hd; cbn; [exact Hd | rewrite E; exact I].
  - apply keeps_depth_txn_commit_stmt.
  - apply keeps_depth_txn_rollback_stmt.
Qed.

Lemma keeps_depth_run_ops (env : Env) (os : list op) (w : world) :
  depth_ok (fiber_txn w) -> depth_ok (fiber_txn (run_ops env os w)).
Proof.
  revert w. induction os as [|o os IH]; intros w H; cbn.
  - exact H.
  - apply IH. apply keeps_depth_run_op. exact H.
Qed.

(** C2, as the code has it: [txn_begin_stmt] refuses a statement when the
    depth is greater than TXN_SUB_STMT_MAX, so the depth of the
    transaction of a fiber never exceeds TXN_SUB_STMT_MAX + 1 = 4,
    whatever calls are made from a state within the bound (the state
    without a transaction is one); a statement begun at depth 4 fails
    with ER_SUB_STMT_MAX and leaves the transaction (depth and
    statements) as it was. *)
Theorem sub_stmt_depth_bounded (env : Env) :
  (forall (os : list op) (w : world),
     depth_ok (fiber_txn w) -> depth_ok (fiber_txn (run_ops env os w))) /\
  (forall (sp : space) (w : world) (t : txn),
     fiber_txn w = Some t ->
     in_sub_stmt t > TXN_SUB_STMT_MAX ->
     txn_begin_stmt env sp w
     = (Throw (ClientError ER_SUB_STMT_MAX),
        set_diag (Some (ClientError ER_SUB_STMT_MAX)) w)).
Proof.
  split.
  - intros os w. apply keeps_depth_run_ops.
  - intros sp w t. apply txn_begin_stmt_depth_exceeded.
Qed.

Lemma sub_stmt_depth_bounded_witness :
  depth_ok (fiber_txn (run_ops env_ok [OpBeginStmt space_a; OpBeginStmt space_b]
                         w_depth3)) /\
  txn_begin_stmt env_ok space_a w_depth4
  = (Throw (ClientError ER_SUB_STMT_MAX),
     set_diag (Some (ClientError ER_SUB_STMT_MAX)) w_depth4).
Proof.
  destruct (sub_stmt_depth_bounded env_ok) as [H1 H2]. split.
  - apply H1. cbn. unfold TXN_SUB_STMT_MAX. lia.
  - eapply H2.
    + reflexivity.
    + cbn. reflexivity.
Defined.

(** C2, as stated, fails: a statement begun when the depth is already 3
    is accepted, and the depth becomes 4. *)
Lemma begin_stmt_at_depth_3_is_accepted :
  option_map in_sub_stmt (fiber_txn w_depth3) = Some TXN_SUB_STMT_MAX /\
  fst (txn_begin_stmt env_ok space_a w_depth3) = Ret tt /\
  option_map in_sub_stmt (fiber_txn (snd (txn_begin_stmt env_ok space_a w_depth3)))
  = Some (TXN_SUB_STMT_MAX + 1) /\
  option_map (fun t => length (stmts t))
    (fiber_txn (snd (txn_begin_stmt env_ok space_a w_depth3)))
  = Some 4%nat.
Proof. vm_compute. repeat split. Qed.

(** ** One engine per transaction *)

(** C5, as the code has it: on a transaction bound to an engine, not
    prepared and of depth at most TXN_SUB_STMT_MAX, a statement on a
    space of another engine fails with ER_CROSS_ENGINE_TRANSACTION and
    changes nothing but the diagnostics area; a statement on a space of
    the bound engine is then accepted as before. *)
Theorem cross_engine_is_rejected (env : Env) (sp : space) (w : world)
    (t : txn) (a : engine_id) :
  fiber_txn w = Some t ->
  engine t = Some a ->
  handler_engine sp <> a ->
  in_sub_stmt t <= TXN_SUB_STMT_MAX ->
  in_prepare t = false ->
  let w' := set_diag (Some (ClientError ER_CROSS_ENGINE_TRANSACTION)) w in
  txn_begin_stmt env sp w
  = (Throw (ClientError ER_CROSS_ENGINE_TRANSACTION), w') /\
  fiber_txn w' = Some t /\
  forall sp' : space,
    handler_engine sp' = a ->
    let t' := set_in_sub_stmt (in_sub_stmt t + 1)
                (set_stmts (stmts t ++ [mk_stmt (Some sp') None None None None]) t) in
    engine_call env a H_beginStatement (set_fiber_txn (Some t') w') = None ->
    txn_begin_stmt env sp' w'
    = (Ret tt, log_event (EvEngine a H_beginStatement) (set_fiber_txn (Some t') w')).
Proof.
  intros Ht He Hne Hd Hp w'. split; [| split].
  - subst w'. destruct_world w. subst ft.
    destruct t as [ss tp ip ti ci nr ac ht d eng etx oc orb].
    cbn in He, Hd, Hp. subst ip eng.
    unfold txn_begin_stmt, txn_begin_in_engine. exec.
    destruct (d >? TXN_SUB_STMT_MAX) eqn:E.
    { apply Z.gtb_lt in E. lia. }
    cbn. destruct (Nat.eqb a (handler_engine sp)) eqn:N.
    { apply Nat.eqb_eq in N. congruence. }
    reflexivity.
  - subst w'. destruct_world w. exact Ht.
  - intros sp' Ha t' Hc. subst a.
    apply txn_begin_stmt_same_engine; assumption.
Qed.

Lemma cross_engine_is_rejected_witness :
  txn_begin_stmt env_ok space_b w_open_stmt
  = (Throw (ClientError ER_CROSS_ENGINE_TRANSACTION),
     set_diag (Some (ClientError ER_CROSS_ENGINE_TRANSACTION)) w_open_stmt).
Proof.
  refine (proj1 (cross_engine_is_rejected env_ok space_b w_open_stmt _ 0%nat
                   eq_refl eq_refl _ _ eq_refl)).
  - cbn. discriminate.
  - cbn. unfold TXN_SUB_STMT_MAX. lia.
Defined.

(** C5, as stated, fails: on a prepared transaction bound to engine 0 a
    statement on a space of engine 1 is refused with
    ER_CHANGE_PREPARED, the check made before the engines are
    compared. *)
Lemma cross_engine_on_prepared_txn :
  option_map engine (fiber_txn w_prepared) = Some (Some 0%nat) /\
  handler_engine space_b = 1%nat /\
  txn_begin_stmt env_ok space_b w_prepared
  = (Throw (ClientError ER_CHANGE_PREPARED),
     set_diag (Some (ClientError ER_CHANGE_PREPARED)) w_prepared).
Proof. vm_compute. repeat split. Qed.

(** ** What a computation appends to the trace *)

Section Emits.

Variable env : Env.
Variable P : event -> Prop.

Lemma emits_silent {A : Type} (m : M A) :
  (forall w, trace (snd (m w)) = trace w) -> emits P m.
Proof.
  intros H w. exists []. rewrite app_nil_r. split; [apply H | constructor].
Qed.

Lemma emits_bind {A B : Type} (m : M A) (k : A -> M B) :
  emits P m -> (forall a, emits P (k a)) -> emits P (bind m k).
Proof.
  intros Hm Hk w. unfold bind. destruct (Hm w) as [d [E F]].
  destruct (m w) as [[a|e|] w1]; cbn [snd] in *.
  - destruct (Hk a w1) as [d' [E' F']].
    exists (d ++ d'). rewrite E', E, app_assoc. split; [reflexivity|].
    apply Forall_app. split; assumption.
  - exists d. split; assumption.
  - exists d. split; assumption.
Qed.

Lemma emits_try_catch {A : Type} (m : M A) (h : exception -> M A) :
  emits P m -> (forall e, emits P (h e)) -> emits P (try_catch m h).
Proof.
  intros Hm Hh w. unfold try_catch. destruct (Hm w) as [d [E F]].
  destruct (m w) as [[a|e|] w1]; cbn [snd] in *.
  - exists d. split; assumption.
  - destruct (Hh e w1) as [d' [E' F']].
    exists (d ++ d'). rewrite E', E, app_assoc. split; [reflexivity|].
    apply Forall_app. split; assumption.
  - exists d. split; assumption.
Qed.

Lemma emits_ret {A : Type} (a : A) : emits P (ret a).
Proof. apply emits_silent. reflexivity. Qed.

Lemma emits_assert (b : bool) : emits P (assert b).
Proof. apply emits_silent. intros w. unfold assert. destruct b; reflexivity. Qed.

Lemma emits_abort {A : Type} : emits P (@abort A).
Proof. apply emits_silent. reflexivity. Qed.

Lemma emits_tnt_raise {A : Type} (e : exception) : emits P (@tnt_raise A e).
Proof. apply emits_silent. reflexivity. Qed.

Lemma emits_diag_set (e : exception) : emits P (diag_set e).
Proof. apply emits_silent. reflexivity. Qed.

Lemma emits_in_txn : emits P in_txn.
Proof. apply emits_silent. reflexivity. Qed.

Lemma emits_deref_txn : emits P deref_txn.
Proof.
  apply emits_silent. intros w. unfold deref_txn.
  destruct (fiber_txn w); reflexivity.
Qed.

Lemma emits_update_txn (f : txn -> txn) : emits P (update_txn f).
Proof.
  apply emits_silent. intros w. unfold update_txn.
  destruct (fiber_txn w); reflexivity.
Qed.

Lemma emits_fiber_set_txn (o : option txn) : emits P (fiber_set_txn o).
Proof. apply emits_silent. reflexivity. Qed.

Lemma emits_read {A : Type} (f : world -> A) : emits P (fun w => (Ret (f w), w)).
Proof. apply emits_silent. reflexivity. Qed.

Lemma emits_wal_request_fill : emits P wal_request_fill.
Proof.
  apply emits_silent. intros w. unfold wal_request_fill.
  destruct (fiber_txn w); reflexivity.
Qed.

Lemma emits_emit (ev : event) : P ev -> emits P (emit ev).
Proof.
  intros H w. exists [ev]. split; [reflexivity | repeat constructor; exact H].
Qed.

Lemma emits_engine_invoke (e : engine_id) (h : hook) :
  P (EvEngine e h) -> emits P (engine_invoke env e h).
Proof.
  intros H w. exists [EvEngine e h]. unfold engine_invoke.
  destruct (engine_call env e h w);
    (split; [reflexivity | repeat constructor; exact H]).
Qed.

Lemma emits_trigger_run (l : trigger_list) (ts : list trigger_id) :
  (forall t, P (EvTrigger l t)) -> emits P (trigger_run env l ts).
Proof.
  intros H. induction ts as [|t ts IH]; intros w; cbn.
  - exists []. rewrite app_nil_r. split; [reflexivity | constructor].
  - destruct (trigger_call env l t w).
    + exists [EvTrigger l t]. split; [reflexivity | repeat constructor; apply H].
    + destruct (IH (log_event (EvTrigger l t) w)) as [d [E F]].
      exists (EvTrigger l t :: d). rewrite E. cbn. rewrite <- app_assoc.
      split; [reflexivity | constructor; [apply H | exact F]].
Qed.

Lemma emits_wal_submit (req : list xrow_header) :
  P (EvWalWrite req) -> emits P (wal_submit env req).
Proof.
  intros H w. unfold wal_submit. destruct (wal env) as [write|].
  - exists [EvWalWrite req]. split; [reflexivity | repeat constructor; exact H].
  - exists []. rewrite app_nil_r. split; [reflexivity | constructor].
Qed.

Lemma emits_if {A : Type} (b : bool) (m1 m2 : M A) :
  emits P m1 -> emits P m2 -> emits P (if b then m1 else m2).
Proof. destruct b; auto. Qed.

End Emits.

Ltac emits_auto side :=
  repeat first
    [ match goal with
      | |- emits _ (bind _ _) => apply emits_bind; [| intros ?]
      | |- emits _ (try_catch _ _) => apply emits_try_catch; [| intros ?]
      | |- emits _ (if _ then _ else _) => apply emits_if
      | |- emits _ (match ?x with _ => _ end) => destruct x
      end
    | apply emits_ret | apply emits_assert | apply emits_abort
    | apply emits_tnt_raise | apply emits_diag_set | apply emits_in_txn
    | apply emits_deref_txn | apply emits_update_txn
    | apply emits_fiber_set_txn | apply emits_read
    | apply emits_wal_request_fill
    | apply emits_emit; side
    | apply emits_engine_invoke; side
    | apply emits_trigger_run; intros ?; side
    | apply emits_wal_submit; side
    | assumption ].

Section EmitsManager.

Variable env : Env.
Variable P : event -> Prop.

(** [P] holds of every call but those of on_replace triggers. *)
Hypothesis P_other : forall ev, is_on_replace_event ev = false -> P ev.

Lemma emits_txn_rollback : emits P (txn_rollback env).
Proof.
  unfold txn_rollback. emits_auto ltac:(apply P_other; reflexivity).
Qed.

Lemma emits_txn_write_to_wal : emits P (txn_write_to_wal env).
Proof.
  pose proof emits_txn_rollback.
  unfold txn_write_to_wal. emits_auto ltac:(apply P_other; reflexivity).
Qed.

Lemma emits_txn_commit : emits P (txn_commit env).
Proof.
  pose proof emits_txn_write_to_wal.
  unfold txn_commit. emits_auto ltac:(apply P_other; reflexivity).
Qed.

End EmitsManager.

Lemma events_since_app (w w' : world) (d : list event) :
  trace w' = trace w ++ d -> events_since w w' = d.
Proof.
  intros E. unfold events_since. rewrite E.
  rewrite skipn_app, skipn_all, Nat.sub_diag. reflexivity.
Qed.

(** ** Stepping through a sequence of calls *)

Lemma bind_ret_eq {A B : Type} (m : M A) (k : A -> M B) (w w' : world) (a : A) :
  m w = (Ret a, w') -> bind m k w = k a w'.
Proof. intros E. unfold bind. rewrite E. reflexivity. Qed.

Lemma bind_throw_eq {A B : Type} (m : M A) (k : A -> M B) (w w' : world)
    (e : exception) :
  m w = (Throw e, w') -> bind m k w = (Throw e, w').
Proof. intros E. unfold bind. rewrite E. reflexivity. Qed.

Lemma bind_abort_eq {A B : Type} (m : M A) (k : A -> M B) (w w' : world) :
  m w = (Abort, w') -> bind m k w = (Abort, w').
Proof. intros E. unfold bind. rewrite E. reflexivity. Qed.

(** Runs the first call of a sequence when it returns. *)
Ltac bind_step :=
  erewrite bind_ret_eq; [| solve [reflexivity | cbn; reflexivity]].

(** Triggers that all return run in order, each recorded in the trace. *)
Lemma trigger_run_all (env : Env) (l : trigger_list) (ts : list trigger_id)
    (w : world) :
  (forall t w', In t ts -> trigger_call env l t w' = None) ->
  trigger_run env l ts w = (Ret tt, add_trace (map (EvTrigger l) ts) w).
Proof.
  revert w. induction ts as [|t ts IH]; intros w H; cbn.
  - unfold ret, add_trace. rewrite app_nil_r. destruct w; reflexivity.
  - rewrite (H t w (or_introl eq_refl)).
    rewrite IH by (intros; apply H; right; assumption).
    unfold add_trace, log_event. cbn. rewrite <- app_assoc. reflexivity.
Qed.

(** A non-empty trigger list records its first trigger first. *)
Lemma trigger_run_first (env : Env) (l : trigger_list) (t : trigger_id)
    (ts : list trigger_id) (w : world) :
  exists d, trace (snd (trigger_run env l (t :: ts) w))
            = trace w ++ EvTrigger l t :: d.
Proof.
  cbn. destruct (trigger_call env l t w).
  - exists []. reflexivity.
  - destruct (emits_trigger_run env (fun _ => True) l ts (fun _ => I)
                (log_event (EvTrigger l t) w)) as [d [E _]].
    exists d. rewrite E. cbn. rewrite <- app_assoc. reflexivity.
Qed.

(** ** The statement queue *)

Lemma stailq_last_entry_app (l : list txn_stmt) (s : txn_stmt) :
  stailq_last_entry (l ++ [s]) = Some s.
Proof.
  induction l as [|x l IH]; [reflexivity|].
  cbn [app stailq_last_entry]. rewrite IH.
  destruct (l ++ [s]) eqn:E; [destruct l; discriminate | reflexivity].
Qed.

Lemma stailq_last_entry_inv (l : list txn_stmt) (s : txn_stmt) :
  stailq_last_entry l = Some s -> exists init, l = init ++ [s].
Proof.
  induction l as [|x l IH]; [discriminate|].
  destruct l as [|y l].
  - cbn. intros E. injection E as ->. exists []. reflexivity.
  - intros E. destruct (IH E) as [init Hi].
    exists (x :: init). cbn [app]. rewrite <- Hi. reflexivity.
Qed.

Lemma update_last_app (f : txn_stmt -> txn_stmt) (l : list txn_stmt) (s : txn_stmt) :
  update_last f (l ++ [s]) = l ++ [f s].
Proof.
  induction l as [|x l IH]; [reflexivity|].
  cbn [app update_last]. rewrite IH.
  destruct (l ++ [s]) eqn:E; [destruct l; discriminate | reflexivity].
Qed.

Lemma present_rows_app (l1 l2 : list txn_stmt) :
  present_rows (l1 ++ l2) = present_rows l1 ++ present_rows l2.
Proof.
  induction l1 as [|x l1 IH]; [reflexivity|].
  cbn. destruct (row x); cbn; rewrite IH; reflexivity.
Qed.

(** The loop of [txn_write_to_wal] against its specification: the
    request is extended with the rows of the queue, stamped in order; the
    rows left in the statements are the stamped ones; the recovery
    position advances by the number of rows. *)
Lemma wal_fill_spec (ss : list txn_stmt) (v now : Z) (req : list xrow_header) :
  snd (wal_fill ss v now req) = req ++ stamp_rows v now (present_rows ss) /\
  present_rows (fst (fst (wal_fill ss v now req)))
  = stamp_rows v now (present_rows ss) /\
  snd (fst (wal_fill ss v now req)) = v + Z.of_nat (length (present_rows ss)) /\
  length (fst (fst (wal_fill ss v now req))) = length ss.
Proof.
  revert v req. induction ss as [|s ss IH]; intros v req.
  - cbn. rewrite app_nil_r. repeat split. lia.
  - cbn [wal_fill present_rows]. destruct (row s) as [r|] eqn:R.
    + cbn [recovery_fill_lsn].
      specialize (IH (v + 1) (req ++ [set_row_tm now (set_row_lsn (v + 1) r)])).
      destruct (wal_fill ss (v + 1) now _) as [[ss' v'] req'].
      cbn [fst snd] in *. destruct IH as (I1 & I2 & I3 & I4).
      cbn [stamp_rows present_rows row set_row length].
      rewrite I1, I2, I3, I4, <- app_assoc. repeat split. lia.
    + specialize (IH v req).
      destruct (wal_fill ss v now req) as [[ss' v'] req'].
      cbn [fst snd] in *. destruct IH as (I1 & I2 & I3 & I4).
      cbn [present_rows length]. rewrite R, I1, I2, I3, I4. repeat split.
Qed.

Lemma stamp_rows_length (v now : Z) (rows : list xrow_header) :
  length (stamp_rows v now rows) = length rows.
Proof.
  revert v. induction rows as [|r rows IH]; intros v; cbn; [reflexivity|].
  rewrite IH. reflexivity.
Qed.

(** Stamping changes the sequence number and the time of a row and
    nothing else, and keeps the order. *)
Lemma stamp_rows_payload (v now : Z) (rows : list xrow_header) :
  map (set_row_tm 0) (map (set_row_lsn 0) (stamp_rows v now rows))
  = map (set_row_tm 0) (map (set_row_lsn 0) rows).
Proof.
  revert v. induction rows as [|r rows IH]; intros v; cbn; [reflexivity|].
  rewrite IH. reflexivity.
Qed.

Lemma rows_consistent_stmts (t : txn) (v now : Z) :
  rows_consistent (Some t) ->
  rows_consistent (Some (set_stmts (fst (fst (wal_fill (stmts t) v now []))) t)).
Proof.
  unfold rows_consistent. cbn. intros H.
  destruct (wal_fill_spec (stmts t) v now []) as (_ & E & _).
  rewrite E, stamp_rows_length. exact H.
Qed.

(** ** Committing a statement *)

(** [txn_commit_stmt] in three steps: the redo step, the on_replace
    triggers when they fire, and the end of the statement. *)
Lemma txn_commit_stmt_steps (env : Env) (rq : request) (w : world) (t : txn)
    (s : txn_stmt) (sp : space) :
  fiber_txn w = Some t ->
  in_sub_stmt t > 0 ->
  in_prepare t = false ->
  stailq_last_entry (stmts t) = Some s ->
  stmt_space s = Some sp ->
  txn_commit_stmt env rq w
  = bind (if triggers_fire s sp
          then trigger_run env (L_on_replace (space_id sp)) (on_replace sp)
          else ret tt)
      (fun _ => commit_stmt_end env)
      (set_fiber_txn (Some (commit_stmt_redo env rq sp t)) w).
Proof.
  intros Ht Hd Hp Hl Hs. destruct_world w. subst ft.
  unfold txn_commit_stmt.
  bind_step.
  assert (G : (in_sub_stmt t >? 0) = true) by (apply Z.gtb_lt; lia).
  rewrite G, Hp, Hl, Hs. do 2 bind_step.
  unfold commit_stmt_redo, triggers_fire, commit_stmt_end.
  destruct (space_is_temporary sp); cbn [negb].
  - bind_step. destruct t; reflexivity.
  - rewrite bind_assoc. do 2 bind_step. reflexivity.
Qed.

Lemma emits_commit_stmt_end (env : Env) :
  emits (fun ev => is_on_replace_event ev = false) (commit_stmt_end env).
Proof.
  pose proof (emits_txn_commit env (fun ev => is_on_replace_event ev = false)
                (fun ev H => H)).
  unfold commit_stmt_end. emits_auto idtac.
Qed.

Lemma bind_trace_prefix {A B : Type} (P : event -> Prop) (m : M A)
    (k : A -> M B) (w : world) (d1 : list event) :
  trace (snd (m w)) = trace w ++ d1 ->
  (forall a, emits P (k a)) ->
  exists d2, trace (snd (bind m k w)) = trace w ++ d1 ++ d2 /\ Forall P d2.
Proof.
  intros E Hk. unfold bind. destruct (m w) as [[a|e|] w1]; cbn [snd] in *.
  - destruct (Hk a w1) as [d2 [E2 F2]]. exists d2.
    rewrite E2, E, app_assoc. split; [reflexivity | exact F2].
  - exists []. rewrite app_nil_r. split; [exact E | constructor].
  - exists []. rewrite app_nil_r. split; [exact E | constructor].
Qed.

Lemma no_on_replace_event (d : list event) :
  Forall (fun ev => is_on_replace_event ev = false) d ->
  existsb is_on_replace_event d = false.
Proof.
  induction 1 as [|ev d H _ IH]; [reflexivity|].
  cbn. rewrite H, IH. reflexivity.
Qed.

Lemma triggers_fire_iff (s : txn_stmt) (sp : space) :
  triggers_fire s sp = true <->
  on_replace sp <> [] /\ run_triggers sp = true /\
  (old_tuple s <> None \/ new_tuple s <> None).
Proof.
  unfold triggers_fire.
  destruct (on_replace sp) as [|tr rest], (run_triggers sp),
    (old_tuple s), (new_tuple s); cbn;
    (split; [intros H; try discriminate H;
             repeat split; try discriminate; auto; (left + right); discriminate
            | intros (H1 & H2 & [H3 | H3]); congruence]).
Qed.

(** C7: [txn_commit_stmt] runs the on_replace triggers of the space of
    the statement if and only if the space has a trigger, triggers are
    enabled for the space, and the statement has an old or a new tuple.
    When they run and none throws, all of them run, in order, before
    anything else is called; a statement with neither tuple runs none. *)
Theorem on_replace_triggers_run_iff (env : Env) (rq : request) (w : world)
    (t : txn) (s : txn_stmt) (sp : space) :
  fiber_txn w = Some t ->
  in_sub_stmt t > 0 ->
  in_prepare t = false ->
  stailq_last_entry (stmts t) = Some s ->
  stmt_space s = Some sp ->
  let w' := snd (txn_commit_stmt env rq w) in
  (existsb is_on_replace_event (events_since w w') = true <->
   on_replace sp <> [] /\ run_triggers sp = true /\
   (old_tuple s <> None \/ new_tuple s <> None)) /\
  (existsb is_on_replace_event (events_since w w') = true ->
   (forall tr w1, In tr (on_replace sp) ->
                  trigger_call env (L_on_replace (space_id sp)) tr w1 = None) ->
   exists d,
     events_since w w'
     = map (EvTrigger (L_on_replace (space_id sp))) (on_replace sp) ++ d /\
     existsb is_on_replace_event d = false) /\
  (old_tuple s = None -> new_tuple s = None ->
   existsb is_on_replace_event (events_since w w') = false).
Proof.
  intros Ht Hd Hp Hl Hs w'.
  assert (Hfire : triggers_fire s sp = true ->
                  existsb is_on_replace_event (events_since w w') = true).
  { intros F. subst w'. rewrite (txn_commit_stmt_steps env rq w t s sp) by assumption.
    rewrite F.
    destruct (on_replace sp) as [|tr rest] eqn:Hor.
    { unfold triggers_fire in F. rewrite Hor in F. discriminate F. }
    destruct (trigger_run_first env (L_on_replace (space_id sp)) tr rest
                (set_fiber_txn (Some (commit_stmt_redo env rq sp t)) w))
      as [d1 E1].
    destruct (bind_trace_prefix _ _ (fun _ => commit_stmt_end env) _ _ E1
                (fun _ => emits_commit_stmt_end env)) as [d2 [E2 _]].
    rewrite (events_since_app w _ _ E2). reflexivity. }
  assert (Hquiet : triggers_fire s sp = false ->
                   existsb is_on_replace_event (events_since w w') = false).
  { intros F. subst w'. rewrite (txn_commit_stmt_steps env rq w t s sp) by assumption.
    rewrite F. rewrite bind_ret_l.
    destruct (emits_commit_stmt_end env
                (set_fiber_txn (Some (commit_stmt_redo env rq sp t)) w))
      as [d [E F']].
    rewrite (events_since_app w _ _ E). apply no_on_replace_event. exact F'. }
  split; [| split].
  - rewrite <- triggers_fire_iff. split; [| exact Hfire].
    intros H. destruct (triggers_fire s sp) eqn:F; [reflexivity|].
    rewrite (Hquiet eq_refl) in H. discriminate H.
  - intros H Hok.
    assert (F : triggers_fire s sp = true).
    { destruct (triggers_fire s sp) eqn:F; [reflexivity|].
      rewrite (Hquiet eq_refl) in H. discriminate H. }
    subst w'. rewrite (txn_commit_stmt_steps env rq w t s sp) by assumption.
    rewrite F.
    erewrite bind_ret_eq by (apply trigger_run_all; exact Hok).
    destruct (emits_commit_stmt_end env
                (add_trace (map (EvTrigger (L_on_replace (space_id sp)))
                              (on_replace sp))
                   (set_fiber_txn (Some (commit_stmt_redo env rq sp t)) w)))
      as [d [E F']].
    exists d. split; [| apply no_on_replace_event; exact F'].
    apply events_since_app. rewrite E. cbn. rewrite app_assoc. reflexivity.
  - intros Ho Hn. apply Hquiet. unfold triggers_fire. rewrite Ho, Hn.
    cbn. apply andb_false_r.
Qed.

Lemma on_replace_triggers_run_iff_witness :
  existsb is_on_replace_event
    (events_since w_executed (snd (txn_commit_stmt env_ok request_lua w_executed)))
  = true <->
  on_replace space_a <> [] /\ run_triggers space_a = true /\
  (@None tuple <> None \/ Some 5%nat <> @None tuple).
Proof.
  refine (proj1 (on_replace_triggers_run_iff env_ok request_lua w_executed
                   _ _ space_a eq_refl _ eq_refl eq_refl eq_refl)).
  cbn. lia.
Defined.

(** ** Rolling back a statement *)

(** C8: on a transaction that is not in autocommit mode and has an open
    sub-statement, [txn_rollback_stmt] tells the engine to undo the last
    statement, removes the log row of that statement only, decrements
    [n_rows] by the contribution of that statement (1 if it had a row, 0
    if not) and decrements the depth.  The statement stays in the queue
    and the statements before it, with their rows, are untouched. *)
Theorem rollback_stmt_voids_last_row (env : Env) (w : world) (t : txn)
    (init : list txn_stmt) (s : txn_stmt) (e : engine_id) :
  fiber_txn w = Some t ->
  is_autocommit t = false ->
  in_sub_stmt t <> 0 ->
  stmts t = init ++ [s] ->
  engine t = Some e ->
  rows_consistent (Some t) ->
  engine_call env e (H_rollbackStatement s) w = None ->
  let t' := set_in_sub_stmt (in_sub_stmt t - 1)
              (set_n_rows (n_rows t - row_contribution s)
                 (set_stmts (init ++ [set_row None s]) t)) in
  txn_rollback_stmt env w
  = (Ret tt,
     log_event (EvEngine e (H_rollbackStatement s))
       (set_fiber_txn (Some t') w)) /\
  length (stmts t') = length (stmts t) /\
  present_rows (stmts t') = present_rows init /\
  rows_consistent (Some t').
Proof.
  intros Ht Ha Hd Hs He Hc Hcall t'.
  assert (Hrows : present_rows (init ++ [set_row None s]) = present_rows init).
  { rewrite present_rows_app. cbn. apply app_nil_r. }
  assert (Hcount : n_rows t - row_contribution s
                   = Z.of_nat (length (present_rows init))).
  { unfold rows_consistent in Hc. rewrite Hc, Hs, present_rows_app.
    rewrite length_app. unfold row_contribution. cbn.
    destruct (row s); cbn; lia. }
  split; [| split; [| split]].
  - subst t'. destruct_world w. subst ft.
    destruct t as [ss tp ip ti ci nr ac ht d eng etx oc orb].
    cbn in Ha, Hd, Hs, He, Hcount. subst ac ss eng.
    unfold txn_rollback_stmt, engine_invoke. exec.
    destruct (d =? 0) eqn:E; [apply Z.eqb_eq in E; contradiction|].
    rewrite stailq_last_entry_app. cbn. rewrite Hcall. cbn.
    unfold row_contribution in *. destruct s as [ssp so sn sv [r|]]; cbn in *.
    + rewrite update_last_app. cbn.
      destruct (nr - 1 >=? 0) eqn:G; [reflexivity|].
      rewrite Z.geb_leb in G. apply Z.leb_gt in G. lia.
    + rewrite Z.sub_0_r. reflexivity.
  - subst t'. cbn. rewrite Hs, !length_app. reflexivity.
  - exact Hrows.
  - subst t'. unfold rows_consistent. cbn. rewrite Hrows. exact Hcount.
Qed.

Lemma rollback_stmt_voids_last_row_witness :
  fst (txn_rollback_stmt env_ok w_trigger_failed) = Ret tt /\
  option_map n_rows (fiber_txn w_trigger_failed) = Some 2 /\
  option_map n_rows (fiber_txn (snd (txn_rollback_stmt env_ok w_trigger_failed)))
  = Some 1.
Proof.
  pose proof (rollback_stmt_voids_last_row env_ok w_trigger_failed _ [_; _] _ 0%nat
                eq_refl eq_refl ltac:(cbn; lia) eq_refl eq_refl eq_refl eq_refl)
    as H.
  rewrite (proj1 H). repeat split.
Defined.

(** ** [n_rows] and the rows of the statements *)

Lemma keeps_rows_txn_begin_stmt (env : Env) (sp : space) :
  keeps rows_consistent (txn_begin_stmt env sp).
Proof.
  intros w H. destruct_world w.
  unfold txn_begin_stmt, txn_begin_in_engine, txn_begin, txn_stmt_new,
    engine_invoke.
  destruct ft as [t|].
  - destruct t as [ss tp ip ti ci nr ac ht d eng etx oc orb].
    assert (R : length (present_rows
                          (update_last (set_stmt_space (Some sp))
                             (ss ++ [mk_stmt None None None None None])))
                = length (present_rows ss)).
    { rewrite update_last_app, present_rows_app. cbn. rewrite app_nil_r.
      reflexivity. }
    unfold rows_consistent in *. exec.
    destruct (d >? TXN_SUB_STMT_MAX); cbn; [exact H|].
    destruct ip; cbn.
    { destruct tp; exact H. }
    destruct eng as [e'|]; cbn.
    + destruct (Nat.eqb e' (handler_engine sp)); cbn; [|exact H].
      destruct (engine_call env _ _ _); cbn; rewrite R; exact H.
    + destruct (rlist_empty ss); cbn; [|exact H].
      destruct (engine_call env _ H_begin _); cbn; [exact H|].
      destruct (engine_call env _ H_beginStatement _); cbn; rewrite R; exact H.
  - unfold rows_consistent in *. exec.
    destruct (engine_call env _ H_begin _); cbn; [reflexivity|].
    destruct (engine_call env _ H_beginStatement _); cbn; reflexivity.
Qed.

Lemma keeps_rows_txn_rollback_stmt (env : Env) :
  keeps rows_consistent (txn_rollback_stmt env).
Proof.
  intros w H.
  pose proof (keeps_txn_rollback env rows_consistent I w H) as Hrb.
  destruct_world w.
  unfold txn_rollback_stmt. destruct ft as [t|]; [| exact H].
  erewrite bind_ret_eq by reflexivity. cbn [fiber_txn].
  destruct (is_autocommit t); [exact Hrb|]. clear Hrb.
  destruct (in_sub_stmt t =? 0); [exact H|].
  destruct (stailq_last_entry (stmts t)) as [s|] eqn:L; [| exact H].
  destruct (engine t) as [e|]; [| exact H].
  destruct (stailq_last_entry_inv _ _ L) as [init Hs].
  destruct t as [ss tp ip ti ci nr ac ht d eng etx oc orb].
  cbn in Hs. subst ss. unfold rows_consistent in *. cbn in H.
  rewrite present_rows_app, length_app in H.
  unfold engine_invoke. exec.
  destruct (engine_call env e _ _); cbn.
  { rewrite present_rows_app, length_app. exact H. }
  destruct s as [ssp so sn sv [r|]]; cbn in *.
  - rewrite update_last_app. cbn.
    destruct (nr - 1 >=? 0); cbn;
      rewrite present_rows_app, length_app; cbn; lia.
  - rewrite present_rows_app, length_app. cbn. exact H.
Qed.

Lemma rows_consistent_redo (env : Env) (rq : request) (t : txn) (s : txn_stmt)
    (sp : space) :
  stailq_last_entry (stmts t) = Some s ->
  row s = None \/ space_is_temporary sp = true ->
  rows_consistent (Some t) ->
  rows_consistent (Some (commit_stmt_redo env rq sp t)).
Proof.
  intros L Hrow H. unfold commit_stmt_redo.
  destruct (space_is_temporary sp); [exact H|].
  destruct Hrow as [Hrow | Hrow]; [| discriminate Hrow].
  destruct (stailq_last_entry_inv _ _ L) as [init Hs].
  unfold rows_consistent in *. cbn.
  rewrite Hs in *. rewrite update_last_app.
  rewrite present_rows_app, length_app in *. cbn in *. rewrite Hrow in H.
  unfold txn_add_redo. destruct (header rq); cbn in *; lia.
Qed.

Lemma keeps_rows_commit_stmt_end (env : Env) :
  keeps rows_consistent (commit_stmt_end env).
Proof.
  pose proof (keeps_txn_commit env rows_consistent I rows_consistent_stmts).
  unfold commit_stmt_end.
  keeps_auto ltac:(unfold rows_consistent in *; cbn in *; try assumption).
Qed.

(** X21: where the statement operations keep [n_rows] equal to the
    number of statements that carry a log row.  [txn_begin_stmt] and
    [txn_rollback_stmt] always do, whatever the engine does;
    [txn_commit_stmt], with triggers that issue no statement of their
    own, does when the last statement of the queue carries no row yet
    (it is the statement begun last and not committed before) or its
    space is temporary.  Under the invariant the request built by
    [txn_write_to_wal] holds exactly [n_rows] rows, so its assertion
    passes. *)
Theorem n_rows_counts_present_rows (env : Env) :
  (forall sp, keeps rows_consistent (txn_begin_stmt env sp)) /\
  keeps rows_consistent (txn_rollback_stmt env) /\
  (forall rq w t s sp,
     fiber_txn w = Some t ->
     stailq_last_entry (stmts t) = Some s ->
     stmt_space s = Some sp ->
     row s = None \/ space_is_temporary sp = true ->
     rows_consistent (Some t) ->
     rows_consistent (fiber_txn (snd (txn_commit_stmt env rq w)))) /\
  (forall w t,
     fiber_txn w = Some t ->
     rows_consistent (Some t) ->
     exists req w',
       wal_request_fill w = (Ret req, w') /\
       req = stamp_rows (vclock_sum w) (ev_now w) (present_rows (stmts t)) /\
       Z.of_nat (length req) = n_rows t).
Proof.
  split; [| split; [| split]].
  - apply keeps_rows_txn_begin_stmt.
  - apply keeps_rows_txn_rollback_stmt.
  - intros rq w t s sp Ht L Hs Hrow Hc.
    destruct (in_sub_stmt t >? 0) eqn:D.
    + destruct (in_prepare t) eqn:Pr.
      * unfold txn_commit_stmt. destruct_world w. subst ft.
        bind_step. rewrite D, Pr. bind_step. cbn. exact Hc.
      * apply Z.gtb_lt in D.
        rewrite (txn_commit_stmt_steps env rq w t s sp) by (assumption || lia).
        pose proof (keeps_rows_commit_stmt_end env) as He.
        assert (K : keeps rows_consistent
                      (bind (if triggers_fire s sp
                             then trigger_run env (L_on_replace (space_id sp))
                                    (on_replace sp)
                             else ret tt)
                         (fun _ => commit_stmt_end env))).
        { keeps_auto idtac. }
        apply K. cbn. apply (rows_consistent_redo env rq t s sp); assumption.
    + unfold txn_commit_stmt. destruct_world w. subst ft.
      bind_step. rewrite D. cbn. exact Hc.
  - intros w t Ht Hc. unfold wal_request_fill. rewrite Ht.
    destruct (wal_fill_spec (stmts t) (vclock_sum w) (ev_now w) [])
      as (E & _).
    eexists. eexists. split; [reflexivity|]. split; [exact E|].
    rewrite E. cbn. rewrite stamp_rows_length. symmetry. exact Hc.
Qed.

Lemma n_rows_counts_present_rows_witness :
  rows_consistent
    (fiber_txn (snd (txn_commit_stmt env_ok request_lua w_executed))).
Proof.
  refine (proj1 (proj2 (proj2 (n_rows_counts_present_rows env_ok)))
            request_lua w_executed _ _ space_a eq_refl eq_refl eq_refl
            (or_introl eq_refl) eq_refl).
Defined.


(** ** Statements run one after another *)

Lemma txn_add_redo_row (env : Env) (s : txn_stmt) (rq : request) :
  txn_add_redo env s rq = set_row (Some (request_row env rq)) s.
Proof. unfold txn_add_redo, request_row. destruct (header rq); reflexivity. Qed.

(** With collaborators that return, a statement of the engine of the
    transaction (or the first statement of a transaction) is accepted. *)
Lemma txn_begin_stmt_accepted (env : Env) (sp : space) (w : world) (t : txn) :
  collaborators_return env ->
  fiber_txn w = Some t ->
  in_sub_stmt t <= TXN_SUB_STMT_MAX ->
  in_prepare t = false ->
  engine t = Some (handler_engine sp) \/ (engine t = None /\ stmts t = []) ->
  fst (txn_begin_stmt env sp w) = Ret tt /\
  fiber_txn (snd (txn_begin_stmt env sp w))
  = Some (set_engine (Some (handler_engine sp))
            (set_in_sub_stmt (in_sub_stmt t + 1)
               (set_stmts (stmts t ++ [mk_stmt (Some sp) None None None None]) t))).
Proof.
  intros [Heng _] Ht Hd Hp Hen.
  destruct Hen as [Hen | [Hen Hss]].
  - rewrite (txn_begin_stmt_same_engine env sp w t Ht Hd Hp Hen (Heng _ _ _)).
    destruct_world w. destruct t. cbn in *. subst. split; reflexivity.
  - destruct_world w. subst ft.
    destruct t as [ss tp ip ti ci nr ac ht d eng etx oc orb].
    cbn in Hd, Hp, Hen, Hss. subst ip eng ss.
    unfold txn_begin_stmt, txn_begin_in_engine, txn_stmt_new, engine_invoke.
    exec.
    destruct (d >? TXN_SUB_STMT_MAX) eqn:E.
    { apply Z.gtb_lt in E. lia. }
    cbn. rewrite !Heng. cbn. rewrite !Heng. split; reflexivity.
Qed.

(** With triggers that return, [txn_commit_stmt] on a transaction that
    is not in autocommit mode returns, and leaves the transaction as it
    is after the redo step, one level up. *)
Lemma txn_commit_stmt_returns (env : Env) (rq : request) (w : world) (t : txn)
    (s : txn_stmt) (sp : space) :
  collaborators_return env ->
  fiber_txn w = Some t ->
  in_sub_stmt t > 0 ->
  in_prepare t = false ->
  stailq_last_entry (stmts t) = Some s ->
  stmt_space s = Some sp ->
  is_autocommit t = false ->
  fst (txn_commit_stmt env rq w) = Ret tt /\
  fiber_txn (snd (txn_commit_stmt env rq w))
  = Some (set_in_sub_stmt (in_sub_stmt t - 1) (commit_stmt_redo env rq sp t)).
Proof.
  intros [_ Htrg] Ht Hd Hp Hl Hs Hac.
  rewrite (txn_commit_stmt_steps env rq w t s sp) by assumption.
  assert (Hac' : is_autocommit (commit_stmt_redo env rq sp t) = false).
  { unfold commit_stmt_redo. destruct (space_is_temporary sp); exact Hac. }
  assert (Hd' : in_sub_stmt (commit_stmt_redo env rq sp t) = in_sub_stmt t).
  { unfold commit_stmt_redo. destruct (space_is_temporary sp); reflexivity. }
  destruct (triggers_fire s sp).
  - erewrite bind_ret_eq by (apply trigger_run_all; intros; apply Htrg).
    unfold commit_stmt_end. do 2 bind_step.
    cbn [is_autocommit set_in_sub_stmt]. rewrite Hac', Hd'. split; reflexivity.
  - rewrite bind_ret_l.
    unfold commit_stmt_end. do 2 bind_step.
    cbn [is_autocommit set_in_sub_stmt]. rewrite Hac', Hd'. split; reflexivity.
Qed.

Lemma run_call (env : Env) (c : stmt_call) (w : world) (t : txn) (a : engine_id) :
  collaborators_return env ->
  fiber_txn w = Some t ->
  between_statements a t ->
  handler_engine (call_space c) = a ->
  exists t',
    fiber_txn (run_ops env (call_ops c) w) = Some t' /\
    between_statements a t' /\
    n_rows t' = n_rows t + Z.of_nat (length (durable_calls [c])) /\
    present_rows (stmts t')
    = present_rows (stmts t)
      ++ map (fun c => request_row env (call_request c)) (durable_calls [c]).
Proof.
  intros Hret Ht (Htp & Hac & Hip & Hd & Hen) Ha.
  destruct c as [sp old new rq]. cbn [call_space] in Ha. subst a.
  unfold call_ops, run_ops.
  cbn [fold_left call_space call_old call_new call_request].
  destruct (txn_begin_stmt_accepted env sp w t Hret Ht) as [_ E1];
    [unfold TXN_SUB_STMT_MAX; lia | assumption | assumption |].
  remember (run_op env (OpBeginStmt sp) w) as w1 eqn:W1.
  cbn [run_op] in W1. rewrite <- W1 in E1.
  remember (run_op env (OpExecute old new) w1) as w2 eqn:W2.
  cbn [run_op] in W2. rewrite E1 in W2.
  match type of W2 with _ = set_fiber_txn (Some ?x) _ => set (t2 := x) in * end.
  assert (E2 : fiber_txn w2 = Some t2) by (rewrite W2; reflexivity).
  assert (S2 : stmts t2 = stmts t ++ [mk_stmt (Some sp) old new None None]).
  { subst t2. cbn. rewrite update_last_app. reflexivity. }
  assert (T2 : is_two_phase t2 = false) by exact Htp.
  assert (A2 : is_autocommit t2 = false) by exact Hac.
  assert (P2 : in_prepare t2 = false) by exact Hip.
  assert (D2 : in_sub_stmt t2 = 1) by (subst t2; cbn; lia).
  assert (En2 : engine t2 = Some (handler_engine sp)) by reflexivity.
  assert (N2 : n_rows t2 = n_rows t) by reflexivity.
  clearbody t2.
  destruct (txn_commit_stmt_returns env rq w2 t2
              (mk_stmt (Some sp) old new None None) sp Hret E2) as [_ E3];
    [ lia | exact P2 | rewrite S2; apply stailq_last_entry_app | reflexivity
    | exact A2 | ].
  cbn [run_op]. rewrite E3. eexists. split; [reflexivity|].
  unfold between_statements, commit_stmt_redo, durable_calls.
  cbn [filter call_space].
  destruct (space_is_temporary sp); cbn [negb];
    cbn [is_autocommit in_prepare in_sub_stmt engine n_rows stmts
         is_two_phase set_in_sub_stmt set_n_rows set_stmts map length
         call_request].
  - rewrite S2, present_rows_app. cbn [present_rows row].
    rewrite !app_nil_r, Z.add_0_r, D2.
    repeat split; try assumption; try reflexivity. left. exact En2.
  - rewrite S2, update_last_app, present_rows_app, txn_add_redo_row.
    cbn [present_rows row set_row]. rewrite D2, N2.
    repeat split; try assumption; try reflexivity. left. exact En2.
Qed.

(** Statements run one after another in a transaction begun with
    [box_txn_begin]: [n_rows] grows by the number of statements that are
    not on a temporary space, and the rows of those statements are
    appended to the rows of the queue in the order of the statements. *)
Lemma run_calls (env : Env) (cs : list stmt_call) (w : world) (t : txn)
    (a : engine_id) :
  collaborators_return env ->
  fiber_txn w = Some t ->
  between_statements a t ->
  (forall c, In c cs -> handler_engine (call_space c) = a) ->
  exists t',
    fiber_txn (run_ops env (calls_ops cs) w) = Some t' /\
    between_statements a t' /\
    n_rows t' = n_rows t + Z.of_nat (length (durable_calls cs)) /\
    present_rows (stmts t')
    = present_rows (stmts t)
      ++ map (fun c => request_row env (call_request c)) (durable_calls cs).
Proof.
  intros Hret. revert w t.
  induction cs as [|c cs IH]; intros w t Ht Hb Ha.
  - exists t. cbn. rewrite app_nil_r, Z.add_0_r.
    split; [exact Ht | split; [exact Hb | split; reflexivity]].
  - destruct (run_call env c w t a Hret Ht Hb (Ha c (or_introl eq_refl)))
      as (t1 & E1 & B1 & N1 & R1).
    destruct (IH (run_ops env (call_ops c) w) t1 E1 B1
                (fun c' H => Ha c' (or_intror H)))
      as (t' & E' & B' & N' & R').
    exists t'. unfold calls_ops, run_ops in *. cbn [flat_map].
    rewrite fold_left_app. split; [exact E'|]. split; [exact B'|].
    rewrite N', N1, R', R1. unfold durable_calls. cbn [filter].
    destruct (negb (space_is_temporary (call_space c))); cbn.
    + rewrite <- app_assoc. split; [lia | reflexivity].
    + rewrite app_nil_r. split; [lia | reflexivity].
Qed.

(** C4, as stated, fails: a statement on a space that is not temporary
    counts even when it produced no value change (it has neither an old
    nor a new tuple). *)
Lemma statement_without_change_is_counted :
  call_old call_no_change = None /\ call_new call_no_change = None /\
  space_is_temporary (call_space call_no_change) = false /\
  option_map n_rows
    (fiber_txn (run_ops env_ok (OpBegin :: calls_ops [call_no_change]) world0))
  = Some 1 /\
  option_map (fun t => length (present_rows (stmts t)))
    (fiber_txn (run_ops env_ok (OpBegin :: calls_ops [call_no_change]) world0))
  = Some 1%nat.
Proof. vm_compute. repeat split. Qed.

(** ** Rollback *)

Lemma engine_invoke_returns (env : Env) (e : engine_id) (h : hook) (w : world) :
  engine_call env e h w = None ->
  engine_invoke env e h w = (Ret tt, log_event (EvEngine e h) w).
Proof. intros H. unfold engine_invoke. rewrite H. reflexivity. Qed.

Lemma add_trace_app (d1 d2 : list event) (w : world) :
  add_trace d2 (add_trace d1 w) = add_trace (d1 ++ d2) w.
Proof. unfold add_trace. cbn. rewrite app_assoc. reflexivity. Qed.

Lemma add_trace_nil (w : world) : add_trace [] w = w.
Proof. unfold add_trace. rewrite app_nil_r. destruct w; reflexivity. Qed.

(** [txn_rollback] when its collaborators keep their contract: the
    on_rollback triggers run, then the rollback method of the engine,
    the region is destroyed, the transaction freed, and the fiber is left
    without a transaction. *)
Lemma txn_rollback_returns (env : Env) (w : world) (t : txn) :
  fiber_txn w = Some t ->
  rollback_does_not_throw env t ->
  txn_rollback env w
  = (Ret tt, set_fiber_txn None (add_trace (rollback_events t) w)).
Proof.
  intros Ht [Htrg Heng]. unfold txn_rollback, rollback_events.
  erewrite bind_ret_eq by reflexivity. rewrite Ht.
  assert (S1 : (if has_triggers t
                then trigger_run env L_on_rollback (on_rollback t)
                else ret tt) w
               = (Ret tt,
                  add_trace (if has_triggers t
                             then map (EvTrigger L_on_rollback) (on_rollback t)
                             else []) w)).
  { destruct (has_triggers t).
    - apply trigger_run_all. intros. apply Htrg. assumption.
    - rewrite add_trace_nil. reflexivity. }
  erewrite bind_ret_eq by exact S1.
  set (w1 := add_trace _ w).
  assert (S2 : match engine t with
               | Some e => engine_invoke env e H_rollback
               | None => ret tt
               end w1
               = (Ret tt,
                  add_trace match engine t with
                            | Some e => [EvEngine e H_rollback]
                            | None => []
                            end w1)).
  { destruct (engine t) as [e|] eqn:E.
    - apply engine_invoke_returns. apply Heng. reflexivity.
    - rewrite add_trace_nil. reflexivity. }
  erewrite bind_ret_eq by exact S2.
  do 3 bind_step.
  subst w1. unfold fiber_set_txn, set_fiber_txn, log_event, add_trace. cbn.
  rewrite <- !app_assoc. reflexivity.
Qed.

(** ** The failure of a log write *)

(** [txn_write_to_wal] when the writer fails: the transaction is rolled
    back, the fiber rescheduled, and ER_WAL_IO thrown. *)
Lemma txn_write_to_wal_fails (env : Env) (w : world) (t : txn)
    (write : list xrow_header -> world -> Z * Z) :
  fiber_txn w = Some t ->
  n_rows t > 0 ->
  rows_consistent (Some t) ->
  wal env = Some write ->
  rollback_does_not_throw env t ->
  let req := stamp_rows (vclock_sum w) (ev_now w) (present_rows (stmts t)) in
  let wf := snd (wal_request_fill w) in
  fst (write req wf) < 0 ->
  let stop := snd (write req wf) in
  txn_write_to_wal env w
  = (Throw (LoggedError ER_WAL_IO),
     mk_world None (Some (LoggedError ER_WAL_IO)) (vclock_sum wf) stop
       (trace w ++ [EvWalWrite req]
        ++ (if stop - ev_now w >? too_long_threshold env then [EvSayWarn] else [])
        ++ rollback_events t ++ [EvFiberReschedule])).
Proof.
  intros Ht Hn Hc Hwal Hrb req wf Hneg stop.
  destruct (wal_fill_spec (stmts t) (vclock_sum w) (ev_now w) [])
    as (E1 & _ & _ & _). cbn [app] in E1.
  assert (Hreq : wal_request_fill w = (Ret req, wf)).
  { subst wf req. unfold wal_request_fill. rewrite Ht. cbn [snd].
    rewrite E1. reflexivity. }
  assert (Hlen : (Z.of_nat (length req) =? n_rows t) = true).
  { apply Z.eqb_eq. subst req. rewrite stamp_rows_length. symmetry. exact Hc. }
  assert (Hgt : (n_rows t >? 0) = true) by (apply Z.gtb_lt; lia).
  unfold txn_write_to_wal.
  erewrite bind_ret_eq by (unfold deref_txn; rewrite Ht; reflexivity).
  rewrite Hgt. bind_step.
  erewrite bind_ret_eq by exact Hreq.
  rewrite Hlen. do 2 bind_step.
  unfold wal_submit. rewrite Hwal. bind_step. bind_step.
  fold stop.
  set (ts := set_stmts (fst (fst (wal_fill (stmts t) (vclock_sum w) (ev_now w) []))) t).
  set (v' := snd (fst (wal_fill (stmts t) (vclock_sum w) (ev_now w) []))).
  assert (Hwf : wf = mk_world (Some ts) (diag w) v' (ev_now w) (trace w)).
  { subst wf ts v'. unfold wal_request_fill. rewrite Ht. reflexivity. }
  assert (Hlt : (fst (write req wf) <? 0) = true) by (apply Z.ltb_lt; exact Hneg).
  rewrite Hlt. clearbody stop. rewrite Hwf. clear Hwf Hlt Hneg Hreq.
  cbn [set_ev_now log_event fiber_txn diag vclock_sum ev_now trace].
  set (w2 := mk_world (Some ts) (diag w) v' stop (trace w ++ [EvWalWrite req])).
  assert (S1 : (if stop - ev_now w >? too_long_threshold env
                then emit EvSayWarn else ret tt) w2
               = (Ret tt,
                  add_trace (if stop - ev_now w >? too_long_threshold env
                             then [EvSayWarn] else []) w2)).
  { destruct (stop - ev_now w >? too_long_threshold env).
    - reflexivity.
    - rewrite add_trace_nil. reflexivity. }
  erewrite bind_ret_eq by exact S1.
  erewrite bind_ret_eq
    by (apply (txn_rollback_returns env _ ts); [reflexivity | exact Hrb]).
  bind_step.
  unfold tnt_raise, set_diag, log_event, set_fiber_txn, add_trace, rollback_events.
  subst w2 ts. cbn. rewrite <- !app_assoc. reflexivity.
Qed.

(** C1: when the log writer fails the request of a commit (it returns a
    negative result), the transaction is rolled back before the error
    reaches the caller: the on_rollback triggers run, the rollback method
    of the bound engine is called, the region is destroyed, the fiber is
    left without a transaction and is rescheduled to the end of the
    event loop, and only then ER_WAL_IO is raised.  [txn_commit] throws
    it and [box_txn_commit] returns -1 with ER_WAL_IO in the diagnostics
    area; neither the on_commit triggers nor the commit method of the
    engine are called. *)
Theorem wal_failure_rolls_back (env : Env) (w : world) (t : txn)
    (e : engine_id) (write : list xrow_header -> world -> Z * Z) :
  fiber_txn w = Some t ->
  in_sub_stmt t = 0 ->
  engine t = Some e ->
  (is_two_phase t = true -> in_prepare t = true) ->
  (is_two_phase t = false -> engine_call env e H_prepare w = None) ->
  n_rows t > 0 ->
  rows_consistent (Some t) ->
  wal env = Some write ->
  rollback_does_not_throw env t ->
  let req := stamp_rows (vclock_sum w) (ev_now w) (present_rows (stmts t)) in
  fst (write req (submit_world t e w)) < 0 ->
  let w' := snd (box_txn_commit env w) in
  txn_commit env w = (Throw (LoggedError ER_WAL_IO), w') /\
  fst (box_txn_commit env w) = Ret (-1) /\
  fiber_txn w' = None /\
  diag w' = Some (LoggedError ER_WAL_IO) /\
  events_since w w'
  = wal_failure_events env t e req (ev_now w)
      (snd (write req (submit_world t e w))).
Proof.
  intros Ht Hd He Htp Hprep Hn Hc Hwal Hrb req Hneg.
  set (wp := if is_two_phase t then w else log_event (EvEngine e H_prepare) w).
  assert (Hwp : fiber_txn wp = Some t /\ vclock_sum wp = vclock_sum w /\
                ev_now wp = ev_now w /\
                trace wp = trace w ++ (if is_two_phase t then []
                                       else [EvEngine e H_prepare])).
  { subst wp. destruct (is_two_phase t); cbn; rewrite ?app_nil_r; auto. }
  destruct Hwp as (Ht' & Hv' & Hnow' & Htr').
  assert (S1 : (if negb (is_two_phase t) then engine_invoke env e H_prepare
                else ret tt) w = (Ret tt, wp)).
  { subst wp. destruct (is_two_phase t); cbn [negb]; [reflexivity|].
    apply engine_invoke_returns. apply Hprep. reflexivity. }
  pose proof (txn_write_to_wal_fails env wp t write Ht' Hn Hc Hwal Hrb) as Hw.
  cbn zeta in Hw. rewrite Hv', Hnow', Htr' in Hw.
  fold req in Hw. change (snd (wal_request_fill wp)) with (submit_world t e w) in Hw.
  specialize (Hw Hneg).
  set (stop := snd (write req (submit_world t e w))) in *.
  assert (Hcommit : txn_commit env w
                    = (Throw (LoggedError ER_WAL_IO),
                       mk_world None (Some (LoggedError ER_WAL_IO))
                         (vclock_sum (submit_world t e w)) stop
                         (trace w ++ wal_failure_events env t e req (ev_now w) stop))).
  { unfold txn_commit.
    erewrite bind_ret_eq by (unfold deref_txn; rewrite Ht; reflexivity).
    rewrite He. cbn [non_null]. rewrite orb_true_r. bind_step.
    assert (G : negb (is_two_phase t) || in_prepare t = true).
    { destruct (is_two_phase t); [cbn; apply Htp; reflexivity | reflexivity]. }
    rewrite G. bind_step.
    rewrite (bind_assoc (A:=unit) (B:=unit) (C:=unit)).
    erewrite bind_ret_eq by exact S1.
    assert (Hgt : (n_rows t >? 0) = true) by (apply Z.gtb_lt; lia).
    rewrite Hgt.
    rewrite (bind_assoc (A:=Z) (B:=unit) (C:=unit)).
    erewrite bind_throw_eq by exact Hw.
    unfold wal_failure_events. rewrite <- !app_assoc. reflexivity. }
  assert (Hbox : box_txn_commit env w
                 = (Ret (-1),
                    mk_world None (Some (LoggedError ER_WAL_IO))
                      (vclock_sum (submit_world t e w)) stop
                      (trace w ++ wal_failure_events env t e req (ev_now w) stop))).
  { unfold box_txn_commit.
    erewrite bind_ret_eq by reflexivity. rewrite Ht, Hd. cbn [Z.eqb negb].
    assert (G : is_two_phase t && negb (in_prepare t) = false).
    { destruct (is_two_phase t); [rewrite Htp; reflexivity | reflexivity]. }
    rewrite G. unfold try_catch.
    erewrite bind_throw_eq by exact Hcommit. reflexivity. }
  intros w'. subst w'. rewrite Hbox, Hcommit. cbn [fst snd fiber_txn diag].
  repeat split. apply events_since_app. reflexivity.
Qed.

Lemma wal_failure_rolls_back_witness :
  fst (box_txn_commit env_wal_fails w_two_stmts) = Ret (-1) /\
  fiber_txn (snd (box_txn_commit env_wal_fails w_two_stmts)) = None /\
  diag (snd (box_txn_commit env_wal_fails w_two_stmts))
  = Some (LoggedError ER_WAL_IO) /\
  events_since w_two_stmts (snd (box_txn_commit env_wal_fails w_two_stmts))
  = [EvEngine 0%nat H_prepare;
     EvWalWrite [mk_xrow 3 0 8 0 100 0 0 [4]];
     EvSayWarn;
     EvTrigger L_on_rollback 12%nat; EvTrigger L_on_rollback 13%nat;
     EvEngine 0%nat H_rollback;
     EvRegionDestroy; EvMempoolFree; EvFiberGc; EvFiberReschedule].
Proof.
  refine (proj2 (wal_failure_rolls_back env_wal_fails w_two_stmts _ 0%nat _
                   eq_refl eq_refl eq_refl _ _ _ eq_refl eq_refl _ _)).
  - discriminate.
  - reflexivity.
  - cbn. lia.
  - split; intros; reflexivity.
  - cbn. lia.
Defined.

(** ** The request submitted to the log writer *)

Lemma emits_no_wal_txn_rollback (env : Env) :
  emits (fun ev => is_wal_write_event ev = false) (txn_rollback env).
Proof. unfold txn_rollback. emits_auto reflexivity. Qed.

Lemma no_wal_write_event (d : list event) :
  Forall (fun ev => is_wal_write_event ev = false) d ->
  existsb is_wal_write_event d = false.
Proof.
  induction 1 as [|ev d H _ IH]; [reflexivity|].
  cbn. rewrite H, IH. reflexivity.
Qed.

(** [txn_write_to_wal] with a writer attached submits one request: the
    rows of the statements, stamped, in the order of the queue. *)
Lemma txn_write_to_wal_submits (env : Env) (w : world) (t : txn)
    (write : list xrow_header -> world -> Z * Z) :
  fiber_txn w = Some t ->
  n_rows t > 0 ->
  rows_consistent (Some t) ->
  wal env = Some write ->
  exists d,
    trace (snd (txn_write_to_wal env w))
    = trace w
      ++ [EvWalWrite (stamp_rows (vclock_sum w) (ev_now w) (present_rows (stmts t)))]
      ++ d /\
    Forall (fun ev => is_wal_write_event ev = false) d.
Proof.
  intros Ht Hn Hc Hwal.
  set (req := stamp_rows (vclock_sum w) (ev_now w) (present_rows (stmts t))).
  destruct (wal_fill_spec (stmts t) (vclock_sum w) (ev_now w) [])
    as (E1 & _ & _ & _). cbn [app] in E1.
  assert (Hreq : wal_request_fill w = (Ret req, snd (wal_request_fill w))).
  { subst req. unfold wal_request_fill. rewrite Ht. cbn [snd].
    rewrite E1. reflexivity. }
  assert (Htr : trace (snd (wal_request_fill w)) = trace w).
  { unfold wal_request_fill. rewrite Ht. reflexivity. }
  assert (Hlen : (Z.of_nat (length req) =? n_rows t) = true).
  { apply Z.eqb_eq. subst req. rewrite stamp_rows_length. symmetry. exact Hc. }
  assert (Hgt : (n_rows t >? 0) = true) by (apply Z.gtb_lt; lia).
  unfold txn_write_to_wal.
  erewrite bind_ret_eq by (unfold deref_txn; rewrite Ht; reflexivity).
  rewrite Hgt. bind_step.
  erewrite bind_ret_eq by exact Hreq.
  rewrite Hlen. do 2 bind_step.
  rewrite <- Htr.
  apply bind_trace_prefix.
  - unfold wal_submit. rewrite Hwal. reflexivity.
  - intros res. pose proof (emits_no_wal_txn_rollback env).
    emits_auto reflexivity.
Qed.

(** C3: a commit of a transaction whose [n_rows] is positive builds one
    request for the log writer.  The request holds exactly [n_rows] rows:
    the rows of the statements that carry one, in the order of the
    statement queue (the order in which the statements were begun and
    committed), each stamped with the next sequence number and the
    current time and otherwise unchanged; statements without a row are
    skipped.  In particular, after statements run one after another in a
    transaction begun with [box_txn_begin], the request of
    [box_txn_commit] holds the rows of the requests of the statements on
    spaces that are not temporary, in the order of the statements. *)
Theorem wal_request_in_statement_order (env : Env)
    (write : list xrow_header -> world -> Z * Z) :
  wal env = Some write ->
  (forall w t e,
     fiber_txn w = Some t ->
     engine t = Some e ->
     (is_two_phase t = true -> in_prepare t = true) ->
     (is_two_phase t = false -> engine_call env e H_prepare w = None) ->
     n_rows t > 0 ->
     rows_consistent (Some t) ->
     let req := stamp_rows (vclock_sum w) (ev_now w) (present_rows (stmts t)) in
     (exists d,
        events_since w (snd (txn_commit env w))
        = (if is_two_phase t then [] else [EvEngine e H_prepare])
          ++ [EvWalWrite req] ++ d /\
        existsb is_wal_write_event d = false) /\
     Z.of_nat (length req) = n_rows t /\
     map (set_row_tm 0) (map (set_row_lsn 0) req)
     = map (set_row_tm 0) (map (set_row_lsn 0) (present_rows (stmts t)))) /\
  (forall cs w a,
     collaborators_return env ->
     fiber_txn w = None ->
     (forall c, In c cs -> handler_engine (call_space c) = a) ->
     durable_calls cs <> [] ->
     let w1 := run_ops env (OpBegin :: calls_ops cs) w in
     let req := stamp_rows (vclock_sum w1) (ev_now w1)
                  (map (fun c => request_row env (call_request c))
                     (durable_calls cs)) in
     exists d,
       events_since w1 (snd (box_txn_commit env w1))
       = [EvEngine a H_prepare; EvWalWrite req] ++ d /\
       existsb is_wal_write_event d = false).
Proof.
  intros Hwal.
  assert (Part1 : forall w t e,
     fiber_txn w = Some t ->
     engine t = Some e ->
     (is_two_phase t = true -> in_prepare t = true) ->
     (is_two_phase t = false -> engine_call env e H_prepare w = None) ->
     n_rows t > 0 ->
     rows_consistent (Some t) ->
     exists d,
        trace (snd (txn_commit env w))
        = trace w ++ ((if is_two_phase t then [] else [EvEngine e H_prepare])
          ++ [EvWalWrite (stamp_rows (vclock_sum w) (ev_now w)
                            (present_rows (stmts t)))]) ++ d /\
        Forall (fun ev => is_wal_write_event ev = false) d).
  { intros w t e Ht He Htp Hprep Hn Hc.
    set (wp := if is_two_phase t then w else log_event (EvEngine e H_prepare) w).
    assert (Hwp : fiber_txn wp = Some t /\ vclock_sum wp = vclock_sum w /\
                  ev_now wp = ev_now w /\
                  trace wp = trace w ++ (if is_two_phase t then []
                                         else [EvEngine e H_prepare])).
    { subst wp. destruct (is_two_phase t); cbn; rewrite ?app_nil_r; auto. }
    destruct Hwp as (Ht' & Hv' & Hnow' & Htr').
    assert (S1 : (if negb (is_two_phase t) then engine_invoke env e H_prepare
                  else ret tt) w = (Ret tt, wp)).
    { subst wp. destruct (is_two_phase t); cbn [negb]; [reflexivity|].
      apply engine_invoke_returns. apply Hprep. reflexivity. }
    destruct (txn_write_to_wal_submits env wp t write Ht' Hn Hc Hwal)
      as [d0 [E0 F0]].
    rewrite Hv', Hnow' in E0.
    unfold txn_commit.
    erewrite bind_ret_eq by (unfold deref_txn; rewrite Ht; reflexivity).
    rewrite He. cbn [non_null]. rewrite orb_true_r. bind_step.
    assert (G : negb (is_two_phase t) || in_prepare t = true).
    { destruct (is_two_phase t); [cbn; apply Htp; reflexivity | reflexivity]. }
    rewrite G. bind_step.
    rewrite (bind_assoc (A:=unit) (B:=unit) (C:=unit)).
    erewrite bind_ret_eq by exact S1.
    assert (Hgt : (n_rows t >? 0) = true) by (apply Z.gtb_lt; lia).
    rewrite Hgt.
    rewrite (bind_assoc (A:=Z) (B:=unit) (C:=unit)).
    match goal with
    | |- context [bind (txn_write_to_wal env) ?k wp] =>
        destruct (bind_trace_prefix (fun ev => is_wal_write_event ev = false)
                    (txn_write_to_wal env) k wp _ E0) as [d2 [E2 F2]]
    end.
    { intros sig. emits_auto reflexivity. }
    rewrite E2. exists (d0 ++ d2). rewrite Htr', <- !app_assoc.
    split; [reflexivity | apply Forall_app; split; assumption]. }
  split.
  - intros w t e Ht He Htp Hprep Hn Hc req.
    destruct (Part1 w t e Ht He Htp Hprep Hn Hc) as [d [E F]].
    split; [| split].
    + exists d. split; [| apply no_wal_write_event; exact F].
      apply events_since_app. rewrite E, <- !app_assoc. reflexivity.
    + subst req. rewrite stamp_rows_length. symmetry. exact Hc.
    + apply stamp_rows_payload.
  - intros cs w a Hret Hw Ha Hne w1 req.
    destruct (run_calls env cs (snd (box_txn_begin w))
                (mk_txn [] false false UINT64_MAX UINT32_MAX 0 false false 0
                   None None [] []) a Hret)
      as (t & E & (Htp & Hac & Hip & Hd & Hen) & N & R).
    { destruct_world w. subst ft. reflexivity. }
    { unfold between_statements. cbn. repeat split; try reflexivity.
      right. split; reflexivity. }
    { exact Ha. }
    change (fiber_txn w1 = Some t) in E. cbn [n_rows stmts present_rows app] in N, R.
    assert (Hpos : n_rows t > 0).
    { rewrite N. destruct (durable_calls cs); [contradiction | cbn; lia]. }
    assert (Hc : rows_consistent (Some t)).
    { unfold rows_consistent. rewrite N, R, length_map. reflexivity. }
    assert (He : engine t = Some a).
    { destruct Hen as [He | [_ Hs]]; [exact He|].
      rewrite Hs in R. cbn in R. destruct (durable_calls cs);
        [contradiction | discriminate R]. }
    destruct (Part1 w1 t a E He) as [d [Ed Fd]]; try assumption.
    { rewrite Htp. discriminate. }
    { intros _. apply Hret. }
    rewrite Htp, R in Ed. fold req in Ed.
    assert (Hbox : exists d', trace (snd (box_txn_commit env w1))
                              = trace (snd (txn_commit env w1)) ++ d' /\
                              Forall (fun ev => is_wal_write_event ev = false) d').
    { unfold box_txn_commit.
      erewrite bind_ret_eq by reflexivity. rewrite E, Hd. cbn [Z.eqb negb].
      rewrite Htp. cbn [andb]. unfold try_catch, bind.
      destruct (txn_commit env w1) as [[u|x|] w2]; cbn [snd].
      - exists []. rewrite app_nil_r. split; [reflexivity | constructor].
      - destruct (emits_no_wal_txn_rollback env w2) as [d' [E' F']].
        exists d'. destruct (txn_rollback env w2) as [[u|y|] w3];
          cbn [snd] in *; split; assumption.
      - exists []. rewrite app_nil_r. split; [reflexivity | constructor]. }
    destruct Hbox as [d' [Ed' Fd']].
    exists (d ++ d'). split.
    + apply events_since_app. rewrite Ed', Ed, <- !app_assoc. reflexivity.
    + apply no_wal_write_event. apply Forall_app. split; assumption.
Qed.

Lemma wal_request_in_statement_order_witness :
  let cs := [call_no_change; call_temporary; call_replace] in
  let w1 := run_ops env_ok (OpBegin :: calls_ops cs) world0 in
  let req := stamp_rows (vclock_sum w1) (ev_now w1)
               (map (fun c => request_row env_ok (call_request c))
                  (durable_calls cs)) in
  exists d,
    events_since w1 (snd (box_txn_commit env_ok w1))
    = [EvEngine 0%nat H_prepare; EvWalWrite req] ++ d /\
    existsb is_wal_write_event d = false.
Proof.
  intros cs.
  apply (proj2 (wal_request_in_statement_order env_ok _ eq_refl) cs world0 0%nat).
  - split; intros; reflexivity.
  - reflexivity.
  - intros c [<- | [<- | [<- | []]]]; reflexivity.
  - cbn. discriminate.
Defined.

(** * Further properties of the manager *)

(** ** Beginning a transaction *)

(** X1: [box_txn_begin] and [box_txn_begin_two_phase] on a fiber that
    already has a transaction return -1 with ER_ACTIVE_TRANSACTION and
    leave the transaction as it is. *)
Theorem box_txn_begin_refused_when_active (w : world) (t : txn) :
  fiber_txn w = Some t ->
  box_txn_begin w
  = (Ret (-1), set_diag (Some (ClientError ER_ACTIVE_TRANSACTION)) w) /\
  (forall id coordinator,
     box_txn_begin_two_phase id coordinator w
     = (Ret (-1), set_diag (Some (ClientError ER_ACTIVE_TRANSACTION)) w)) /\
  fiber_txn (set_diag (Some (ClientError ER_ACTIVE_TRANSACTION)) w) = Some t.
Proof.
  intros Ht. destruct_world w. subst ft.
  split; [reflexivity | split; [intros; reflexivity | reflexivity]].
Qed.

Lemma box_txn_begin_refused_when_active_witness :
  box_txn_begin w_open_stmt
  = (Ret (-1), set_diag (Some (ClientError ER_ACTIVE_TRANSACTION)) w_open_stmt).
Proof.
  exact (proj1 (box_txn_begin_refused_when_active w_open_stmt _ eq_refl)).
Defined.

(** ** Two-phase prepare *)

(** X2: [box_txn_prepare_two_phase] on a transaction that is not a
    two-phase one (and not prepared) returns -1 with ER_ILLEGAL_PARAMS
    and changes nothing else: the engine is not called and the
    transaction is not marked prepared. *)
Theorem prepare_refused_when_not_two_phase (env : Env) (w : world) (t : txn)
    (iproto_prepare replica : Z) :
  fiber_txn w = Some t ->
  in_prepare t = false ->
  is_two_phase t = false ->
  box_txn_prepare_two_phase env iproto_prepare replica w
  = (Ret (-1), set_diag (Some (ClientError ER_ILLEGAL_PARAMS)) w).
Proof.
  intros Ht Hp H2. destruct_world w. subst ft.
  unfold box_txn_prepare_two_phase, txn_prepare_two_phase. run_manager.
  rewrite Hp, H2. reflexivity.
Qed.

Lemma prepare_refused_when_not_two_phase_witness :
  box_txn_prepare_two_phase env_ok 0 0 w_open_stmt
  = (Ret (-1), set_diag (Some (ClientError ER_ILLEGAL_PARAMS)) w_open_stmt).
Proof.
  exact (prepare_refused_when_not_two_phase env_ok w_open_stmt _ 0 0
           eq_refl eq_refl eq_refl).
Defined.

(** X3: [box_txn_prepare_two_phase] on a two-phase transaction that is
    not prepared marks it prepared before it calls the engine.  The
    engine method prepare_two_phase is called exactly when an engine is
    bound; the call returns 0 when there is no engine or the method
    returns, and -1 with the error of the engine when it throws.  In both
    cases the transaction stays bound to the fiber and is marked
    prepared. *)
Theorem prepare_marks_before_engine (env : Env) (w : world) (t : txn)
    (iproto_prepare replica : Z) :
  fiber_txn w = Some t ->
  in_prepare t = false ->
  is_two_phase t = true ->
  let w1 := set_fiber_txn (Some (set_in_prepare true t)) w in
  box_txn_prepare_two_phase env iproto_prepare replica w
  = match engine t with
    | None => (Ret 0, w1)
    | Some e =>
        match engine_call env e H_prepare_two_phase w1 with
        | None => (Ret 0, log_event (EvEngine e H_prepare_two_phase) w1)
        | Some x =>
            (Ret (-1),
             set_diag (Some x) (log_event (EvEngine e H_prepare_two_phase) w1))
        end
    end.
Proof.
  intros Ht Hp H2 w1. subst w1. destruct_world w. subst ft.
  destruct t as [ss tp ip ti ci nr ac ht d eng etx oc orb].
  cbn in Hp, H2. subst ip tp.
  unfold box_txn_prepare_two_phase, txn_prepare_two_phase, engine_invoke.
  exec. rewrite !Z.eqb_refl. cbn.
  destruct eng as [e|]; [| reflexivity].
  destruct (engine_call env e H_prepare_two_phase _); reflexivity.
Qed.

Lemma prepare_marks_before_engine_witness :
  fst (box_txn_prepare_two_phase env_ok 0 0 w_two_phase) = Ret 0 /\
  option_map in_prepare
    (fiber_txn (snd (box_txn_prepare_two_phase env_ok 0 0 w_two_phase)))
  = Some true.
Proof.
  rewrite (prepare_marks_before_engine env_ok w_two_phase _ 0 0
             eq_refl eq_refl eq_refl).
  split; reflexivity.
Defined.

(** X4: a prepared transaction accepts no statement: [txn_begin_stmt]
    fails with ER_CHANGE_PREPARED and changes nothing but the
    diagnostics area, whatever the engine of the space. *)
Theorem prepared_txn_refuses_statements (env : Env) (sp : space) (w : world)
    (t : txn) :
  fiber_txn w = Some t ->
  in_prepare t = true ->
  is_two_phase t = true ->
  in_sub_stmt t <= TXN_SUB_STMT_MAX ->
  txn_begin_stmt env sp w
  = (Throw (ClientError ER_CHANGE_PREPARED),
     set_diag (Some (ClientError ER_CHANGE_PREPARED)) w).
Proof.
  intros Ht Hp H2 Hd. destruct_world w. subst ft.
  unfold txn_begin_stmt. run_manager.
  destruct (in_sub_stmt t >? TXN_SUB_STMT_MAX) eqn:E.
  { apply Z.gtb_lt in E. lia. }
  rewrite Hp, H2. reflexivity.
Qed.

Lemma prepared_txn_refuses_statements_witness :
  txn_begin_stmt env_ok space_a w_prepared
  = (Throw (ClientError ER_CHANGE_PREPARED),
     set_diag (Some (ClientError ER_CHANGE_PREPARED)) w_prepared).
Proof.
  apply (prepared_txn_refuses_statements env_ok space_a w_prepared _ eq_refl);
    [reflexivity | reflexivity | cbn; unfold TXN_SUB_STMT_MAX; lia].
Defined.

(** ** Rollback *)

(** X5: rolling back is safe without a transaction: on a fiber with no
    transaction [txn_rollback], [txn_rollback_stmt] and
    [box_txn_rollback] return normally ([box_txn_rollback] returns 0),
    call nobody and change nothing. *)
Theorem rollback_without_txn_is_noop (env : Env) (w : world) :
  fiber_txn w = None ->
  txn_rollback env w = (Ret tt, w) /\
  txn_rollback_stmt env w = (Ret tt, w) /\
  box_txn_rollback env w = (Ret 0, w).
Proof.
  intros H. destruct_world w. subst ft. repeat split.
Qed.

Lemma rollback_without_txn_is_noop_witness :
  box_txn_rollback env_ok world0 = (Ret 0, world0).
Proof.
  exact (proj2 (proj2 (rollback_without_txn_is_noop env_ok world0 eq_refl))).
Defined.

(** X6: [box_txn_rollback] outside any sub-statement, when the triggers
    and the engine keep their contract not to throw: the on_rollback
    triggers run first (only when [has_triggers] is set), then the
    rollback method of the engine (only when an engine is bound), then
    the region is destroyed and the transaction freed; the call returns
    0 and the fiber has no transaction.  Rolling back once more is then
    a no-op. *)
Theorem box_txn_rollback_unbinds (env : Env) (w : world) (t : txn) :
  fiber_txn w = Some t ->
  in_sub_stmt t = 0 ->
  rollback_does_not_throw env t ->
  let w' := set_fiber_txn None (add_trace (rollback_events t) w) in
  box_txn_rollback env w = (Ret 0, w') /\
  box_txn_rollback env w' = (Ret 0, w').
Proof.
  intros Ht Hd Hrb w'. split.
  - unfold box_txn_rollback.
    erewrite bind_ret_eq by reflexivity. rewrite Ht, Hd. cbn [Z.eqb negb].
    erewrite bind_ret_eq by (apply (txn_rollback_returns env w t); assumption).
    reflexivity.
  - subst w'. destruct_world w. reflexivity.
Qed.

Lemma box_txn_rollback_unbinds_witness :
  fst (box_txn_rollback env_ok w_two_stmts) = Ret 0 /\
  events_since w_two_stmts (snd (box_txn_rollback env_ok w_two_stmts))
  = [EvTrigger L_on_rollback 12%nat; EvTrigger L_on_rollback 13%nat;
     EvEngine 0%nat H_rollback; EvRegionDestroy; EvMempoolFree; EvFiberGc].
Proof.
  destruct (box_txn_rollback_unbinds env_ok w_two_stmts _ eq_refl eq_refl) as [H _].
  - split; intros; reflexivity.
  - rewrite H. split; reflexivity.
Defined.

(** X7: the two cases in which [txn_rollback_stmt] does not undo a
    statement.  In autocommit mode it rolls the whole transaction back,
    as [txn_rollback] does.  Outside autocommit mode, when no
    sub-statement is open it does nothing: no engine call, no row
    voided, the depth stays 0. *)
Theorem rollback_stmt_outside_statement (env : Env) (w : world) (t : txn) :
  fiber_txn w = Some t ->
  (is_autocommit t = true -> txn_rollback_stmt env w = txn_rollback env w) /\
  (is_autocommit t = false -> in_sub_stmt t = 0 ->
   txn_rollback_stmt env w = (Ret tt, w)).
Proof.
  intros Ht. destruct_world w. subst ft. split.
  - intros Ha. unfold txn_rollback_stmt.
    erewrite bind_ret_eq by reflexivity. cbn. rewrite Ha. reflexivity.
  - intros Ha Hd. unfold txn_rollback_stmt.
    erewrite bind_ret_eq by reflexivity. cbn. rewrite Ha, Hd. reflexivity.
Qed.

Lemma rollback_stmt_outside_statement_witness :
  txn_rollback_stmt env_ok w_autocommit_stmt = txn_rollback env_ok w_autocommit_stmt /\
  txn_rollback_stmt env_ok w_two_stmts = (Ret tt, w_two_stmts).
Proof.
  split.
  - apply (proj1 (rollback_stmt_outside_statement env_ok w_autocommit_stmt _ eq_refl)).
    reflexivity.
  - apply (proj2 (rollback_stmt_outside_statement env_ok w_two_stmts _ eq_refl));
      reflexivity.
Defined.

(** ** Successful commit *)

(** [txn_write_to_wal] when the write succeeds: the result of the write
    is returned and the transaction stays. *)
Lemma txn_write_to_wal_returns (env : Env) (w : world) (t : txn) :
  fiber_txn w = Some t ->
  n_rows t > 0 ->
  rows_consistent (Some t) ->
  let req := stamp_rows (vclock_sum w) (ev_now w) (present_rows (stmts t)) in
  let wf := snd (wal_request_fill w) in
  wal_result env req wf >= 0 ->
  txn_write_to_wal env w
  = (Ret (wal_result env req wf),
     add_trace (wal_events env req (ev_now w) (wal_stop env req wf))
       (set_ev_now (wal_stop env req wf) wf)).
Proof.
  intros Ht Hn Hc req wf Hres.
  destruct (wal_fill_spec (stmts t) (vclock_sum w) (ev_now w) [])
    as (E1 & _ & _ & _). cbn [app] in E1.
  assert (Hreq : wal_request_fill w = (Ret req, wf)).
  { subst wf req. unfold wal_request_fill. rewrite Ht. cbn [snd].
    rewrite E1. reflexivity. }
  assert (Hnow : ev_now wf = ev_now w).
  { subst wf. unfold wal_request_fill. rewrite Ht. reflexivity. }
  assert (Hlen : (Z.of_nat (length req) =? n_rows t) = true).
  { apply Z.eqb_eq. subst req. rewrite stamp_rows_length. symmetry. exact Hc. }
  assert (Hgt : (n_rows t >? 0) = true) by (apply Z.gtb_lt; lia).
  assert (Hlt : (wal_result env req wf <? 0) = false) by (apply Z.ltb_ge; lia).
  unfold txn_write_to_wal.
  erewrite bind_ret_eq by (unfold deref_txn; rewrite Ht; reflexivity).
  rewrite Hgt. bind_step.
  erewrite bind_ret_eq by exact Hreq.
  rewrite Hlen. do 2 bind_step. rewrite Hnow.
  unfold wal_result, wal_stop, wal_events, wal_submit in *.
  destruct (wal env) as [write|].
  - do 2 bind_step. cbn [ev_now set_ev_now].
    rewrite Hlt.
    destruct (snd (write req wf) - ev_now w >? too_long_threshold env);
      bind_step; unfold ret, add_trace, log_event, set_ev_now; cbn;
      rewrite <- ?app_assoc, ?app_nil_r; reflexivity.
  - do 2 bind_step. rewrite Hlt, Hnow.
    destruct (ev_now w - ev_now w >? too_long_threshold env);
      bind_step; unfold ret, add_trace, log_event, set_ev_now; cbn;
      rewrite ?app_nil_r; destruct wf; cbn in *; subst; reflexivity.
Qed.

(** [txn_commit] once the log step has returned the signature: the
    on_commit triggers run, the engine commits with the signature, and
    the transaction is destroyed. *)
Lemma txn_commit_returns (env : Env) (w : world) (t : txn) (e : engine_id)
    (signature : Z) (w2 : world) :
  fiber_txn w = Some t ->
  engine t = Some e ->
  (is_two_phase t = true -> in_prepare t = true) ->
  (is_two_phase t = false -> engine_call env e H_prepare w = None) ->
  commit_does_not_throw env t e ->
  (if n_rows t >? 0 then txn_write_to_wal env else ret (-1)) (prepared_world t e w)
  = (Ret signature, w2) ->
  txn_commit env w
  = (Ret tt, set_fiber_txn None (add_trace (commit_tail_events t e signature) w2)).
Proof.
  intros Ht He Htp Hprep [Htrg Heng] Hsig.
  assert (S1 : (if negb (is_two_phase t) then engine_invoke env e H_prepare
                else ret tt) w = (Ret tt, prepared_world t e w)).
  { unfold prepared_world. destruct (is_two_phase t); cbn [negb]; [reflexivity|].
    apply engine_invoke_returns. apply Hprep. reflexivity. }
  unfold txn_commit.
  erewrite bind_ret_eq by (unfold deref_txn; rewrite Ht; reflexivity).
  rewrite He. cbn [non_null]. rewrite orb_true_r. bind_step.
  assert (G : negb (is_two_phase t) || in_prepare t = true).
  { destruct (is_two_phase t); [cbn; apply Htp; reflexivity | reflexivity]. }
  rewrite G. bind_step.
  rewrite (bind_assoc (A:=unit) (B:=unit) (C:=unit)).
  erewrite bind_ret_eq by exact S1.
  rewrite (bind_assoc (A:=Z) (B:=unit) (C:=unit)).
  erewrite bind_ret_eq by exact Hsig.
  rewrite (bind_assoc (A:=unit) (B:=unit) (C:=unit)).
  assert (S2 : (if has_triggers t
                then trigger_run env L_on_commit (on_commit t)
                else ret tt) w2
               = (Ret tt,
                  add_trace (if has_triggers t
                             then map (EvTrigger L_on_commit) (on_commit t)
                             else []) w2)).
  { destruct (has_triggers t).
    - apply trigger_run_all. intros. apply Htrg. assumption.
    - rewrite add_trace_nil. reflexivity. }
  erewrite bind_ret_eq by exact S2.
  erewrite bind_ret_eq by (apply engine_invoke_returns; apply Heng).
  do 3 bind_step.
  unfold fiber_set_txn, set_fiber_txn, log_event, add_trace, commit_tail_events.
  cbn. rewrite <- !app_assoc. reflexivity.
Qed.

Lemma box_txn_commit_of_txn_commit (env : Env) (w w' : world) (t : txn) :
  fiber_txn w = Some t ->
  in_sub_stmt t = 0 ->
  (is_two_phase t = true -> in_prepare t = true) ->
  txn_commit env w = (Ret tt, w') ->
  box_txn_commit env w = (Ret 0, w').
Proof.
  intros Ht Hd Htp Hc. unfold box_txn_commit.
  erewrite bind_ret_eq by reflexivity. rewrite Ht, Hd. cbn [Z.eqb negb].
  assert (G : is_two_phase t && negb (in_prepare t) = false).
  { destruct (is_two_phase t); [rewrite Htp; reflexivity | reflexivity]. }
  rewrite G. unfold try_catch.
  erewrite bind_ret_eq by exact Hc. reflexivity.
Qed.

(** X8: a commit that goes through.  [box_txn_commit] on a transaction
    with rows, when the log write does not fail and the collaborators
    return: the engine prepares the transaction (unless it is a two-phase
    one, prepared before), the request is written, the on_commit triggers
    run, and the commit method of the engine is called with the result
    of the write as signature; then the region is destroyed and the
    fiber has no transaction.  The call returns 0 and leaves the
    diagnostics area alone. *)
Theorem commit_passes_signature_to_engine (env : Env) (w : world) (t : txn)
    (e : engine_id) :
  fiber_txn w = Some t ->
  in_sub_stmt t = 0 ->
  engine t = Some e ->
  (is_two_phase t = true -> in_prepare t = true) ->
  (is_two_phase t = false -> engine_call env e H_prepare w = None) ->
  n_rows t > 0 ->
  rows_consistent (Some t) ->
  commit_does_not_throw env t e ->
  let req := stamp_rows (vclock_sum w) (ev_now w) (present_rows (stmts t)) in
  let wf := snd (wal_request_fill (prepared_world t e w)) in
  let signature := wal_result env req wf in
  signature >= 0 ->
  let w' := snd (box_txn_commit env w) in
  fst (box_txn_commit env w) = Ret 0 /\
  fiber_txn w' = None /\
  diag w' = diag w /\
  events_since w w'
  = (if is_two_phase t then [] else [EvEngine e H_prepare])
    ++ wal_events env req (ev_now w) (wal_stop env req wf)
    ++ commit_tail_events t e signature.
Proof.
  intros Ht Hd He Htp Hprep Hn Hc Hok req wf signature Hsig w'.
  assert (Hwp : fiber_txn (prepared_world t e w) = Some t /\
                vclock_sum (prepared_world t e w) = vclock_sum w /\
                ev_now (prepared_world t e w) = ev_now w /\
                diag (prepared_world t e w) = diag w /\
                trace (prepared_world t e w)
                = trace w ++ (if is_two_phase t then [] else [EvEngine e H_prepare])).
  { unfold prepared_world. destruct (is_two_phase t); cbn;
      rewrite ?app_nil_r; auto. }
  destruct Hwp as (Ht' & Hv' & Hnow' & Hdg' & Htr').
  pose proof (txn_write_to_wal_returns env (prepared_world t e w) t Ht' Hn Hc)
    as Hw.
  cbn zeta in Hw. rewrite Hv', Hnow' in Hw.
  fold req wf signature in Hw. specialize (Hw Hsig).
  assert (Hgt : (n_rows t >? 0) = true) by (apply Z.gtb_lt; lia).
  match type of Hw with
  | _ = (_, ?W2) =>
      assert (Hcm : txn_commit env w
                    = (Ret tt, set_fiber_txn None
                                 (add_trace (commit_tail_events t e signature) W2)))
        by (apply txn_commit_returns; try assumption; rewrite Hgt; exact Hw)
  end.
  pose proof (box_txn_commit_of_txn_commit env w _ t Ht Hd Htp Hcm) as Hbox.
  subst w'. rewrite Hbox. cbn [fst snd].
  assert (Hwf : diag wf = diag w /\ trace wf = trace (prepared_world t e w)).
  { subst wf. unfold wal_request_fill. rewrite Ht'. cbn. auto. }
  destruct Hwf as [Hdf Htf].
  split; [reflexivity|]. split; [reflexivity|]. split.
  - cbn. exact Hdf.
  - apply events_since_app. cbn. rewrite Htf, Htr', <- !app_assoc. reflexivity.
Qed.

Lemma commit_passes_signature_to_engine_witness :
  fst (box_txn_commit env_ok w_two_stmts) = Ret 0 /\
  fiber_txn (snd (box_txn_commit env_ok w_two_stmts)) = None /\
  events_since w_two_stmts (snd (box_txn_commit env_ok w_two_stmts))
  = [EvEngine 0%nat H_prepare;
     EvWalWrite [mk_xrow 3 0 8 0 100 0 0 [4]];
     EvTrigger L_on_commit 11%nat;
     EvEngine 0%nat (H_commit 8);
     EvRegionDestroy; EvMempoolFree; EvFiberGc].
Proof.
  destruct (commit_passes_signature_to_engine env_ok w_two_stmts _ 0%nat
              eq_refl eq_refl eq_refl) as (H1 & H2 & _ & H4).
  - discriminate.
  - reflexivity.
  - cbn. lia.
  - reflexivity.
  - split; intros; reflexivity.
  - cbn. lia.
  - split; [exact H1 | split; [exact H2 | exact H4]].
Defined.

(** X9: without a log writer attached ([wal == NULL]: wal_mode NONE or
    initial recovery) nothing is written, and the signature given to the
    engine is the recovery position read after the loop that stamps the
    rows, which is also the position the commit leaves.  When that
    position is not negative such a commit cannot fail with ER_WAL_IO:
    it returns and the fiber has no transaction. *)
Theorem commit_without_wal_writer (env : Env) (w : world) (t : txn)
    (e : engine_id) :
  wal env = None ->
  fiber_txn w = Some t ->
  engine t = Some e ->
  (is_two_phase t = true -> in_prepare t = true) ->
  (is_two_phase t = false -> engine_call env e H_prepare w = None) ->
  n_rows t > 0 ->
  rows_consistent (Some t) ->
  commit_does_not_throw env t e ->
  let wf := snd (wal_request_fill (prepared_world t e w)) in
  vclock_sum wf >= 0 ->
  let w' := snd (txn_commit env w) in
  fst (txn_commit env w) = Ret tt /\
  fiber_txn w' = None /\
  vclock_sum w' = vclock_sum wf /\
  existsb is_wal_write_event (events_since w w') = false /\
  In (EvEngine e (H_commit (vclock_sum wf))) (events_since w w').
Proof.
  intros Hwal Ht He Htp Hprep Hn Hc Hok wf Hv w'.
  assert (Hwp : fiber_txn (prepared_world t e w) = Some t /\
                trace (prepared_world t e w)
                = trace w ++ (if is_two_phase t then [] else [EvEngine e H_prepare])).
  { unfold prepared_world. destruct (is_two_phase t); cbn;
      rewrite ?app_nil_r; auto. }
  destruct Hwp as (Ht' & Htr').
  pose proof (txn_write_to_wal_returns env (prepared_world t e w) t Ht' Hn Hc)
    as Hw.
  cbn zeta in Hw. unfold wal_result, wal_stop, wal_events in Hw.
  rewrite Hwal in Hw. fold wf in Hw. specialize (Hw Hv).
  assert (Hgt : (n_rows t >? 0) = true) by (apply Z.gtb_lt; lia).
  match type of Hw with
  | _ = (Ret ?S, ?W2) =>
      assert (Hcm : txn_commit env w
                    = (Ret tt, set_fiber_txn None
                                 (add_trace (commit_tail_events t e S) W2)))
        by (apply txn_commit_returns; try assumption; rewrite Hgt; exact Hw)
  end.
  subst w'. rewrite Hcm. cbn [fst snd].
  assert (Hwf : trace wf = trace (prepared_world t e w)).
  { subst wf. unfold wal_request_fill. rewrite Ht'. reflexivity. }
  split; [reflexivity|]. split; [reflexivity|]. split; [reflexivity|].
  erewrite events_since_app
    by (cbn; rewrite Hwf, Htr', <- !app_assoc; reflexivity).
  split.
  - rewrite !existsb_app. unfold commit_tail_events.
    rewrite existsb_app.
    destruct (is_two_phase t), (_ >? too_long_threshold env), (has_triggers t);
      cbn; rewrite ?orb_false_r;
      try reflexivity;
      (induction (on_commit t) as [|x l IH]; [reflexivity | exact IH]).
  - rewrite !in_app_iff. right. right. unfold commit_tail_events.
    rewrite in_app_iff. right. left. reflexivity.
Qed.

Lemma commit_without_wal_writer_witness :
  fst (txn_commit env_no_wal w_two_stmts) = Ret tt /\
  fiber_txn (snd (txn_commit env_no_wal w_two_stmts)) = None /\
  vclock_sum (snd (txn_commit env_no_wal w_two_stmts)) = 8 /\
  existsb is_wal_write_event
    (events_since w_two_stmts (snd (txn_commit env_no_wal w_two_stmts))) = false /\
  In (EvEngine 0%nat (H_commit 8))
    (events_since w_two_stmts (snd (txn_commit env_no_wal w_two_stmts))).
Proof.
  apply (commit_without_wal_writer env_no_wal w_two_stmts _ 0%nat
           eq_refl eq_refl eq_refl).
  - discriminate.
  - reflexivity.
  - cbn. lia.
  - reflexivity.
  - split; intros; reflexivity.
  - cbn. lia.
Defined.

(** X10: a transaction without rows (its statements were all on
    temporary spaces, or their rows were voided) is committed without the
    log: nothing is submitted to the writer and no sequence number is
    consumed; the engine still prepares and commits, with the signature
    -1. *)
Theorem commit_without_rows_skips_wal (env : Env) (w : world) (t : txn)
    (e : engine_id) :
  fiber_txn w = Some t ->
  in_sub_stmt t = 0 ->
  engine t = Some e ->
  (is_two_phase t = true -> in_prepare t = true) ->
  (is_two_phase t = false -> engine_call env e H_prepare w = None) ->
  n_rows t <= 0 ->
  commit_does_not_throw env t e ->
  let w' := snd (box_txn_commit env w) in
  fst (box_txn_commit env w) = Ret 0 /\
  fiber_txn w' = None /\
  vclock_sum w' = vclock_sum w /\
  events_since w w'
  = (if is_two_phase t then [] else [EvEngine e H_prepare])
    ++ commit_tail_events t e (-1).
Proof.
  intros Ht Hd He Htp Hprep Hn Hok w'.
  assert (Hgt : (n_rows t >? 0) = false).
  { rewrite Z.gtb_ltb. apply Z.ltb_ge. exact Hn. }
  assert (Hcm : txn_commit env w
                = (Ret tt, set_fiber_txn None
                             (add_trace (commit_tail_events t e (-1))
                                (prepared_world t e w)))).
  { apply txn_commit_returns; try assumption. rewrite Hgt. reflexivity. }
  pose proof (box_txn_commit_of_txn_commit env w _ t Ht Hd Htp Hcm) as Hbox.
  subst w'. rewrite Hbox. cbn [fst snd].
  split; [reflexivity|]. split; [reflexivity|].
  unfold prepared_world. split.
  - destruct (is_two_phase t); reflexivity.
  - apply events_since_app.
    destruct (is_two_phase t); cbn; rewrite <- ?app_assoc; reflexivity.
Qed.

Lemma commit_without_rows_skips_wal_witness :
  fst (box_txn_commit env_ok w_temporary_only) = Ret 0 /\
  events_since w_temporary_only (snd (box_txn_commit env_ok w_temporary_only))
  = [EvEngine 0%nat H_prepare; EvEngine 0%nat (H_commit (-1));
     EvRegionDestroy; EvMempoolFree; EvFiberGc].
Proof.
  destruct (commit_without_rows_skips_wal env_ok w_temporary_only _ 0%nat
              eq_refl eq_refl eq_refl) as (H1 & _ & _ & H4).
  - discriminate.
  - reflexivity.
  - cbn. lia.
  - split; intros; reflexivity.
  - split; [exact H1 | exact H4].
Defined.

(** X11: a transaction without statements has no engine, and its commit
    calls nobody: [box_txn_commit] destroys the region, leaves the fiber
    without a transaction and returns 0.  This holds for a two-phase
    transaction too, once it is prepared. *)
Theorem commit_of_unbound_txn (env : Env) (w : world) (t : txn) :
  fiber_txn w = Some t ->
  in_sub_stmt t = 0 ->
  engine t = None ->
  stmts t = [] ->
  (is_two_phase t = true -> in_prepare t = true) ->
  box_txn_commit env w
  = (Ret 0,
     set_fiber_txn None
       (add_trace [EvRegionDestroy; EvMempoolFree; EvFiberGc] w)).
Proof.
  intros Ht Hd He Hs Htp.
  apply (box_txn_commit_of_txn_commit env w _ t Ht Hd Htp).
  unfold txn_commit.
  erewrite bind_ret_eq by (unfold deref_txn; rewrite Ht; reflexivity).
  rewrite He, Hs. cbn [non_null rlist_empty orb]. bind_step.
  assert (G : negb (is_two_phase t) || in_prepare t = true).
  { destruct (is_two_phase t); [cbn; apply Htp; reflexivity | reflexivity]. }
  rewrite G. do 5 bind_step.
  unfold fiber_set_txn, set_fiber_txn, log_event, add_trace. cbn.
  rewrite <- !app_assoc. reflexivity.
Qed.

Lemma commit_of_unbound_txn_witness :
  box_txn_commit env_ok w_begun
  = (Ret 0,
     set_fiber_txn None
       (add_trace [EvRegionDestroy; EvMempoolFree; EvFiberGc] w_begun)).
Proof.
  apply (commit_of_unbound_txn env_ok w_begun _ eq_refl);
    try reflexivity. discriminate.
Defined.

(** X12: when the prepare method of the engine throws (a conflict),
    [box_txn_commit] rolls the transaction back and returns -1 with the
    error of the engine in the diagnostics area.  Nothing is submitted to
    the log writer, no sequence number is consumed, and neither the
    on_commit triggers nor the commit method of the engine are called. *)
Theorem commit_conflict_rolls_back (env : Env) (w : world) (t : txn)
    (e : engine_id) (x : exception) :
  fiber_txn w = Some t ->
  in_sub_stmt t = 0 ->
  engine t = Some e ->
  is_two_phase t = false ->
  engine_call env e H_prepare w = Some x ->
  rollback_does_not_throw env t ->
  box_txn_commit env w
  = (Ret (-1),
     mk_world None (Some x) (vclock_sum w) (ev_now w)
       (trace w ++ EvEngine e H_prepare :: rollback_events t)).
Proof.
  intros Ht Hd He Htp Hcall Hrb.
  set (w1 := set_diag (Some x) (log_event (EvEngine e H_prepare) w)).
  assert (Hcm : txn_commit env w = (Throw x, w1)).
  { unfold txn_commit.
    erewrite bind_ret_eq by (unfold deref_txn; rewrite Ht; reflexivity).
    rewrite He. cbn [non_null]. rewrite orb_true_r. bind_step.
    rewrite Htp. cbn [negb orb]. bind_step.
    rewrite (bind_assoc (A:=unit) (B:=unit) (C:=unit)).
    erewrite bind_throw_eq; [reflexivity|].
    unfold engine_invoke. rewrite Hcall. reflexivity. }
  unfold box_txn_commit.
  erewrite bind_ret_eq by reflexivity. rewrite Ht, Hd, Htp.
  cbn [Z.eqb negb andb]. unfold try_catch.
  erewrite bind_throw_eq by exact Hcm.
  erewrite bind_ret_eq
    by (apply (txn_rollback_returns env w1 t); [exact Ht | exact Hrb]).
  subst w1. unfold ret, set_fiber_txn, add_trace, set_diag, log_event. cbn.
  rewrite <- app_assoc. reflexivity.
Qed.

Lemma commit_conflict_rolls_back_witness :
  box_txn_commit env_conflict w_two_stmts
  = (Ret (-1),
     mk_world None (Some (ClientError (ER_OTHER 7%nat))) 7 100
       [EvEngine 0%nat H_prepare;
        EvTrigger L_on_rollback 12%nat; EvTrigger L_on_rollback 13%nat;
        EvEngine 0%nat H_rollback; EvRegionDestroy; EvMempoolFree; EvFiberGc]).
Proof.
  apply (commit_conflict_rolls_back env_conflict w_two_stmts _ 0%nat _
           eq_refl eq_refl eq_refl eq_refl eq_refl).
  split; intros; reflexivity.
Defined.

(** ** A statement in autocommit mode *)

(** What [txn_begin_stmt] does on a fiber without a transaction, when
    the engine returns: it begins a transaction in autocommit mode, binds
    it to the engine of the space and opens the statement. *)
Lemma txn_begin_stmt_implicit (env : Env) (sp : space) (w : world) :
  collaborators_return env ->
  fiber_txn w = None ->
  txn_begin_stmt env sp w
  = (Ret tt,
     add_trace [EvEngine (handler_engine sp) H_begin;
                EvEngine (handler_engine sp) H_beginStatement]
       (set_fiber_txn
          (Some (mk_txn [mk_stmt (Some sp) None None None None] false false
                   UINT64_MAX UINT32_MAX 0 true false 1
                   (Some (handler_engine sp)) None [] []))
          w)).
Proof.
  intros [Heng _] Hw. destruct_world w. subst ft.
  unfold txn_begin_stmt, txn_begin, txn_begin_in_engine, txn_stmt_new,
    engine_invoke.
  exec. rewrite !Heng. cbn. rewrite !Heng. cbn.
  unfold add_trace. cbn. rewrite <- app_assoc. reflexivity.
Qed.

(** X13: a statement on a fiber without a transaction is a transaction
    of its own.  With an engine and triggers that return (and issue no
    statement of their own) and a log write that does not fail,
    beginning, executing and committing one statement on a space that is
    not temporary leaves the fiber without a transaction, and the calls
    made are, in this order: the engine begins the transaction and the
    statement, the on_replace triggers run if they fire, the engine
    prepares, the one-row request is written, and the engine commits
    with the result of that write as signature; then the region is
    destroyed. *)
Theorem autocommit_statement_commits (env : Env) (sp : space)
    (old new : option tuple) (rq : request) (w : world) :
  collaborators_return env ->
  fiber_txn w = None ->
  space_is_temporary sp = false ->
  let e := handler_engine sp in
  let s := mk_stmt (Some sp) old new None None in
  let req := stamp_rows (vclock_sum w) (ev_now w) [request_row env rq] in
  let wf := autocommit_write_world env sp old new rq w in
  let signature := wal_result env req wf in
  signature >= 0 ->
  let w3 := run_ops env [OpBeginStmt sp; OpExecute old new; OpCommitStmt rq] w in
  fiber_txn w3 = None /\
  events_since w w3
  = [EvEngine e H_begin; EvEngine e H_beginStatement]
    ++ (if triggers_fire s sp
        then map (EvTrigger (L_on_replace (space_id sp))) (on_replace sp)
        else [])
    ++ [EvEngine e H_prepare]
    ++ wal_events env req (ev_now w) (wal_stop env req wf)
    ++ [EvEngine e (H_commit signature);
        EvRegionDestroy; EvMempoolFree; EvFiberGc].
Proof.
  intros Hret Hw Htmp e s req wf signature Hres w3.
  pose proof Hret as [Heng Htrg].
  set (t2 := mk_txn [s] false false UINT64_MAX UINT32_MAX 0 true false 1
               (Some e) None [] []).
  set (trg := if triggers_fire s sp
              then map (EvTrigger (L_on_replace (space_id sp))) (on_replace sp)
              else []).
  set (t4 := autocommit_txn env sp old new rq).
  set (w4 := set_fiber_txn (Some t4)
               (add_trace ([EvEngine e H_begin; EvEngine e H_beginStatement]
                           ++ trg) w)).
  assert (E3 : w3 = snd (txn_commit env w4)).
  { subst w3. unfold run_ops. cbn [fold_left run_op].
    rewrite (txn_begin_stmt_implicit env sp w Hret Hw). cbn [snd fiber_txn add_trace
      set_fiber_txn].
    match goal with
    | |- snd (txn_commit_stmt env rq ?W2) = _ => set (w2 := W2)
    end.
    rewrite (txn_commit_stmt_steps env rq w2 t2 s sp)
      by (try reflexivity; cbn; lia).
    set (w3' := set_fiber_txn (Some (commit_stmt_redo env rq sp t2)) w2).
    assert (S1 : (if triggers_fire s sp
                  then trigger_run env (L_on_replace (space_id sp)) (on_replace sp)
                  else ret tt) w3' = (Ret tt, add_trace trg w3')).
    { subst trg. destruct (triggers_fire s sp).
      - apply trigger_run_all. intros. apply Htrg.
      - rewrite add_trace_nil. reflexivity. }
    erewrite bind_ret_eq by exact S1.
    unfold commit_stmt_end. do 2 bind_step.
    set (t3 := set_in_sub_stmt _ _).
    assert (F3 : t3 = t4).
    { subst t3 t2 t4. unfold commit_stmt_redo, autocommit_txn. rewrite Htmp. cbn.
      rewrite txn_add_redo_row. reflexivity. }
    rewrite F3. cbn [is_autocommit in_sub_stmt Z.eqb andb t4 autocommit_txn].
    f_equal. f_equal. subst w4 w3' w2. destruct_world w.
    unfold set_fiber_txn, add_trace. cbn. rewrite <- app_assoc. reflexivity. }
  assert (V4 : vclock_sum w4 = vclock_sum w /\ ev_now w4 = ev_now w /\
               trace w4 = trace w ++ [EvEngine e H_begin; EvEngine e H_beginStatement]
                          ++ trg).
  { subst w4. cbn. auto. }
  destruct V4 as (V4 & N4 & T4).
  pose proof (txn_write_to_wal_returns env (prepared_world t4 e w4) t4
                eq_refl ltac:(cbn; lia) eq_refl) as Hw4.
  cbn zeta in Hw4.
  change (present_rows (stmts t4)) with [request_row env rq] in Hw4.
  change (vclock_sum (prepared_world t4 e w4)) with (vclock_sum w) in Hw4.
  change (ev_now (prepared_world t4 e w4)) with (ev_now w) in Hw4.
  change (snd (wal_request_fill (prepared_world t4 e w4))) with wf in Hw4.
  fold req in Hw4. fold signature in Hw4. specialize (Hw4 Hres).
  assert (Hcm : txn_commit env w4
                = (Ret tt,
                   set_fiber_txn None
                     (add_trace (commit_tail_events t4 e signature)
                        (add_trace
                           (wal_events env req (ev_now w) (wal_stop env req wf))
                           (set_ev_now (wal_stop env req wf) wf))))).
  { apply txn_commit_returns;
      [ reflexivity | reflexivity | discriminate | intros _; apply Heng
      | split; intros; [apply Htrg | apply Heng] | exact Hw4 ]. }
  rewrite E3, Hcm. cbn [snd]. split; [reflexivity|].
  assert (P4t : trace wf = trace w4 ++ [EvEngine e H_prepare]) by reflexivity.
  apply events_since_app.
  unfold set_fiber_txn, add_trace, set_ev_now. cbn [trace].
  rewrite P4t, T4.
  unfold commit_tail_events. cbn [has_triggers t4 autocommit_txn app].
  rewrite <- !app_assoc. reflexivity.
Qed.

Lemma autocommit_statement_commits_witness :
  let e := handler_engine space_a in
  let s := mk_stmt (Some space_a) None (Some 5%nat) None None in
  let req := stamp_rows (vclock_sum world0) (ev_now world0)
               [request_row env_ack request_lua] in
  let wf := autocommit_write_world env_ack space_a None (Some 5%nat)
              request_lua world0 in
  let signature := wal_result env_ack req wf in
  let w3 := run_ops env_ack
              [OpBeginStmt space_a; OpExecute None (Some 5%nat);
               OpCommitStmt request_lua] world0 in
  signature = 1 /\
  fiber_txn w3 = None /\
  events_since world0 w3
  = [EvEngine e H_begin; EvEngine e H_beginStatement]
    ++ (if triggers_fire s space_a
        then map (EvTrigger (L_on_replace (space_id space_a)))
               (on_replace space_a)
        else [])
    ++ [EvEngine e H_prepare]
    ++ wal_events env_ack req (ev_now world0) (wal_stop env_ack req wf)
    ++ [EvEngine e (H_commit signature);
        EvRegionDestroy; EvMempoolFree; EvFiberGc].
Proof.
  intros e s req wf signature w3.
  split; [reflexivity|].
  apply (autocommit_statement_commits env_ack space_a None (Some 5%nat)
           request_lua world0).
  - split; intros; reflexivity.
  - reflexivity.
  - reflexivity.
  - vm_compute. discriminate.
Defined.

(** ** A statement that fails *)

(** [txn_rollback_stmt] on an open statement of a transaction that is
    not in autocommit mode, as seen in the transaction of the fiber. *)
Lemma txn_rollback_stmt_slot (env : Env) (w : world) (t : txn)
    (init : list txn_stmt) (s : txn_stmt) (e : engine_id) :
  fiber_txn w = Some t ->
  is_autocommit t = false ->
  in_sub_stmt t <> 0 ->
  stmts t = init ++ [s] ->
  engine t = Some e ->
  (row s <> None -> n_rows t >= 1) ->
  engine_call env e (H_rollbackStatement s) w = None ->
  fst (txn_rollback_stmt env w) = Ret tt /\
  fiber_txn (snd (txn_rollback_stmt env w))
  = Some (set_in_sub_stmt (in_sub_stmt t - 1)
            (set_n_rows (n_rows t - row_contribution s)
               (set_stmts (init ++ [set_row None s]) t))).
Proof.
  intros Ht Ha Hd Hs He Hn Hcall.
  destruct_world w. subst ft.
  destruct t as [ss tp ip ti ci nr ac ht d eng etx oc orb].
  cbn in Ha, Hd, Hs, He, Hn. subst ac ss eng.
  unfold txn_rollback_stmt, engine_invoke. exec.
  destruct (d =? 0) eqn:E; [apply Z.eqb_eq in E; contradiction|].
  rewrite stailq_last_entry_app. cbn. rewrite Hcall. cbn.
  unfold row_contribution in *. destruct s as [ssp so sn sv [r|]]; cbn in *.
  - rewrite update_last_app. cbn.
    assert (nr >= 1) by (apply Hn; discriminate).
    destruct (nr - 1 >=? 0) eqn:G; [split; reflexivity|].
    rewrite Z.geb_leb in G. apply Z.leb_gt in G. lia.
  - rewrite Z.sub_0_r. split; reflexivity.
Qed.

Lemma trigger_run_slot (env : Env) (l : trigger_list) (ts : list trigger_id)
    (w : world) :
  fiber_txn (snd (trigger_run env l ts w)) = fiber_txn w.
Proof.
  apply (keeps_trigger_run env (fun o => o = fiber_txn w) l ts w). reflexivity.
Qed.



(** X15: when the beginStatement method of the engine throws,
    [txn_begin_stmt] has already put the statement in the queue and
    raised the depth.  What the [txn_rollback_stmt] that follows does
    depends on the transaction.  In a transaction that is bound to the
    engine of the space and not in autocommit mode it closes the
    statement: the depth and [n_rows] are as before, and the queue keeps
    the dead statement, which has no row.  In autocommit mode, and so
    for a statement begun on a fiber without a transaction, it rolls the
    whole transaction back and the fiber is left without one. *)
Theorem failed_begin_stmt_is_closed_by_rollback_stmt (env : Env) (sp : space)
    (w : world) (x : exception) :
  let e := handler_engine sp in
  let dead := mk_stmt (Some sp) None None None None in
  let w1 := snd (txn_begin_stmt env sp w) in
  (forall t : txn,
     fiber_txn w = Some t ->
     0 <= in_sub_stmt t <= TXN_SUB_STMT_MAX ->
     in_prepare t = false ->
     engine t = Some e ->
     let t1 := set_in_sub_stmt (in_sub_stmt t + 1)
                 (set_stmts (stmts t ++ [dead]) t) in
     engine_call env e H_beginStatement (set_fiber_txn (Some t1) w) = Some x ->
     fst (txn_begin_stmt env sp w) = Throw x /\
     fiber_txn w1 = Some t1 /\
     (is_autocommit t = false ->
      (forall st w', engine_call env e (H_rollbackStatement st) w' = None) ->
      fst (txn_rollback_stmt env w1) = Ret tt /\
      fiber_txn (snd (txn_rollback_stmt env w1))
      = Some (set_stmts (stmts t ++ [dead]) t)) /\
     (is_autocommit t = true ->
      rollback_does_not_throw env t ->
      fst (txn_rollback_stmt env w1) = Ret tt /\
      fiber_txn (snd (txn_rollback_stmt env w1)) = None)) /\
  (fiber_txn w = None ->
   (forall w', engine_call env e H_begin w' = None) ->
   (forall w', engine_call env e H_beginStatement w' = Some x) ->
   (forall w', engine_call env e H_rollback w' = None) ->
   fst (txn_begin_stmt env sp w) = Throw x /\
   fiber_txn w1
   = Some (mk_txn [dead] false false UINT64_MAX UINT32_MAX 0 true false 1
             (Some e) None [] []) /\
   fst (txn_rollback_stmt env w1) = Ret tt /\
   fiber_txn (snd (txn_rollback_stmt env w1)) = None).
Proof.
  intros e dead w1. split.
  - intros t Ht Hd Hp He t1 Hcall.
    assert (E1 : txn_begin_stmt env sp w
                 = (Throw x,
                    set_diag (Some x)
                      (log_event (EvEngine e H_beginStatement)
                         (set_fiber_txn (Some t1) w)))).
    { subst t1 dead e. destruct_world w. subst ft.
      destruct t as [ss tp ip ti ci nr ac ht d eng etx oc orb].
      cbn in Hd, Hp, He. subst ip eng.
      assert (U : update_last (set_stmt_space (Some sp))
                    (ss ++ [mk_stmt None None None None None])
                  = ss ++ [mk_stmt (Some sp) None None None None])
        by apply update_last_app.
      unfold txn_begin_stmt, txn_begin_in_engine, txn_stmt_new, engine_invoke.
      exec.
      destruct (d >? TXN_SUB_STMT_MAX) eqn:E.
      { apply Z.gtb_lt in E. lia. }
      cbn. rewrite Nat.eqb_refl. cbn. rewrite U, Hcall. reflexivity. }
    assert (F1 : fiber_txn w1 = Some t1) by (subst w1; rewrite E1; reflexivity).
    split; [rewrite E1; reflexivity|]. split; [exact F1|]. split.
    + intros Ha Hrb.
      destruct (txn_rollback_stmt_slot env w1 t1 (stmts t) dead e F1)
        as [R1 R2].
      * exact Ha.
      * subst t1. cbn. lia.
      * reflexivity.
      * exact He.
      * intros H. cbn in H. congruence.
      * apply Hrb.
      * split; [exact R1|]. rewrite R2. subst t1 dead.
        destruct t as [ss tp ip ti ci nr ac ht d eng etx oc orb].
        unfold set_in_sub_stmt, set_n_rows, set_stmts, set_row, row_contribution.
        cbn. rewrite Z.sub_0_r, Z.add_simpl_r. reflexivity.
    + intros Ha Hrb.
      assert (R : txn_rollback_stmt env w1 = txn_rollback env w1).
      { unfold txn_rollback_stmt. erewrite bind_ret_eq by reflexivity.
        rewrite F1. subst t1. cbn [is_autocommit set_in_sub_stmt set_stmts].
        rewrite Ha. reflexivity. }
      rewrite R, (txn_rollback_returns env w1 t1 F1 Hrb).
      split; reflexivity.
  - intros Hw Hbegin Hcall Hrb.
    set (t1 := mk_txn [dead] false false UINT64_MAX UINT32_MAX 0 true false 1
                 (Some e) None [] []).
    assert (E1 : fst (txn_begin_stmt env sp w) = Throw x /\
                 fiber_txn w1 = Some t1).
    { subst w1 t1 dead e. destruct_world w. subst ft.
      unfold txn_begin_stmt, txn_begin, txn_begin_in_engine, txn_stmt_new,
        engine_invoke.
      exec. rewrite Hbegin. cbn. rewrite Hcall. cbn. split; reflexivity. }
    destruct E1 as [E1 F1].
    split; [exact E1|]. split; [exact F1|].
    assert (R : txn_rollback_stmt env w1 = txn_rollback env w1).
    { unfold txn_rollback_stmt. erewrite bind_ret_eq by reflexivity.
      rewrite F1. reflexivity. }
    rewrite R, (txn_rollback_returns env w1 t1 F1).
    + split; reflexivity.
    + split; [intros tr w' [] | intros e' w' H; injection H as <-; apply Hrb].
Qed.

Lemma failed_begin_stmt_is_closed_by_rollback_stmt_witness :
  let w1 := snd (txn_begin_stmt env_begin_statement_fails space_a w_two_stmts) in
  let w2 := snd (txn_begin_stmt env_begin_statement_fails space_a world0) in
  (fst (txn_begin_stmt env_begin_statement_fails space_a w_two_stmts)
   = Throw (ClientError (ER_OTHER 9%nat)) /\
   option_map in_sub_stmt (fiber_txn w1) = Some 1 /\
   option_map (fun t => length (stmts t)) (fiber_txn w1) = Some 3%nat /\
   fst (txn_rollback_stmt env_begin_statement_fails w1) = Ret tt /\
   option_map in_sub_stmt
     (fiber_txn (snd (txn_rollback_stmt env_begin_statement_fails w1))) = Some 0 /\
   option_map (fun t => length (stmts t))
     (fiber_txn (snd (txn_rollback_stmt env_begin_statement_fails w1)))
   = Some 3%nat) /\
  (fst (txn_begin_stmt env_begin_statement_fails space_a world0)
   = Throw (ClientError (ER_OTHER 9%nat)) /\
   option_map in_sub_stmt (fiber_txn w2) = Some 1 /\
   fst (txn_rollback_stmt env_begin_statement_fails w2) = Ret tt /\
   fiber_txn (snd (txn_rollback_stmt env_begin_statement_fails w2)) = None).
Proof.
  intros w1 w2.
  pose proof (failed_begin_stmt_is_closed_by_rollback_stmt
                env_begin_statement_fails space_a w_two_stmts
                (ClientError (ER_OTHER 9%nat))) as [P1 _].
  pose proof (failed_begin_stmt_is_closed_by_rollback_stmt
                env_begin_statement_fails space_a world0
                (ClientError (ER_OTHER 9%nat))) as [_ P2].
  split.
  - destruct (P1 _ eq_refl ltac:(cbn; unfold TXN_SUB_STMT_MAX; lia)
                eq_refl eq_refl eq_refl) as (H1 & H2 & H3 & _).
    destruct (H3 eq_refl (fun _ _ => eq_refl)) as [H4 H5].
    fold w1 in H2, H4, H5. rewrite H1, H2, H4, H5. repeat split.
  - destruct (P2 eq_refl (fun _ => eq_refl) (fun _ => eq_refl)
                (fun _ => eq_refl)) as (H1 & H2 & H3 & H4).
    fold w2 in H2, H3, H4. rewrite H1, H2, H3, H4. repeat split.
Defined.

(** ** One engine for the life of a transaction *)

Lemma bound_to_stmts (e : engine_id) (t : txn) (v now : Z) :
  bound_to e (Some t) ->
  bound_to e (Some (set_stmts (fst (fst (wal_fill (stmts t) v now []))) t)).
Proof. intros H. exact H. Qed.

Lemma keeps_bound_txn_begin_stmt (env : Env) (e : engine_id) (sp : space)
    (w : world) (t : txn) :
  fiber_txn w = Some t ->
  engine t = Some e ->
  bound_to e (fiber_txn (snd (txn_begin_stmt env sp w))).
Proof.
  intros Ht He. destruct_world w. subst ft.
  destruct t as [ss tp ip ti ci nr ac ht d eng etx oc orb].
  cbn in He. subst eng.
  unfold txn_begin_stmt, txn_begin_in_engine, txn_stmt_new, engine_invoke,
    bound_to.
  exec.
  destruct (d >? TXN_SUB_STMT_MAX); cbn; [reflexivity|].
  destruct ip; cbn.
  { destruct tp; reflexivity. }
  destruct (Nat.eqb e (handler_engine sp)); cbn; [|reflexivity].
  destruct (engine_call env _ _ _); reflexivity.
Qed.

(** X16: a transaction is bound to one engine for its whole life.  No
    call changes the engine of a transaction that is bound: after any
    call the fiber either has no transaction or has one bound to the
    same engine. *)
Theorem engine_binding_is_immutable (env : Env) (o : op) (w : world) (t : txn)
    (e : engine_id) :
  fiber_txn w = Some t ->
  engine t = Some e ->
  bound_to e (fiber_txn (run_op env o w)).
Proof.
  intros Ht He.
  assert (Hb : bound_to e (fiber_txn w)) by (rewrite Ht; exact He).
  pose proof (keeps_txn_commit env (bound_to e) I (bound_to_stmts e)) as Kc.
  pose proof (keeps_txn_rollback env (bound_to e) I) as Kr.
  destruct o; cbn [run_op].
  - destruct_world w. subst ft. exact He.
  - destruct_world w. subst ft. exact He.
  - revert w Ht Hb. intros w _.
    change (bound_to e (fiber_txn w) ->
            bound_to e (fiber_txn (snd (box_txn_prepare_two_phase env
                                          iproto_prepare replica w)))).
    revert w.
    change (keeps (bound_to e) (box_txn_prepare_two_phase env iproto_prepare replica)).
    unfold box_txn_prepare_two_phase, txn_prepare_two_phase.
    keeps_auto ltac:(try exact I; try assumption).
  - revert Hb. generalize w. change (keeps (bound_to e) (box_txn_commit env)).
    unfold box_txn_commit. keeps_auto ltac:(try exact I; try assumption).
  - revert Hb. generalize w. change (keeps (bound_to e) (box_txn_rollback env)).
    unfold box_txn_rollback. keeps_auto ltac:(try exact I; try assumption).
  - apply (keeps_bound_txn_begin_stmt env e sp w t Ht He).
  - rewrite Ht. exact He.
  - revert Hb. generalize w.
    change (keeps (bound_to e) (txn_commit_stmt env rq)).
    unfold txn_commit_stmt. keeps_auto ltac:(try exact I; try assumption).
  - revert Hb. generalize w.
    change (keeps (bound_to e) (txn_rollback_stmt env)).
    unfold txn_rollback_stmt. keeps_auto ltac:(try exact I; try assumption).
Qed.

Lemma engine_binding_is_immutable_witness :
  bound_to 0%nat (fiber_txn (run_op env_ok (OpBeginStmt space_b) w_two_stmts)).
Proof.
  exact (engine_binding_is_immutable env_ok (OpBeginStmt space_b) w_two_stmts
           _ 0%nat eq_refl eq_refl).
Defined.

(** ** The statement queue behind the depth *)

Lemma update_last_spaces (f : txn_stmt -> txn_stmt) (l : list txn_stmt) :
  (forall s, stmt_space (f s) = stmt_space s) ->
  map stmt_space (update_last f l) = map stmt_space l.
Proof.
  intros Hf. induction l as [|s l IH]; [reflexivity|].
  destruct l as [|s' l].
  - cbn. rewrite Hf. reflexivity.
  - change (update_last f (s :: s' :: l)) with (s :: update_last f (s' :: l)).
    cbn [map]. rewrite IH. reflexivity.
Qed.

Lemma wal_fill_spaces (ss : list txn_stmt) (v now : Z) (req : list xrow_header) :
  map stmt_space (fst (fst (wal_fill ss v now req))) = map stmt_space ss.
Proof.
  revert v req. induction ss as [|s ss IH]; intros v req; [reflexivity|].
  cbn [wal_fill]. destruct (row s) as [r|].
  - cbn [recovery_fill_lsn].
    specialize (IH (v + 1) (req ++ [set_row_tm now (set_row_lsn (v + 1) r)])).
    destruct (wal_fill ss (v + 1) now _) as [[ss' v'] req'].
    cbn in *. rewrite IH. reflexivity.
  - specialize (IH v req). destruct (wal_fill ss v now req) as [[ss' v'] req'].
    cbn in *. rewrite IH. reflexivity.
Qed.

(** [wf_parts] only looks at the spaces of the statements. *)
Lemma wf_parts_same_spaces (ss ss' : list txn_stmt) (d : Z)
    (eng : option engine_id) (ac tp : bool) :
  map stmt_space ss' = map stmt_space ss ->
  wf_parts ss d eng ac tp -> wf_parts ss' d eng ac tp.
Proof.
  intros Hs (W1 & W2 & W3 & W4).
  assert (Hlen : length ss' = length ss).
  { rewrite <- (length_map stmt_space ss'), Hs. apply length_map. }
  unfold wf_parts. rewrite Hlen.
  split; [exact W1|]. split; [| split; [| exact W4]].
  - intros Hne. apply W2. intros E. rewrite E in Hlen.
    destruct ss'; [contradiction | discriminate Hlen].
  - rewrite Forall_forall in *. intros s Hin.
    apply (in_map stmt_space) in Hin. rewrite Hs in Hin.
    apply in_map_iff in Hin. destruct Hin as (s0 & E0 & Hin0).
    rewrite <- E0. apply W3. exact Hin0.
Qed.

Lemma wf_parts_update_last (f : txn_stmt -> txn_stmt) (ss : list txn_stmt)
    (d : Z) (eng : option engine_id) (ac tp : bool) :
  (forall s, stmt_space (f s) = stmt_space s) ->
  wf_parts ss d eng ac tp -> wf_parts (update_last f ss) d eng ac tp.
Proof.
  intros Hf. apply wf_parts_same_spaces. apply update_last_spaces. exact Hf.
Qed.

(** A statement begun: one more statement with its space, one level
    down, and an engine bound. *)
Lemma wf_parts_begin (sp : space) (ss : list txn_stmt) (d : Z)
    (eng : option engine_id) (e : engine_id) (ac tp : bool) :
  wf_parts ss d eng ac tp ->
  wf_parts (update_last (set_stmt_space (Some sp))
              (ss ++ [mk_stmt None None None None None]))
    (d + 1) (Some e) ac tp.
Proof.
  intros (W1 & W2 & W3 & W4). rewrite update_last_app.
  unfold wf_parts. rewrite length_app. cbn [length].
  split; [lia|]. split; [discriminate|]. split; [| exact W4].
  apply Forall_app. split; [exact W3 | repeat constructor; discriminate].
Qed.

(** A statement closed: one level up. *)
Lemma wf_parts_close (ss : list txn_stmt) (d : Z) (eng : option engine_id)
    (ac tp : bool) :
  d > 0 -> wf_parts ss d eng ac tp -> wf_parts ss (d - 1) eng ac tp.
Proof.
  intros Hd (W1 & W2 & W3 & W4). unfold wf_parts.
  split; [lia|]. split; [exact W2 | split; [exact W3 | exact W4]].
Qed.

Lemma slot_wf_stmts (t : txn) (v now : Z) :
  slot_wf (Some t) ->
  slot_wf (Some (set_stmts (fst (fst (wal_fill (stmts t) v now []))) t)).
Proof.
  apply wf_parts_same_spaces. apply wal_fill_spaces.
Qed.

Ltac wf_side :=
  try exact I;
  try (cbn [slot_wf] in *; unfold txn_wf in *; cbn in *;
       first [ assumption
             | apply wf_parts_update_last; [intros; reflexivity | assumption] ]).

Lemma keeps_wf_txn_begin_stmt (env : Env) (sp : space) :
  keeps slot_wf (txn_begin_stmt env sp).
Proof.
  intros w H. destruct_world w.
  unfold txn_begin_stmt, txn_begin_in_engine, txn_begin, txn_stmt_new,
    engine_invoke.
  destruct ft as [t|].
  - destruct t as [ss tp ip ti ci nr ac ht d eng etx oc orb].
    cbn [slot_wf fiber_txn] in H. unfold txn_wf in H. cbn in H.
    unfold slot_wf, txn_wf. exec.
    destruct (d >? TXN_SUB_STMT_MAX) eqn:E; cbn; [exact H|].
    destruct ip; cbn.
    { destruct tp; exact H. }
    destruct eng as [e'|]; cbn.
    + destruct (Nat.eqb e' (handler_engine sp)) eqn:N; cbn; [|exact H].
      destruct (engine_call env _ _ _); cbn; eapply wf_parts_begin; exact H.
    + destruct ss as [|s0 ss]; cbn; [|exact H].
      destruct (engine_call env _ H_begin _); cbn.
      * destruct H as (W1 & W2 & W3 & W4). unfold wf_parts.
        split; [exact W1|]. split; [congruence|]. split; assumption.
      * destruct (engine_call env _ H_beginStatement _); cbn;
          apply (wf_parts_begin sp [] d None); exact H.
  - assert (W0 : wf_parts [] 0 None true false).
    { unfold wf_parts. cbn. repeat split; try lia; try constructor. congruence. }
    unfold slot_wf, txn_wf. exec.
    destruct (engine_call env _ H_begin _); cbn.
    + unfold wf_parts. cbn. repeat split; try lia; try constructor; congruence.
    + destruct (engine_call env _ H_beginStatement _); cbn;
        apply (wf_parts_begin sp [] 0 None); exact W0.
Qed.

Lemma keeps_wf_txn_rollback_stmt (env : Env) :
  keeps slot_wf (txn_rollback_stmt env).
Proof.
  intros w H.
  pose proof (keeps_txn_rollback env slot_wf I w H) as Hrb.
  destruct_world w.
  unfold txn_rollback_stmt. destruct ft as [t|]; [| exact H].
  erewrite bind_ret_eq by reflexivity. cbn [fiber_txn].
  destruct (is_autocommit t); [exact Hrb|]. clear Hrb.
  destruct (in_sub_stmt t =? 0) eqn:D; [exact H|].
  apply Z.eqb_neq in D.
  destruct (stailq_last_entry (stmts t)) as [s|] eqn:L; [| exact H].
  destruct (engine t) as [e|] eqn:He; [| exact H].
  destruct t as [ss tp ip ti ci nr ac ht d eng etx oc orb].
  cbn [slot_wf fiber_txn] in H. unfold txn_wf in H. cbn in H, D, He, L.
  assert (Hd : d > 0) by (destruct H as ((H0 & _) & _); lia).
  unfold engine_invoke, slot_wf, txn_wf. exec.
  destruct (engine_call env e _ _); cbn; [exact H|].
  destruct (row s); cbn.
  - destruct (nr - 1 >=? 0); cbn.
    + apply wf_parts_close; [exact Hd|].
      apply wf_parts_update_last; [intros; reflexivity | exact H].
    + apply wf_parts_update_last; [intros; reflexivity | exact H].
  - apply wf_parts_close; assumption.
Qed.

Lemma wf_commit_stmt_end (env : Env) (w : world) (t : txn) :
  fiber_txn w = Some t ->
  txn_wf t ->
  in_sub_stmt t > 0 ->
  slot_wf (fiber_txn (snd (commit_stmt_end env w))).
Proof.
  intros Ht Hwf Hd. destruct_world w. subst ft.
  unfold commit_stmt_end. do 2 bind_step.
  assert (W : slot_wf (Some (set_in_sub_stmt (in_sub_stmt t - 1) t))).
  { apply wf_parts_close; assumption. }
  destruct (_ && _).
  - apply (keeps_txn_commit env slot_wf I slot_wf_stmts). exact W.
  - exact W.
Qed.

Lemma keeps_wf_txn_commit_stmt (env : Env) (rq : request) :
  keeps slot_wf (txn_commit_stmt env rq).
Proof.
  intros w H. destruct (fiber_txn w) as [t|] eqn:Ht.
  2:{ unfold txn_commit_stmt, bind, deref_txn. rewrite Ht. cbn. rewrite Ht. exact I. }
  destruct (in_sub_stmt t >? 0) eqn:D.
  2:{ unfold txn_commit_stmt. destruct_world w. subst ft.
      bind_step. rewrite D. cbn. exact H. }
  destruct (in_prepare t) eqn:Pr.
  { unfold txn_commit_stmt. destruct_world w. subst ft.
    bind_step. rewrite D, Pr. bind_step. cbn. exact H. }
  apply Z.gtb_lt in D.
  destruct (stailq_last_entry (stmts t)) as [s|] eqn:L.
  2:{ unfold txn_commit_stmt. destruct_world w. subst ft.
      bind_step. assert (G : (in_sub_stmt t >? 0) = true) by (apply Z.gtb_lt; lia).
      rewrite G, Pr, L. do 2 bind_step. cbn. exact H. }
  destruct (stmt_space s) as [sp|] eqn:Hs.
  2:{ unfold txn_commit_stmt. destruct_world w. subst ft.
      bind_step. assert (G : (in_sub_stmt t >? 0) = true) by (apply Z.gtb_lt; lia).
      rewrite G, Pr, L, Hs. do 2 bind_step. cbn. exact H. }
  rewrite (txn_commit_stmt_steps env rq w t s sp) by (assumption || lia).
  assert (Hredo : txn_wf (commit_stmt_redo env rq sp t) /\
                  in_sub_stmt (commit_stmt_redo env rq sp t) > 0).
  { unfold commit_stmt_redo. destruct (space_is_temporary sp).
    - split; [exact H | lia].
    - split; [| cbn; lia]. unfold txn_wf. cbn.
      apply wf_parts_update_last; [| exact H].
      intros s0. unfold txn_add_redo. destruct (header rq); reflexivity. }
  destruct Hredo as [Hr1 Hr2].
  set (w1 := set_fiber_txn (Some (commit_stmt_redo env rq sp t)) w).
  unfold bind.
  destruct ((if triggers_fire s sp
             then trigger_run env (L_on_replace (space_id sp)) (on_replace sp)
             else ret tt) w1) as [[u|x|] w2] eqn:E.
  - assert (F2 : fiber_txn w2 = Some (commit_stmt_redo env rq sp t)).
    { destruct (triggers_fire s sp).
      - pose proof (trigger_run_slot env (L_on_replace (space_id sp))
                      (on_replace sp) w1) as F. rewrite E in F. exact F.
      - unfold ret in E. injection E as _ E. rewrite <- E. reflexivity. }
    apply (wf_commit_stmt_end env w2 _ F2 Hr1 Hr2).
  - cbn [snd]. destruct (triggers_fire s sp); [| discriminate E].
    pose proof (trigger_run_slot env (L_on_replace (space_id sp))
                  (on_replace sp) w1) as F. rewrite E in F. cbn in F.
    rewrite F. exact Hr1.
  - cbn [snd]. destruct (triggers_fire s sp); [| discriminate E].
    pose proof (trigger_run_slot env (L_on_replace (space_id sp))
                  (on_replace sp) w1) as F. rewrite E in F. cbn in F.
    rewrite F. exact Hr1.
Qed.

Lemma keeps_wf_run_op (env : Env) (o : op) (w : world) :
  slot_wf (fiber_txn w) -> slot_wf (fiber_txn (run_op env o w)).
Proof.
  pose proof (keeps_txn_commit env slot_wf I slot_wf_stmts) as Kc.
  pose proof (keeps_txn_rollback env slot_wf I) as Kr.
  destruct o; cbn [run_op].
  - destruct_world w. destruct ft as [t|]; intros H; [exact H|].
    cbn. unfold txn_wf, wf_parts. cbn.
    repeat split; try lia; try constructor; congruence.
  - destruct_world w. destruct ft as [t|]; intros H; [exact H|].
    cbn. unfold txn_wf, wf_parts. cbn.
    repeat split; try lia; try constructor; congruence.
  - revert w.
    change (keeps slot_wf (box_txn_prepare_two_phase env iproto_prepare replica)).
    unfold box_txn_prepare_two_phase, txn_prepare_two_phase.
    keeps_auto wf_side.
  - revert w. change (keeps slot_wf (box_txn_commit env)).
    unfold box_txn_commit. keeps_auto wf_side.
  - revert w. change (keeps slot_wf (box_txn_rollback env)).
    unfold box_txn_rollback. keeps_auto wf_side.
  - apply keeps_wf_txn_begin_stmt.
  - destruct (fiber_txn w) as [t|] eqn:E; intros H; cbn.
    + apply wf_parts_update_last; [intros; reflexivity | exact H].
    + rewrite E. exact I.
  - apply keeps_wf_txn_commit_stmt.
  - apply keeps_wf_txn_rollback_stmt.
Qed.

(** X17: the manager takes the last statement of the queue and calls
    the engine of the transaction without a check whenever a statement is
    open.  This is safe in every state the calls can reach: the depth
    stays between 0 and the length of the queue, a transaction with
    statements is bound to an engine, and every statement has its space;
    so with a statement open the queue has a last statement, the
    statement has a space and the transaction an engine. *)
Theorem open_statement_is_backed (env : Env) :
  (forall (os : list op) (w : world),
     slot_wf (fiber_txn w) -> slot_wf (fiber_txn (run_ops env os w))) /\
  (forall t : txn,
     txn_wf t -> in_sub_stmt t > 0 ->
     exists s sp e,
       stailq_last_entry (stmts t) = Some s /\
       stmt_space s = Some sp /\
       engine t = Some e).
Proof.
  split.
  - intros os. induction os as [|o os IH]; intros w H; cbn.
    + exact H.
    + apply IH. apply keeps_wf_run_op. exact H.
  - intros t ((_ & Hlen) & Heng & Hsp & _) Hd.
    destruct (stmts t) as [|s0 ss] eqn:Es.
    { cbn in Hlen. lia. }
    assert (Hlast : exists init s, s0 :: ss = init ++ [s]).
    { destruct (exists_last (l := s0 :: ss)) as (init & s & E);
        [discriminate | exists init, s; exact E]. }
    destruct Hlast as (init & s & E). rewrite E in *.
    rewrite Forall_app in Hsp. destruct Hsp as [_ Hs].
    inversion Hs as [|? ? Hs1 _]; subst.
    destruct (stmt_space s) as [sp|] eqn:Esp; [| contradiction].
    destruct (engine t) as [e|] eqn:Ee.
    + exists s, sp, e. rewrite stailq_last_entry_app. repeat split; assumption.
    + exfalso. apply Heng; [| reflexivity]. destruct init; discriminate.
Qed.

Lemma open_statement_is_backed_witness :
  slot_wf (fiber_txn (run_ops env_ok [OpBeginStmt space_a; OpRollbackStmt] w_nested)) /\
  exists s sp e,
    option_map (fun t => stailq_last_entry (stmts t)) (fiber_txn w_nested)
    = Some (Some s) /\
    stmt_space s = Some sp /\
    option_map engine (fiber_txn w_nested) = Some (Some e).
Proof.
  assert (W : slot_wf (fiber_txn w_nested)).
  { cbn. unfold txn_wf, wf_parts. cbn.
    repeat split; try lia; try discriminate.
    repeat constructor; discriminate. }
  split.
  - apply (proj1 (open_statement_is_backed env_ok)). exact W.
  - destruct (proj2 (open_statement_is_backed env_ok) _ W) as (s & sp & e & H1 & H2 & H3).
    + cbn. lia.
    + exists s, sp, e. cbn in *. rewrite H1, H3. repeat split. exact H2.
Defined.

(** ** The region is destroyed once *)

Lemma destroyed_app (d1 d2 : list event) :
  destroyed (d1 ++ d2) = (destroyed d1 + destroyed d2)%nat.
Proof. unfold destroyed. rewrite filter_app, length_app. reflexivity. Qed.

Lemma quiet_step_refl (w : world) : quiet_step w w.
Proof.
  split; [reflexivity|]. exists []. rewrite app_nil_r. split; reflexivity.
Qed.

Lemma region_step_refl (w : world) : region_step w w.
Proof. exists []. rewrite app_nil_r. split; reflexivity. Qed.

Lemma quiet_step_trans (w w1 w2 : world) :
  quiet_step w w1 -> quiet_step w1 w2 -> quiet_step w w2.
Proof.
  intros [L1 (d1 & E1 & D1)] [L2 (d2 & E2 & D2)].
  split; [congruence|]. exists (d1 ++ d2).
  rewrite E2, E1, app_assoc, destroyed_app, D1, D2. split; reflexivity.
Qed.

Lemma region_step_trans (w w1 w2 : world) :
  region_step w w1 -> region_step w1 w2 -> region_step w w2.
Proof.
  intros (d1 & E1 & D1) (d2 & E2 & D2). exists (d1 ++ d2).
  rewrite E2, E1, app_assoc, destroyed_app. split; [reflexivity | lia].
Qed.

Lemma quiet_region_step (w w' : world) : quiet_step w w' -> region_step w w'.
Proof.
  intros [L (d & E & D)]. exists d. split; [exact E | lia].
Qed.

(** A computation that keeps the fiber's transaction there (or not
    there) and emits no destruction is silent. *)
Lemma silent_of_keeps_emits {A : Type} (m : M A) :
  (forall n, keeps (fun o => live o = n) m) ->
  emits (fun ev => is_region_destroy ev = false) m ->
  silent m.
Proof.
  intros Hk He w. split.
  - apply (Hk (live (fiber_txn w)) w). reflexivity.
  - destruct (He w) as (d & E & F). exists d. split; [exact E|].
    clear E. unfold destroyed. induction F as [|ev d H _ IH]; [reflexivity|].
    cbn. rewrite H. exact IH.
Qed.

Ltac live_keeps :=
  repeat first
    [ keeps_step
    | apply keeps_wal_request_fill; intros ? ? ? H; exact H
    | apply keeps_wal_submit
    | apply keeps_update_txn; intros ? H; exact H ].

Ltac silent_auto :=
  apply silent_of_keeps_emits;
  [ intros ?; live_keeps | emits_auto reflexivity ].

Lemma silent_engine_invoke (env : Env) (e : engine_id) (h : hook) :
  silent (engine_invoke env e h).
Proof. silent_auto. Qed.

Lemma silent_trigger_run (env : Env) (l : trigger_list) (ts : list trigger_id) :
  silent (trigger_run env l ts).
Proof. silent_auto. Qed.

Lemma silent_region_safe {A : Type} (m : M A) : silent m -> region_safe m.
Proof. intros H w. apply quiet_region_step. apply H. Qed.

Lemma silent_quiet_on_return {A : Type} (m : M A) :
  silent m -> quiet_on_return m.
Proof.
  intros H w. split; [apply quiet_region_step; apply H | intros; apply H].
Qed.

Lemma region_safe_bind {A B : Type} (m : M A) (k : A -> M B) :
  region_safe m -> (forall a, region_safe (k a)) -> region_safe (bind m k).
Proof.
  intros Hm Hk w. unfold bind. specialize (Hm w).
  destruct (m w) as [[a|e|] w1]; cbn [snd] in *; try exact Hm.
  eapply region_step_trans; [exact Hm | apply Hk].
Qed.

Lemma region_safe_try_catch {A : Type} (m : M A) (h : exception -> M A) :
  region_safe m -> (forall e, region_safe (h e)) -> region_safe (try_catch m h).
Proof.
  intros Hm Hh w. unfold try_catch. specialize (Hm w).
  destruct (m w) as [[a|e|] w1]; cbn [snd] in *; try exact Hm.
  eapply region_step_trans; [exact Hm | apply Hh].
Qed.

Lemma quiet_on_return_bind {A B : Type} (m : M A) (k : A -> M B) :
  quiet_on_return m -> (forall a, quiet_on_return (k a)) ->
  quiet_on_return (bind m k).
Proof.
  intros Hm Hk w. unfold bind. destruct (Hm w) as [R Q].
  destruct (m w) as [[a|e|] w1]; cbn [fst snd] in *.
  - specialize (Q a eq_refl). destruct (Hk a w1) as [R1 Q1]. split.
    + eapply region_step_trans; [exact R | exact R1].
    + intros b Hb. eapply quiet_step_trans; [exact Q | apply (Q1 b Hb)].
  - split; [exact R | intros; discriminate].
  - split; [exact R | intros; discriminate].
Qed.

Lemma region_safe_when_live_bind {A B : Type} (m : M A) (k : A -> M B) :
  quiet_on_return m -> (forall a, region_safe_when_live (k a)) ->
  region_safe_when_live (bind m k).
Proof.
  intros Hm Hk w Hl. unfold bind. destruct (Hm w) as [R Q].
  destruct (m w) as [[a|e|] w1]; cbn [fst snd] in *; try exact R.
  specialize (Q a eq_refl).
  eapply region_step_trans; [exact R|]. apply Hk.
  destruct Q as [L _]. congruence.
Qed.

(** The end of a transaction: the region is destroyed, once, and the
    fiber loses its transaction. *)
Lemma teardown_when_live :
  region_safe_when_live
    (emit EvRegionDestroy ;; emit EvMempoolFree ;; emit EvFiberGc ;;
     fiber_set_txn None).
Proof.
  intros w Hl. exists [EvRegionDestroy; EvMempoolFree; EvFiberGc].
  split.
  - cbn. rewrite <- !app_assoc. reflexivity.
  - cbn. rewrite Hl. reflexivity.
Qed.

Lemma region_safe_txn_rollback (env : Env) : region_safe (txn_rollback env).
Proof.
  intros w. unfold txn_rollback.
  erewrite bind_ret_eq by reflexivity.
  destruct (fiber_txn w) as [t|] eqn:Ht; [| apply region_step_refl].
  assert (Hl : live (fiber_txn w) = 1%nat) by (rewrite Ht; reflexivity).
  revert w Hl Ht. intros w Hl _. revert w Hl.
  apply region_safe_when_live_bind.
  { apply silent_quiet_on_return. destruct (has_triggers t).
    - apply silent_trigger_run.
    - silent_auto. }
  intros _. apply region_safe_when_live_bind.
  { apply silent_quiet_on_return. destruct (engine t).
    - apply silent_engine_invoke.
    - silent_auto. }
  intros _. apply teardown_when_live.
Qed.

Lemma quiet_on_return_txn_write_to_wal (env : Env) :
  quiet_on_return (txn_write_to_wal env).
Proof.
  unfold txn_write_to_wal.
  repeat (apply quiet_on_return_bind;
          [apply silent_quiet_on_return; silent_auto | intros ?]).
  destruct (_ <? 0).
  - intros w. split.
    + revert w. apply region_safe_bind; [apply region_safe_txn_rollback|].
      intros _. apply silent_region_safe. silent_auto.
    + intros r Hr. exfalso. unfold bind in Hr.
      destruct (txn_rollback env w) as [[u|x|] w1]; cbn in Hr; discriminate Hr.
  - apply silent_quiet_on_return. silent_auto.
Qed.

Lemma region_safe_txn_commit (env : Env) : region_safe (txn_commit env).
Proof.
  intros w. destruct (fiber_txn w) as [t|] eqn:Ht.
  2:{ unfold txn_commit, bind, deref_txn. rewrite Ht. apply region_step_refl. }
  assert (Hl : live (fiber_txn w) = 1%nat) by (rewrite Ht; reflexivity).
  clear Ht. revert w Hl. unfold txn_commit.
  apply region_safe_when_live_bind;
    [apply silent_quiet_on_return; silent_auto | intros t'].
  apply region_safe_when_live_bind;
    [apply silent_quiet_on_return; silent_auto | intros _].
  apply region_safe_when_live_bind;
    [apply silent_quiet_on_return; silent_auto | intros _].
  apply region_safe_when_live_bind; [| intros _; apply teardown_when_live].
  destruct (engine t') as [e|]; [| apply silent_quiet_on_return; silent_auto].
  apply quiet_on_return_bind;
    [apply silent_quiet_on_return; silent_auto | intros _].
  apply quiet_on_return_bind.
  { destruct (_ >? 0).
    - apply quiet_on_return_txn_write_to_wal.
    - apply silent_quiet_on_return. silent_auto. }
  intros sig. apply silent_quiet_on_return. silent_auto.
Qed.

Ltac region_auto :=
  repeat first
    [ apply region_safe_txn_commit
    | apply region_safe_txn_rollback
    | match goal with
      | |- region_safe (bind _ _) => apply region_safe_bind; [| intros ?]
      | |- region_safe (try_catch _ _) =>
          apply region_safe_try_catch; [| intros ?]
      | |- region_safe (match ?x with _ => _ end) => destruct x
      end
    | solve [apply silent_region_safe; silent_auto] ].

Lemma region_safe_box_txn_commit (env : Env) : region_safe (box_txn_commit env).
Proof. unfold box_txn_commit. region_auto. Qed.

Lemma region_safe_box_txn_rollback (env : Env) :
  region_safe (box_txn_rollback env).
Proof. unfold box_txn_rollback. region_auto. Qed.

Lemma region_safe_txn_commit_stmt (env : Env) (rq : request) :
  region_safe (txn_commit_stmt env rq).
Proof. unfold txn_commit_stmt. region_auto. Qed.

Lemma region_safe_txn_rollback_stmt (env : Env) :
  region_safe (txn_rollback_stmt env).
Proof. unfold txn_rollback_stmt. region_auto. Qed.

Lemma destroyed_none (d : list event) :
  Forall (fun ev => is_region_destroy ev = false) d -> destroyed d = 0%nat.
Proof.
  unfold destroyed. induction 1 as [|ev d H _ IH]; [reflexivity|].
  cbn. rewrite H. exact IH.
Qed.

(** A computation that leaves a fiber with a transaction with one, and
    emits no destruction, is quiet on such a fiber. *)
Lemma quiet_when_live {A : Type} (m : M A) (w : world) :
  keeps (fun o => live o = 1%nat) m ->
  emits (fun ev => is_region_destroy ev = false) m ->
  live (fiber_txn w) = 1%nat ->
  quiet_step w (snd (m w)).
Proof.
  intros Hk He Hl. split.
  - rewrite Hl. apply (Hk w Hl).
  - destruct (He w) as (d & E & F). exists d. split; [exact E|].
    apply destroyed_none, F.
Qed.

Ltac begin_keeps :=
  repeat first
    [ keeps_step
    | apply keeps_update_txn; intros ? H; exact H
    | apply keeps_fiber_set_txn; reflexivity ].

(** X18: every call to the manager destroys the region of the
    transaction exactly once if it ends the fiber's transaction, and
    not at all otherwise, whatever the engines, the triggers and the
    log do. *)
Theorem region_destroyed_once (env : Env) (o : op) (w : world) :
  exists d,
    trace (run_op env o w) = trace w ++ d /\
    destroyed d =
      match fiber_txn w, fiber_txn (run_op env o w) with
      | Some _, None => 1%nat
      | _, _ => 0%nat
      end.
Proof.
  destruct (fiber_txn w) as [t|] eqn:Ht.
  - assert (Hl : live (fiber_txn w) = 1%nat) by (rewrite Ht; reflexivity).
    assert (R : region_step w (run_op env o w)).
    { destruct o; cbn [run_op].
      - apply quiet_region_step, quiet_when_live; [| | exact Hl].
        + unfold box_txn_begin, txn_begin. begin_keeps.
        + unfold box_txn_begin, txn_begin. emits_auto reflexivity.
      - apply quiet_region_step, quiet_when_live; [| | exact Hl].
        + unfold box_txn_begin_two_phase, txn_begin_two_phase, txn_begin.
          begin_keeps.
        + unfold box_txn_begin_two_phase, txn_begin_two_phase, txn_begin.
          emits_auto reflexivity.
      - apply quiet_region_step, quiet_when_live; [| | exact Hl].
        + unfold box_txn_prepare_two_phase, txn_prepare_two_phase.
          begin_keeps.
        + unfold box_txn_prepare_two_phase, txn_prepare_two_phase.
          emits_auto reflexivity.
      - apply region_safe_box_txn_commit.
      - apply region_safe_box_txn_rollback.
      - apply quiet_region_step, quiet_when_live; [| | exact Hl].
        + unfold txn_begin_stmt, txn_begin_in_engine, txn_begin. begin_keeps.
        + unfold txn_begin_stmt, txn_begin_in_engine, txn_begin.
          emits_auto reflexivity.
      - rewrite Ht. apply quiet_region_step. split.
        + cbn. rewrite Ht. reflexivity.
        + exists []. cbn. rewrite app_nil_r. split; reflexivity.
      - apply region_safe_txn_commit_stmt.
      - apply region_safe_txn_rollback_stmt. }
    destruct R as (d & E & D). exists d. split; [exact E|].
    rewrite Hl in D. destruct (fiber_txn (run_op env o w)); cbn in D; lia.
  - assert (E : exists d, trace (run_op env o w) = trace w ++ d /\
                         Forall (fun ev => is_region_destroy ev = false) d).
    { destruct o; cbn [run_op].
      - refine ((_ : emits (fun ev => is_region_destroy ev = false)
                       box_txn_begin) w).
        unfold box_txn_begin, txn_begin. emits_auto reflexivity.
      - refine ((_ : emits (fun ev => is_region_destroy ev = false)
                       (box_txn_begin_two_phase id coordinator)) w).
        unfold box_txn_begin_two_phase, txn_begin_two_phase, txn_begin.
        emits_auto reflexivity.
      - refine ((_ : emits (fun ev => is_region_destroy ev = false)
                       (box_txn_prepare_two_phase env iproto_prepare replica))
                  w).
        unfold box_txn_prepare_two_phase, txn_prepare_two_phase.
        emits_auto reflexivity.
      - exists []. unfold box_txn_commit, bind, in_txn. rewrite Ht. cbn.
        rewrite app_nil_r. split; constructor.
      - exists []. unfold box_txn_rollback, txn_rollback, bind, in_txn.
        rewrite Ht. cbn. rewrite Ht. cbn.
        rewrite app_nil_r. split; constructor.
      - refine ((_ : emits (fun ev => is_region_destroy ev = false)
                       (txn_begin_stmt env sp)) w).
        unfold txn_begin_stmt, txn_begin_in_engine, txn_begin.
        emits_auto reflexivity.
      - rewrite Ht. exists []. rewrite app_nil_r. split; constructor.
      - exists []. unfold txn_commit_stmt, bind, deref_txn. rewrite Ht. cbn.
        rewrite app_nil_r. split; constructor.
      - exists []. unfold txn_rollback_stmt, bind, in_txn. rewrite Ht. cbn.
        rewrite app_nil_r. split; constructor. }
    destruct E as (d & E & F). exists d. split; [exact E|].
    apply destroyed_none, F.
Qed.

(** ** What the result of a commit tells *)

Lemma returns_unbound_bind {A B : Type} (m : M A) (k : A -> M B) :
  (forall a w b, fst (k a w) = Ret b -> fiber_txn (snd (k a w)) = None) ->
  forall w b, fst (bind m k w) = Ret b -> fiber_txn (snd (bind m k w)) = None.
Proof.
  intros Hk w b. unfold bind. destruct (m w) as [[a|e|] w1]; cbn.
  - apply Hk.
  - discriminate.
  - discriminate.
Qed.

(** When [txn_commit] returns, the fiber has no transaction. *)
Lemma txn_commit_returns_unbound (env : Env) (w : world) (u : unit) :
  fst (txn_commit env w) = Ret u ->
  fiber_txn (snd (txn_commit env w)) = None.
Proof.
  revert w u. unfold txn_commit.
  repeat (apply returns_unbound_bind; intros ?).
  intros w b _. reflexivity.
Qed.

(** X19: [box_txn_commit] returns 0 or -1, and it returns 0 only when
    the fiber is left without a transaction, whatever the engine, the
    triggers and the log writer do: after a 0, [box_txn] answers false
    and a new transaction can be begun. *)
Theorem box_txn_commit_zero_ends (env : Env) (w : world) (r : Z) :
  fst (box_txn_commit env w) = Ret r ->
  (r = 0 /\
   fiber_txn (snd (box_txn_commit env w)) = None /\
   fst (box_txn (snd (box_txn_commit env w))) = Ret false /\
   fst (box_txn_begin (snd (box_txn_commit env w))) = Ret 0) \/
  r = -1.
Proof.
  assert (Hnone : forall w', fiber_txn w' = None ->
            fst (box_txn w') = Ret false /\ fst (box_txn_begin w') = Ret 0).
  { intros w' H. unfold box_txn, box_txn_begin, txn_begin, try_catch, bind,
      in_txn. rewrite H. cbn. rewrite H. cbn. split; reflexivity. }
  unfold box_txn_commit. erewrite bind_ret_eq by reflexivity.
  destruct (fiber_txn w) as [t|] eqn:Ht.
  - destruct (negb (in_sub_stmt t =? 0)).
    { intros H. right. cbn in H. injection H as <-. reflexivity. }
    destruct (is_two_phase t && negb (in_prepare t)).
    { intros H. right. cbn in H. injection H as <-. reflexivity. }
    unfold try_catch, bind.
    destruct (txn_commit env w) as [[u|x|] w1] eqn:E; cbv beta iota.
    + cbn [ret fst snd]. intros H. injection H as <-. left.
      assert (Hu : fiber_txn w1 = None).
      { pose proof (txn_commit_returns_unbound env w u) as Hc.
        rewrite E in Hc. apply Hc. reflexivity. }
      destruct (Hnone w1 Hu) as [H1 H2]. auto.
    + destruct (txn_rollback env w1) as [[u|y|] w2]; cbn; intros H;
        try discriminate H.
      injection H as <-. right. reflexivity.
    + cbn. discriminate.
  - cbn. intros H. injection H as <-. left.
    destruct (Hnone w Ht) as [H1 H2]. auto.
Qed.

Lemma box_txn_commit_zero_ends_witness :
  (0 = 0 /\
   fiber_txn (snd (box_txn_commit env_ok w_two_stmts)) = None /\
   fst (box_txn (snd (box_txn_commit env_ok w_two_stmts))) = Ret false /\
   fst (box_txn_begin (snd (box_txn_commit env_ok w_two_stmts))) = Ret 0) \/
  0 = -1.
Proof.
  apply (box_txn_commit_zero_ends env_ok w_two_stmts 0). vm_compute.
  reflexivity.
Defined.

(** ** The mode of a transaction *)

Lemma same_mode_refl (t : txn) : same_mode t (Some t).
Proof. unfold same_mode. auto. Qed.

Lemma same_mode_stmts (t t' : txn) (v now : Z) :
  same_mode t (Some t') ->
  same_mode t (Some (set_stmts (fst (fst (wal_fill (stmts t') v now []))) t')).
Proof. intros H. exact H. Qed.

Ltac mode_side :=
  try exact I; try assumption;
  try (unfold same_mode in *; cbn in *; intuition auto).

Lemma keeps_mode_txn_begin_stmt (env : Env) (sp : space) (w : world) (t : txn) :
  fiber_txn w = Some t ->
  same_mode t (fiber_txn (snd (txn_begin_stmt env sp w))).
Proof.
  intros Ht. destruct_world w. subst ft.
  destruct t as [ss tp ip ti ci nr ac ht d eng etx oc orb].
  unfold txn_begin_stmt, txn_begin_in_engine, txn_stmt_new, engine_invoke,
    same_mode.
  exec.
  destruct (d >? TXN_SUB_STMT_MAX); cbn; [auto 6|].
  destruct ip; cbn.
  { destruct tp; cbn; auto 6. }
  destruct eng as [e|]; cbn.
  - destruct (Nat.eqb e (handler_engine sp)); cbn; [| auto 6].
    destruct (engine_call env _ _ _); cbn; auto 6.
  - destruct (rlist_empty ss); cbn; [| auto 6].
    destruct (engine_call env _ H_begin _); cbn; [auto 6|].
    destruct (engine_call env _ _ _); cbn; auto 6.
Qed.

(** X20: the mode of a transaction is fixed when it begins, and a
    prepared transaction stays prepared.  After any call the fiber has
    no transaction, or one with the same autocommit and two-phase flags,
    the same identifier and coordinator, which is prepared if it was
    before; so [txn_check_autocommit] gives the same answer for the
    whole life of a transaction. *)
Theorem transaction_mode_is_fixed (env : Env) (o : op) (w : world) (t : txn) :
  fiber_txn w = Some t ->
  same_mode t (fiber_txn (run_op env o w)) /\
  (fiber_txn (run_op env o w) <> None ->
   fst (txn_check_autocommit (run_op env o w)) = fst (txn_check_autocommit w)).
Proof.
  intros Ht.
  assert (Hm : same_mode t (fiber_txn (run_op env o w))).
  { assert (Hb : same_mode t (fiber_txn w))
      by (rewrite Ht; apply same_mode_refl).
    pose proof (keeps_txn_commit env (same_mode t) I (same_mode_stmts t)) as Kc.
    pose proof (keeps_txn_rollback env (same_mode t) I) as Kr.
    destruct o; cbn [run_op].
    - destruct_world w. subst ft. apply same_mode_refl.
    - destruct_world w. subst ft. apply same_mode_refl.
    - revert Hb. generalize w.
      change (keeps (same_mode t)
                (box_txn_prepare_two_phase env iproto_prepare replica)).
      unfold box_txn_prepare_two_phase, txn_prepare_two_phase.
      keeps_auto mode_side.
    - revert Hb. generalize w. change (keeps (same_mode t) (box_txn_commit env)).
      unfold box_txn_commit. keeps_auto mode_side.
    - revert Hb. generalize w.
      change (keeps (same_mode t) (box_txn_rollback env)).
      unfold box_txn_rollback. keeps_auto mode_side.
    - apply (keeps_mode_txn_begin_stmt env sp w t Ht).
    - rewrite Ht. exact (same_mode_refl t).
    - revert Hb. generalize w.
      change (keeps (same_mode t) (txn_commit_stmt env rq)).
      unfold txn_commit_stmt. keeps_auto mode_side.
    - revert Hb. generalize w.
      change (keeps (same_mode t) (txn_rollback_stmt env)).
      unfold txn_rollback_stmt. keeps_auto mode_side. }
  split; [exact Hm|].
  intros Hn. unfold txn_check_autocommit, bind, deref_txn.
  rewrite Ht. destruct (fiber_txn (run_op env o w)) as [t'|]; [| congruence].
  destruct Hm as (Ha & _). rewrite Ha.
  destruct (is_autocommit t); reflexivity.
Qed.

Lemma transaction_mode_is_fixed_witness :
  same_mode
    (mk_txn [] true false 1 2 0 false false 0 None None [] [])
    (fiber_txn (run_op env_ok (OpPrepareTwoPhase 0 0) w_two_phase)) /\
  (fiber_txn (run_op env_ok (OpPrepareTwoPhase 0 0) w_two_phase) <> None ->
   fst (txn_check_autocommit (run_op env_ok (OpPrepareTwoPhase 0 0) w_two_phase))
   = fst (txn_check_autocommit w_two_phase)).
Proof.
  apply (transaction_mode_is_fixed env_ok (OpPrepareTwoPhase 0 0) w_two_phase).
  reflexivity.
Defined.

(** * Statements issued by triggers, and the count of rows *)

Lemma stmt_run_ind' (P : stmt_run -> Prop) :
  (forall c issued, (forall tr, Forall P (issued tr)) -> P (Committed c issued)) ->
  (forall c, P (RolledBack c)) ->
  forall s, P s.
Proof.
  intros Hc Hr. fix IH 1. intros [c issued | c].
  - apply Hc. intros tr. generalize (issued tr).
    fix IHl 1. intros [|x l]; constructor; [apply IH | apply IHl].
  - apply Hr.
Qed.

(** Triggers that issue nothing: the re-entrant definitions are the
    plain ones. *)
Lemma trigger_run_reentrant_idle (env : Env) (l : trigger_list)
    (ts : list trigger_id) (w : world) :
  trigger_run_reentrant env l ts (fun _ => ret tt) w = trigger_run env l ts w.
Proof.
  revert w. induction ts as [|t ts IH]; intros w; cbn; [reflexivity|].
  destruct (trigger_call env l t w); [reflexivity|].
  exact (IH _).
Qed.

Lemma bind_ext {A B : Type} (m : M A) (k1 k2 : A -> M B) (w : world) :
  (forall a w', k1 a w' = k2 a w') -> bind m k1 w = bind m k2 w.
Proof.
  intros H. unfold bind. destruct (m w) as [[a| |] w']; [apply H | | ];
    reflexivity.
Qed.

Lemma txn_commit_stmt_reentrant_idle (env : Env) (rq : request) (w : world) :
  txn_commit_stmt_reentrant env rq (fun _ => ret tt) w = txn_commit_stmt env rq w.
Proof.
  unfold txn_commit_stmt_reentrant, txn_commit_stmt.
  apply bind_ext. intros t w0.
  apply bind_ext. intros _ w1.
  apply bind_ext. intros _ w2.
  destruct (stailq_last_entry (stmts t)) as [stmt|]; [|reflexivity].
  destruct (stmt_space stmt) as [sp|]; [|reflexivity].
  apply bind_ext. intros _ w3.
  destruct (negb (rlist_empty (on_replace sp)) && run_triggers sp
            && (non_null (old_tuple stmt) || non_null (new_tuple stmt)));
    [|reflexivity].
  unfold bind. rewrite trigger_run_reentrant_idle. reflexivity.
Qed.

Lemma execute_is_op (env : Env) (old new : option tuple) (w : world) :
  execute old new w = (Ret tt, run_op env (OpExecute old new) w).
Proof. reflexivity. Qed.

(** The steps of the re-entrant [txn_commit_stmt]: the redo step, the
    triggers that fire with the statements they issue, and the end of
    the statement. *)
Lemma txn_commit_stmt_reentrant_steps (env : Env) (rq : request)
    (issue : trigger_id -> M unit) (w : world) (t : txn) (s : txn_stmt)
    (sp : space) :
  fiber_txn w = Some t ->
  in_sub_stmt t > 0 ->
  in_prepare t = false ->
  stailq_last_entry (stmts t) = Some s ->
  stmt_space s = Some sp ->
  txn_commit_stmt_reentrant env rq issue w
  = bind (trigger_run_reentrant env (L_on_replace (space_id sp))
            (if triggers_fire s sp then on_replace sp else []) issue)
      (fun _ => commit_stmt_end env)
      (set_fiber_txn (Some (commit_stmt_redo env rq sp t)) w).
Proof.
  intros Ht Hd Hp Hl Hs. destruct_world w. subst ft.
  unfold txn_commit_stmt_reentrant.
  bind_step.
  assert (G : (in_sub_stmt t >? 0) = true) by (apply Z.gtb_lt; lia).
  rewrite G, Hp, Hl, Hs. do 2 bind_step.
  unfold commit_stmt_redo, triggers_fire, commit_stmt_end.
  destruct (space_is_temporary sp); cbn [negb].
  - bind_step.
    destruct (negb (rlist_empty (on_replace sp)) && run_triggers sp
              && (non_null (old_tuple s) || non_null (new_tuple s)));
      destruct t; reflexivity.
  - rewrite bind_assoc. do 2 bind_step.
    destruct (negb (rlist_empty (on_replace sp)) && run_triggers sp
              && (non_null (old_tuple s) || non_null (new_tuple s)));
      reflexivity.
Qed.

Lemma logs_refl (env : Env) (t : txn) : logs env [] t t.
Proof.
  unfold logs. cbn. rewrite Z.add_0_r, app_nil_r. repeat split; reflexivity.
Qed.

Lemma logs_app (env : Env) (l1 l2 : list stmt_call) (t t1 t2 : txn) :
  logs env l1 t t1 -> logs env l2 t1 t2 -> logs env (l1 ++ l2) t t2.
Proof.
  intros (A1 & B1 & C1 & D1 & N1 & R1) (A2 & B2 & C2 & D2 & N2 & R2).
  unfold logs. rewrite length_app, map_app, Nat2Z.inj_add, app_assoc.
  repeat split; try congruence. lia.
Qed.

Lemma runs_as_ret (env : Env) (a : engine_id) (d : Z) (b : bool) :
  runs_as env a (ret tt) d [] b.
Proof.
  intros w t Ht Hr _. exists w, t.
  split; [reflexivity|]. split; [exact Ht|]. split; [exact Hr|].
  apply logs_refl.
Qed.

Lemma runs_as_bind (env : Env) (a : engine_id) (m k : M unit) (d : Z)
    (l1 l2 : list stmt_call) (b1 b2 : bool) :
  runs_as env a m d l1 b1 ->
  runs_as env a k d l2 b2 ->
  runs_as env a (bind m (fun _ => k)) d (l1 ++ l2) (b1 && b2).
Proof.
  intros Hm Hk w t Ht Hr Hmode.
  destruct (Hm w t Ht Hr) as (w1 & t1 & E1 & F1 & R1 & L1).
  { destruct Hmode as [H | [H1 H2]]; [left; exact H|].
    right. apply andb_prop in H2. split; [exact H1 | apply H2]. }
  destruct (Hk w1 t1 F1 R1) as (w2 & t2 & E2 & F2 & R2 & L2).
  { destruct L1 as (A1 & _). rewrite A1.
    destruct Hmode as [H | [H1 H2]]; [left; exact H|].
    right. apply andb_prop in H2. split; [exact H1 | apply H2]. }
  exists w2, t2. erewrite bind_ret_eq by exact E1.
  split; [exact E2|]. split; [exact F2|]. split; [exact R2|].
  apply (logs_app env l1 l2 t t1 t2 L1 L2).
Qed.

Lemma runs_as_all (env : Env) (a : engine_id) (d : Z) {X : Type}
    (f : X -> M unit) (g : X -> list stmt_call) (h : X -> bool) (l : list X) :
  Forall (fun x => runs_as env a (f x) d (g x) (h x)) l ->
  runs_as env a (run_all (map f l)) d (flat_map g l) (forallb h l).
Proof.
  induction 1 as [|x l Hx _ IH]; cbn [map run_all flat_map forallb].
  - apply runs_as_ret.
  - apply runs_as_bind; assumption.
Qed.

(** The triggers of a list that all return run the statements they
    issue one trigger after the other. *)
Lemma runs_as_triggers (env : Env) (a : engine_id) (d : Z) (L : trigger_list)
    (issue : trigger_id -> M unit) (g : trigger_id -> list stmt_call)
    (h : trigger_id -> bool) (ts : list trigger_id) :
  (forall tr w, trigger_call env L tr w = None) ->
  (forall tr, In tr ts -> runs_as env a (issue tr) d (g tr) (h tr)) ->
  runs_as env a (trigger_run_reentrant env L ts issue) d (flat_map g ts)
    (forallb h ts).
Proof.
  intros Hret. induction ts as [|tr ts IH]; intros Hiss;
    cbn [trigger_run_reentrant flat_map forallb].
  - apply runs_as_ret.
  - intros w t Ht Hr Hmode. rewrite Hret.
    apply (runs_as_bind env a (issue tr) (trigger_run_reentrant env L ts issue)
             d (g tr) (flat_map g ts) (h tr) (forallb h ts)).
    + apply Hiss. left. reflexivity.
    + apply IH. intros tr' H. apply Hiss. right. exact H.
    + exact Ht.
    + exact Hr.
    + exact Hmode.
Qed.

(** The re-entrant [txn_commit_stmt] up to the end of the statement:
    the statement gets its row unless its space is temporary, and the
    triggers that fire run the statements they issue, one level down. *)
Lemma commit_reentrant_until_end (env : Env) (a : engine_id) (c : stmt_call)
    (issue : trigger_id -> M unit) (g : trigger_id -> list stmt_call)
    (h : trigger_id -> bool) (w : world) (t : txn) (init : list txn_stmt)
    (d : Z) :
  (forall l tr w', trigger_call env l tr w' = None) ->
  fiber_txn w = Some t ->
  stmts t
  = init ++ [mk_stmt (Some (call_space c)) (call_old c) (call_new c) None None] ->
  in_sub_stmt t = d + 1 ->
  0 <= d ->
  in_prepare t = false ->
  engine t = Some a ->
  (forall tr, In tr (fired c) -> runs_as env a (issue tr) (d + 1) (g tr) (h tr)) ->
  is_autocommit t = false \/ forallb h (fired c) = true ->
  exists w' t',
    txn_commit_stmt_reentrant env (call_request c) issue w
    = commit_stmt_end env w' /\
    fiber_txn w' = Some t' /\
    ready a (d + 1) t' /\
    logs env
      ((if space_is_temporary (call_space c) then [] else [c])
       ++ flat_map g (fired c)) t t'.
Proof.
  intros Htrg Ht Hs Hd Hd0 Hp Hen Hiss Hmode.
  rewrite (txn_commit_stmt_reentrant_steps env (call_request c) issue w t
             (mk_stmt (Some (call_space c)) (call_old c) (call_new c) None None)
             (call_space c));
    [ | exact Ht | lia | exact Hp | rewrite Hs; apply stailq_last_entry_app
      | reflexivity ].
  change (if triggers_fire _ (call_space c) then on_replace (call_space c)
          else []) with (fired c).
  set (t3 := commit_stmt_redo env (call_request c) (call_space c) t).
  assert (L3 : logs env (if space_is_temporary (call_space c) then [] else [c])
                 t t3).
  { subst t3. unfold logs, commit_stmt_redo.
    destruct (space_is_temporary (call_space c)).
    - apply logs_refl.
    - cbn [is_autocommit is_two_phase in_prepare in_sub_stmt n_rows stmts
           set_n_rows set_stmts length map].
      rewrite Hs, update_last_app, !present_rows_app, txn_add_redo_row. cbn.
      rewrite ?app_nil_r. repeat split; reflexivity. }
  assert (En3 : engine t3 = Some a).
  { subst t3. unfold commit_stmt_redo.
    destruct (space_is_temporary (call_space c)); exact Hen. }
  pose proof L3 as (A3 & T3 & P3 & D3 & N3 & R3).
  assert (Hr3 : ready a (d + 1) t3).
  { unfold ready. rewrite P3, D3, En3.
    repeat split; try assumption; try lia. left. reflexivity. }
  destruct (runs_as_triggers env a (d + 1)
              (L_on_replace (space_id (call_space c))) issue g h (fired c)
              (Htrg _) Hiss
              (set_fiber_txn (Some t3) w) t3 eq_refl Hr3)
    as (w4 & t4 & E4 & F4 & R4 & L4).
  { rewrite A3. destruct Hmode as [H | H]; [left; exact H|].
    right. split; [lia | exact H]. }
  exists w4, t4. erewrite bind_ret_eq by exact E4.
  split; [reflexivity|]. split; [exact F4|]. split; [exact R4|].
  apply (logs_app env _ _ t t3 t4 L3 L4).
Qed.

(** What [txn_begin_stmt] and the execution leave of a transaction. *)
Lemma statement_begun (c : stmt_call) (t : txn) :
  let sp := call_space c in
  let tb := set_engine (Some (handler_engine sp))
              (set_in_sub_stmt (in_sub_stmt t + 1)
                 (set_stmts (stmts t ++ [mk_stmt (Some sp) None None None None])
                    t)) in
  let t2 := set_stmts
              (update_last (set_tuples (call_old c) (call_new c)) (stmts tb))
              tb in
  stmts t2 = stmts t ++ [mk_stmt (Some sp) (call_old c) (call_new c) None None] /\
  in_sub_stmt t2 = in_sub_stmt t + 1 /\
  engine t2 = Some (handler_engine sp) /\
  is_autocommit t2 = is_autocommit t /\
  is_two_phase t2 = is_two_phase t /\
  in_prepare t2 = in_prepare t /\
  n_rows t2 = n_rows t /\
  present_rows (stmts t2) = present_rows (stmts t).
Proof.
  destruct c as [sp old new rq].
  destruct t as [ss tp ip ti ci nr ac ht d eng etx oc orb].
  cbn [call_space call_old call_new call_request].
  cbv zeta.
  cbn [stmts set_stmts set_engine set_in_sub_stmt in_sub_stmt in_prepare
       is_autocommit engine n_rows is_two_phase].
  rewrite update_last_app, present_rows_app. cbn.
  rewrite !app_nil_r. repeat split; reflexivity.
Qed.

(** A run of statements, with the statements that the triggers issue,
    returns and logs the committed statements on spaces that are not
    temporary. *)
Lemma run_stmt_runs_as (env : Env) (a : engine_id) :
  collaborators_return env ->
  forall s d,
    fits d s = true ->
    runs_on a s = true ->
    runs_as env a (run_stmt env s) d (logged s) (all_committed s).
Proof.
  intros Hret. pose proof Hret as [Heng Htrg].
  induction s as [c issued IH | c] using stmt_run_ind';
    intros d Hfit Hon w t Ht Hr Hmode.
  - cbn [fits] in Hfit. apply andb_prop in Hfit. destruct Hfit as [Hd Hnest].
    apply Z.leb_le in Hd.
    cbn [runs_on] in Hon. apply andb_prop in Hon. destruct Hon as [Ha Hon].
    apply Nat.eqb_eq in Ha.
    destruct Hr as (Hp & Hdep & Hd0 & Hen).
    pose proof (statement_begun c t) as Hbegun. cbv zeta in Hbegun.
    destruct (txn_begin_stmt_accepted env (call_space c) w t Hret Ht) as [B1 B2];
      [lia | exact Hp | rewrite Ha; exact Hen |].
    assert (E1 : txn_begin_stmt env (call_space c) w
                 = (Ret tt, snd (txn_begin_stmt env (call_space c) w))).
    { destruct (txn_begin_stmt env (call_space c) w) as [o w1].
      cbn in B1. subst o. reflexivity. }
    set (w1 := snd (txn_begin_stmt env (call_space c) w)) in *.
    cbn [run_stmt]. erewrite bind_ret_eq by exact E1.
    erewrite bind_ret_eq by reflexivity. rewrite B2.
    match goal with
    | |- context [set_fiber_txn (Some ?T2) w1] => set (t2 := T2) in *
    end.
    destruct Hbegun as (S2 & D2 & En2 & A2 & T2 & P2 & N2 & R2).
    assert (Hiss : forall tr, In tr (fired c) ->
              runs_as env a (run_all (map (run_stmt env) (issued tr))) (d + 1)
                (flat_map logged (issued tr))
                (forallb all_committed (issued tr))).
    { intros tr Hin. apply runs_as_all.
      rewrite forallb_forall in Hnest, Hon.
      specialize (Hnest tr Hin). specialize (Hon tr Hin).
      rewrite forallb_forall in Hnest, Hon.
      specialize (IH tr). rewrite Forall_forall in *.
      intros x Hx. apply IH; [exact Hx | apply Hnest, Hx | apply Hon, Hx]. }
    destruct (commit_reentrant_until_end env a c
                (fun tr => run_all (map (run_stmt env) (issued tr)))
                (fun tr => flat_map logged (issued tr))
                (fun tr => forallb all_committed (issued tr))
                (set_fiber_txn (Some t2) w1) t2 (stmts t) d Htrg eq_refl S2)
      as (w4 & t4 & E4 & F4 & R4 & L4);
      [ lia | exact Hd0 | congruence | congruence | exact Hiss | | ].
    { rewrite A2. destruct Hmode as [H | [_ H]]; [left | right]; exact H. }
    destruct L4 as (A4 & T4 & P4 & D4 & N4 & Rw4).
    destruct R4 as (_ & _ & _ & En4).
    rewrite E4. unfold commit_stmt_end.
    erewrite bind_ret_eq by (unfold update_txn; rewrite F4; reflexivity).
    erewrite bind_ret_eq by reflexivity.
    cbn [is_autocommit in_sub_stmt set_in_sub_stmt].
    assert (G : is_autocommit t4 && (in_sub_stmt t4 - 1 =? 0) = false).
    { rewrite A4, A2, D4, D2, Hdep.
      destruct Hmode as [H | [H1 _]]; [rewrite H; reflexivity|].
      apply andb_false_intro2. apply Z.eqb_neq. lia. }
    rewrite G. eexists. eexists. split; [reflexivity|].
    split; [reflexivity|]. split.
    + unfold ready. cbn [in_prepare in_sub_stmt engine stmts set_in_sub_stmt].
      rewrite P4, P2, D4, D2.
      repeat split; try assumption; lia.
    + unfold logs.
      cbn [is_autocommit is_two_phase in_prepare in_sub_stmt n_rows stmts
           set_in_sub_stmt logged].
      rewrite A4, A2, T4, T2, P4, P2, D4, D2, N4, N2, Rw4, R2.
      repeat split; try reflexivity; lia.
  - cbn [fits] in Hfit. apply andb_prop in Hfit. destruct Hfit as [Hd _].
    apply Z.leb_le in Hd.
    cbn [runs_on] in Hon. apply Nat.eqb_eq in Hon.
    destruct Hmode as [Hac | [_ Hf]]; [| discriminate Hf].
    destruct Hr as (Hp & Hdep & Hd0 & Hen).
    pose proof (statement_begun c t) as Hbegun. cbv zeta in Hbegun.
    destruct (txn_begin_stmt_accepted env (call_space c) w t Hret Ht) as [B1 B2];
      [lia | exact Hp | rewrite Hon; exact Hen |].
    assert (E1 : txn_begin_stmt env (call_space c) w
                 = (Ret tt, snd (txn_begin_stmt env (call_space c) w))).
    { destruct (txn_begin_stmt env (call_space c) w) as [o w1].
      cbn in B1. subst o. reflexivity. }
    set (w1 := snd (txn_begin_stmt env (call_space c) w)) in *.
    cbn [run_stmt]. erewrite bind_ret_eq by exact E1.
    erewrite bind_ret_eq by reflexivity. rewrite B2.
    match goal with
    | |- context [set_fiber_txn (Some ?T2) w1] => set (t2 := T2) in *
    end.
    destruct Hbegun as (S2 & D2 & En2 & A2 & T2 & P2 & N2 & R2).
    set (w2 := set_fiber_txn (Some t2) w1).
    destruct (txn_rollback_stmt_slot env w2 t2 (stmts t)
                (mk_stmt (Some (call_space c)) (call_old c) (call_new c) None None)
                (handler_engine (call_space c)) eq_refl) as [R1 R3];
      [ congruence | lia | exact S2 | exact En2
      | intros H; cbn in H; congruence | apply Heng | ].
    assert (E2 : txn_rollback_stmt env w2
                 = (Ret tt, snd (txn_rollback_stmt env w2))).
    { destruct (txn_rollback_stmt env w2) as [o w3].
      cbn in R1. subst o. reflexivity. }
    eexists. eexists. split; [exact E2|]. split; [exact R3|].
    unfold row_contribution, set_row.
    cbn [row non_null stmt_space old_tuple new_tuple engine_savepoint].
    split.
    + unfold ready.
      cbn [in_prepare in_sub_stmt engine stmts set_in_sub_stmt set_n_rows
           set_stmts].
      rewrite P2, D2, En2, Hon.
      repeat split; try assumption; try lia. left. reflexivity.
    + unfold logs.
      cbn [is_autocommit is_two_phase in_prepare in_sub_stmt n_rows stmts
           set_in_sub_stmt set_n_rows set_stmts logged length map].
      rewrite A2, T2, P2, D2, N2, present_rows_app. cbn.
      rewrite !app_nil_r.
      repeat split; try reflexivity; lia.
Qed.

Lemma run_stmts_runs_as (env : Env) (a : engine_id) (l : list stmt_run)
    (d : Z) :
  collaborators_return env ->
  forallb (fits d) l = true ->
  forallb (runs_on a) l = true ->
  runs_as env a (run_stmts env l) d (flat_map logged l)
    (forallb all_committed l).
Proof.
  intros Hret Hfit Hon. unfold run_stmts. apply runs_as_all.
  rewrite forallb_forall in Hfit, Hon. apply Forall_forall. intros s Hs.
  apply run_stmt_runs_as; [exact Hret | apply Hfit, Hs | apply Hon, Hs].
Qed.

Lemma keeps_rows_prepare (env : Env) (n : Z) (rows : list xrow_header)
    (ip r : Z) :
  keeps (has_rows n rows) (box_txn_prepare_two_phase env ip r).
Proof.
  unfold box_txn_prepare_two_phase, txn_prepare_two_phase.
  keeps_auto ltac:(try assumption).
Qed.

(** A committed statement whose triggers issue nothing is the three
    calls [txn_begin_stmt], execution and [txn_commit_stmt]. *)
Lemma run_stmt_idle (env : Env) (c : stmt_call) (w : world) :
  fst (txn_begin_stmt env (call_space c) w) = Ret tt ->
  snd (run_stmt env (Committed c (fun _ => [])) w)
  = run_ops env (call_ops c) w.
Proof.
  intros H. unfold call_ops, run_ops. cbn [fold_left run_op run_stmt].
  assert (E : txn_begin_stmt env (call_space c) w
              = (Ret tt, snd (txn_begin_stmt env (call_space c) w))).
  { destruct (txn_begin_stmt env (call_space c) w) as [o w1].
    cbn in H. subst o. reflexivity. }
  erewrite bind_ret_eq by exact E.
  erewrite bind_ret_eq by reflexivity.
  cbn [map run_all].
  rewrite <- txn_commit_stmt_reentrant_idle. reflexivity.
Qed.

(** C4, as the code has it.  Statements run as the callers of the
    manager run them: begun, executed, and committed or rolled back one
    after another, the statements that on_replace triggers issue running
    inside the commit of the statement that fired them.  With an engine
    and triggers that return, [n_rows] at the time of the commit is the
    number of committed statements whose space is not temporary,
    whether or not the statement found or produced a tuple; statements
    on temporary spaces and rolled-back statements get no log row and do
    not count.  This holds for a transaction begun with [box_txn_begin]
    or [box_txn_begin_two_phase], before and after it is prepared, and
    for the transaction of a statement in autocommit mode when its
    [txn_commit_stmt] reaches [txn_commit].  (In autocommit mode
    [txn_rollback_stmt] rolls the whole transaction back, so a run that
    reaches the commit has rolled no statement back.) *)
Theorem n_rows_counts_durable_statements (env : Env) (a : engine_id)
    (w : world) :
  collaborators_return env ->
  fiber_txn w = None ->
  (forall (two_phase : option (Z * Z)) (l : list stmt_run),
     forallb (fits 0) l = true ->
     forallb (runs_on a) l = true ->
     exists w' t,
       run_stmts env l (run_op env (begin_op two_phase) w) = (Ret tt, w') /\
       fiber_txn w' = Some t /\
       is_autocommit t = false /\
       is_two_phase t = non_null two_phase /\
       in_sub_stmt t = 0 /\
       n_rows t = Z.of_nat (length (flat_map logged l)) /\
       present_rows (stmts t)
       = map (fun c => request_row env (call_request c)) (flat_map logged l) /\
       forall ip r,
         has_rows (n_rows t) (present_rows (stmts t))
           (fiber_txn (run_op env (OpPrepareTwoPhase ip r) w'))) /\
  (forall (c : stmt_call) (issued : trigger_id -> list stmt_run),
     let s := Committed c issued in
     fits 0 s = true ->
     runs_on a s = true ->
     all_committed s = true ->
     exists wc tc,
       run_stmt env s w = txn_commit env wc /\
       fiber_txn wc = Some tc /\
       is_autocommit tc = true /\
       in_sub_stmt tc = 0 /\
       n_rows tc = Z.of_nat (length (logged s)) /\
       present_rows (stmts tc)
       = map (fun c => request_row env (call_request c)) (logged s)).
Proof.
  intros Hret Hw. pose proof Hret as [Heng Htrg]. split.
  - intros two_phase l Hfit Hon.
    set (w0 := run_op env (begin_op two_phase) w).
    assert (H0 : exists t0,
               fiber_txn w0 = Some t0 /\ ready a 0 t0 /\
               is_autocommit t0 = false /\ is_two_phase t0 = non_null two_phase /\
               n_rows t0 = 0 /\ stmts t0 = []).
    { subst w0. destruct_world w. subst ft.
      destruct two_phase as [[id co]|]; cbn; eexists;
        (split; [reflexivity|]); unfold ready; cbn;
        repeat split; try reflexivity; try lia; right; split; reflexivity. }
    destruct H0 as (t0 & F0 & R0 & A0 & T0 & N0 & S0).
    destruct (run_stmts_runs_as env a l 0 Hret Hfit Hon w0 t0 F0 R0
                (or_introl A0))
      as (w' & t & E & F & R & L).
    destruct L as (A & T & P & D & N & Rw).
    destruct R0 as (_ & D0 & _).
    rewrite S0 in Rw. cbn [present_rows app] in Rw.
    exists w', t. split; [exact E|]. split; [exact F|].
    split; [congruence|]. split; [congruence|]. split; [congruence|].
    split; [lia|]. split; [exact Rw|].
    intros ip r. cbn [run_op].
    apply (keeps_rows_prepare env (n_rows t) (present_rows (stmts t)) ip r w').
    rewrite F. split; reflexivity.
  - intros c issued s Hfit Hon Hall. subst s.
    cbn [fits] in Hfit. apply andb_prop in Hfit. destruct Hfit as [_ Hnest].
    cbn [runs_on] in Hon. apply andb_prop in Hon. destruct Hon as [Ha Hon].
    apply Nat.eqb_eq in Ha.
    cbn [all_committed] in Hall.
    cbn [run_stmt].
    erewrite bind_ret_eq by (apply txn_begin_stmt_implicit; assumption).
    erewrite bind_ret_eq by reflexivity.
    cbn [fiber_txn add_trace set_fiber_txn].
    match goal with
    | |- context [txn_commit_stmt_reentrant env _ _ ?W2] => set (w2 := W2)
    end.
    assert (Hiss : forall tr, In tr (fired c) ->
              runs_as env a (run_all (map (run_stmt env) (issued tr))) (0 + 1)
                (flat_map logged (issued tr))
                (forallb all_committed (issued tr))).
    { intros tr Hin. apply run_stmts_runs_as; [exact Hret | | ].
      - rewrite forallb_forall in Hnest. apply (Hnest tr Hin).
      - rewrite forallb_forall in Hon. apply (Hon tr Hin). }
    destruct (commit_reentrant_until_end env a c
                (fun tr => run_all (map (run_stmt env) (issued tr)))
                (fun tr => flat_map logged (issued tr))
                (fun tr => forallb all_committed (issued tr))
                w2 _ [] 0 Htrg eq_refl eq_refl)
      as (w4 & t4 & E4 & F4 & R4 & L4);
      [ reflexivity | lia | reflexivity | cbn; congruence | exact Hiss
      | right; exact Hall | ].
    destruct L4 as (A4 & T4 & P4 & D4 & N4 & Rw4).
    rewrite E4. unfold commit_stmt_end.
    erewrite bind_ret_eq by (unfold update_txn; rewrite F4; reflexivity).
    erewrite bind_ret_eq by reflexivity.
    cbn [is_autocommit in_sub_stmt set_in_sub_stmt].
    cbn [is_autocommit in_sub_stmt n_rows stmts set_stmts update_last
         set_tuples present_rows row app] in A4, D4, N4, Rw4.
    rewrite A4, D4. cbn [Z.sub Z.add Z.eqb andb Z.pos_sub Z.opp].
    eexists. eexists. split; [reflexivity|].
    split; [reflexivity|].
    cbn [is_autocommit in_sub_stmt n_rows stmts set_in_sub_stmt logged].
    rewrite A4, N4, Rw4.
    repeat split; reflexivity.
Qed.

Lemma n_rows_counts_durable_statements_witness :
  (exists w' t,
     run_stmts env_ok runs_mixed
       (run_op env_ok (begin_op (Some (1, 2))) world0) = (Ret tt, w') /\
     fiber_txn w' = Some t /\
     is_autocommit t = false /\
     is_two_phase t = true /\
     in_sub_stmt t = 0 /\
     n_rows t = 3 /\
     present_rows (stmts t)
     = [request_row env_ok request_lua'; request_row env_ok request_lua;
        request_row env_ok request_lua] /\
     forall ip r,
       has_rows (n_rows t) (present_rows (stmts t))
         (fiber_txn (run_op env_ok (OpPrepareTwoPhase ip r) w'))) /\
  (exists wc tc,
     run_stmt env_ok run_replace_committed world0 = txn_commit env_ok wc /\
     fiber_txn wc = Some tc /\
     is_autocommit tc = true /\
     in_sub_stmt tc = 0 /\
     n_rows tc = 2 /\
     present_rows (stmts tc)
     = [request_row env_ok request_lua'; request_row env_ok request_lua]).
Proof.
  destruct (n_rows_counts_durable_statements env_ok 0%nat world0) as [P1 P2].
  - split; intros; reflexivity.
  - reflexivity.
  - split.
    + apply (P1 (Some (1, 2)) runs_mixed); reflexivity.
    + apply (P2 call_replace
               (fun _ => [Committed call_no_change (fun _ => [])]));
        reflexivity.
Defined.
